(** * leafmap, folium backend: a shallow embedding of [leafmap/foliumap.py]

    The module is a thin layer over the folium map widget.  Every method of
    [Map] validates or reshapes its arguments, calls collaborators (the
    titiler tile service, geopandas, the file system, the network) and
    attaches elements to the widget.  The embedding below keeps that shape:

    - Python values that the code inspects dynamically ([isinstance], [len],
      [startswith], indexing) are values of [pyval];
    - exceptions are values of [exn], and a method is a computation in the
      state-and-exception monad [M] over [State], the map widget together
      with the part of the outside world the methods touch;
    - a state change made before an exception is raised stays, as in Python;
    - functions of other modules ([leafmap.common], [leafmap.legends],
      folium's renderer, [os.path], [requests], [json]) are the fields of
      one record, [Collaborators]. *)

From Stdlib Require Import ZArith QArith Qminmax.
From stdpp Require Import base strings list gmap pretty.

Close Scope Q_scope.
Open Scope string_scope.
Open Scope list_scope.
Set Warnings "-register-all".

(** ** Python values and exceptions *)

(** The values the module handles.  A float is a binary64 number:
    [VFloat q] is the float nearest to [q], so that a float literal of the
    source is written by its decimal value. *)
Inductive pyval : Type :=
| VNone
| VBool (b : bool)
| VInt (z : Z)
| VFloat (q : Q)
| VStr (s : string)
| VTuple (items : list pyval)
| VList (items : list pyval)
| VDict (kv : list (pyval * pyval)).

(** The exception classes the module raises or lets through.  [Exception e]
    is [raise Exception(e)]: a generic exception that carries [e].
    [CollaboratorError] stands for whatever a collaborator raises. *)
Inductive exn : Type :=
| FileNotFoundError (msg : string)
| ValueError (msg : string)
| TypeError (msg : string)
| AttributeError (msg : string)
| IndexError (msg : string)
| KeyError (msg : string)
| NotImplementedError (msg : string)
| OSError (msg : string)
| IsADirectoryError (msg : string)
| CollaboratorError (msg : string)
| Exception (e : exn).

Inductive result (A : Type) : Type :=
| Ok (a : A)
| Err (e : exn).
Arguments Ok {A} a.
Arguments Err {A} e.

#[global] Instance result_ret : MRet result := λ A x, Ok x.
#[global] Instance result_bind : MBind result := λ A B f r,
  match r with Ok x => f x | Err e => Err e end.

Definition is_ok {A} (r : result A) : bool :=
  match r with Ok _ => true | Err _ => false end.

(** The classes of the spec's error taxonomy: a validation failure is a
    [ValueError] or a [TypeError]. *)
Definition is_validation_error (e : exn) : bool :=
  match e with ValueError _ | TypeError _ => true | _ => false end.

Definition is_file_not_found (e : exn) : bool :=
  match e with FileNotFoundError _ => true | _ => false end.

Definition is_not_supported (e : exn) : bool :=
  match e with NotImplementedError _ => true | _ => false end.

(** ** The string methods the module calls *)

Definition startswith (s p : string) : bool := String.prefix p s.

Definition endswith (s p : string) : bool :=
  (String.length p <=? String.length s)%nat
  && String.eqb (String.substring (String.length s - String.length p) (String.length p) s) p.

(** [str.replace(old, new)] for a non-empty [old]: matches are taken left to
    right and do not overlap; [skip] counts the characters of a match that
    are still to be dropped. *)
Fixpoint replace_from (old new : string) (skip : nat) (s : string) : string :=
  match s with
  | EmptyString => EmptyString
  | String c rest =>
      match skip with
      | S k => replace_from old new k rest
      | O =>
          if String.prefix old s
          then new +:+ replace_from old new (String.length old - 1) rest
          else String c (replace_from old new 0 rest)
      end
  end.

Definition str_replace (s old new : string) : string := replace_from old new 0 s.

Definition newline : Ascii.ascii := Ascii.ascii_of_nat 10.
Definition carriage_return : Ascii.ascii := Ascii.ascii_of_nat 13.

(** What a file opened in text mode gives for the bytes [s]: a carriage
    return followed by a line feed, and a carriage return alone, are both
    read as one line feed.  [after_cr] tells that the character before was
    a carriage return, already turned into a line feed. *)
Fixpoint universal_newlines_from (after_cr : bool) (s : string) : string :=
  match s with
  | EmptyString => EmptyString
  | String c rest =>
      if Ascii.eqb c carriage_return
      then String newline (universal_newlines_from true rest)
      else if Ascii.eqb c newline && after_cr
      then universal_newlines_from false rest
      else String c (universal_newlines_from false rest)
  end.

Definition universal_newlines (s : string) : string := universal_newlines_from false s.

(** [f.readlines()] on a text whose line ends are line feeds: the lines,
    each with its line terminator. *)
Fixpoint readlines_from (cur : string) (s : string) : list string :=
  match s with
  | EmptyString => if String.eqb cur "" then [] else [cur]
  | String c rest =>
      if Ascii.eqb c newline
      then (cur +:+ String c "") :: readlines_from "" rest
      else readlines_from (cur +:+ String c "") rest
  end.

Definition readlines (s : string) : list string := readlines_from "" s.

(** ["".join(parts)] and [sep.join(parts)]. *)
Definition str_join (sep : string) (parts : list string) : string :=
  String.concat sep parts.

(** ** Dynamic operations on values *)

Definition is_tuple (v : pyval) : bool := match v with VTuple _ => true | _ => false end.
Definition is_str (v : pyval) : bool := match v with VStr _ => true | _ => false end.
Definition is_dict (v : pyval) : bool := match v with VDict _ => true | _ => false end.
Definition is_none (v : pyval) : bool := match v with VNone => true | _ => false end.

(** [len(v)]; numbers, booleans and [None] have no length. *)
Definition py_len (v : pyval) : result nat :=
  match v with
  | VStr s => Ok (String.length s)
  | VTuple l | VList l => Ok (length l)
  | VDict kv => Ok (length kv)
  | _ => Err (TypeError "object has no len()")
  end.

(** [v.startswith(p)]: only strings have the method. *)
Definition py_startswith (v : pyval) (p : string) : result bool :=
  match v with
  | VStr s => Ok (startswith s p)
  | _ => Err (AttributeError "object has no attribute 'startswith'")
  end.

(** [round53 q] is the number nearest to [q] among those with a
    significand of 53 bits, ties going to the even significand: the value
    of the float nearest to [q], and what an operation whose exact result
    is [q] returns, when [q] is in the normal range of binary64.
    [num / den] is scaled by a power of two into the interval from
    [2 ^ 52] to [2 ^ 53] and rounded there. *)
Definition round_half_even (num den : Z) : Z :=
  let m := (num / den)%Z in
  let r := (num mod den)%Z in
  if (2 * r <? den)%Z then m
  else if (den <? 2 * r)%Z then (m + 1)%Z
  else if Z.even m then m else (m + 1)%Z.

Definition scale2 (e num den : Z) : Z * Z :=
  if (0 <=? e)%Z then (num, den * 2 ^ e)%Z else (num * 2 ^ (- e), den)%Z.

Definition round53 (q : Q) : Q :=
  let n := Z.abs (Qnum q) in
  let d := Z.pos (Qden q) in
  if (n =? 0)%Z then 0%Q
  else
    let e0 := (Z.log2 n - Z.log2 d - 52)%Z in
    let e := if ((scale2 e0 n d).1 <? (scale2 e0 n d).2 * 2 ^ 52)%Z then (e0 - 1)%Z else e0 in
    let m := round_half_even (scale2 e n d).1 (scale2 e n d).2 in
    let v := if (0 <=? e)%Z then inject_Z (m * 2 ^ e)
             else Qred (Qmake m (Z.to_pos (2 ^ (- e)))) in
    if (Qnum q <? 0)%Z then Qopp v else v.

(** [type(v).__name__]. *)
Definition type_name (v : pyval) : string :=
  match v with
  | VNone => "NoneType"
  | VBool _ => "bool"
  | VInt _ => "int"
  | VFloat _ => "float"
  | VStr _ => "str"
  | VTuple _ => "tuple"
  | VList _ => "list"
  | VDict _ => "dict"
  end.

(** A key of a dict that equals the integer [i]: Python compares [1],
    [True] and [1.0] equal and hashes them alike. *)
Definition int_key (i : nat) (entry : pyval * pyval) : bool :=
  match entry.1 with
  | VInt z => (z =? Z.of_nat i)%Z
  | VBool b => (Z.b2z b =? Z.of_nat i)%Z
  | VFloat q => Qeq_bool (round53 q) (inject_Z (Z.of_nat i))
  | _ => false
  end.

(** The value of a dict under the integer key [i], if there is one. *)
Definition dict_at (kv : list (pyval * pyval)) (i : nat) : option pyval :=
  match filter (λ e, int_key i e = true) kv with
  | (_, x) :: _ => Some x
  | [] => None
  end.

(** [v[i]] for a constant index [i] that is not negative: an item of a list
    or a tuple, a character of a string, the value of a dict under the key
    [i]; [None], booleans and numbers cannot be subscripted. *)
Definition py_index (v : pyval) (i : nat) : result pyval :=
  match v with
  | VTuple l =>
      match l !! i with
      | Some x => Ok x
      | None => Err (IndexError "tuple index out of range")
      end
  | VList l =>
      match l !! i with
      | Some x => Ok x
      | None => Err (IndexError "list index out of range")
      end
  | VStr s =>
      match String.get i s with
      | Some c => Ok (VStr (String c ""))
      | None => Err (IndexError "string index out of range")
      end
  | VDict kv =>
      match dict_at kv i with
      | Some x => Ok x
      | None => Err (KeyError (pretty i))
      end
  | _ => Err (TypeError ("'" +:+ type_name v +:+ "' object is not subscriptable"))
  end.

(** [all(p(x) for x in l)]: stops at the first false item; an exception
    raised by [p] before that escapes. *)
Fixpoint py_all {A} (p : A → result bool) (l : list A) : result bool :=
  match l with
  | [] => Ok true
  | x :: rest =>
      match p x with
      | Err e => Err e
      | Ok false => Ok false
      | Ok true => py_all p rest
      end
  end.

(** [d.keys()], [d.values()] and [d[k]] of a dict kept in insertion order. *)
Definition dict_keys (kv : list (pyval * pyval)) : list pyval := kv.*1.
Definition dict_values (kv : list (pyval * pyval)) : list pyval := kv.*2.

Definition str_key (k : string) (entry : pyval * pyval) : bool :=
  match entry.1 with VStr s => String.eqb s k | _ => false end.

Definition dict_get (kv : list (pyval * pyval)) (k : string) : result pyval :=
  match filter (λ e, str_key k e = true) kv with
  | (_, v) :: _ => Ok v
  | [] => Err (KeyError k)
  end.

(** [x + 1] where the code adds one to a style weight: exact on integers
    and booleans, rounded on floats (the sum of a float and one never
    overflows, and below the normal range it is exact). *)
Definition py_add1 (v : pyval) : result pyval :=
  match v with
  | VInt z => Ok (VInt (z + 1))
  | VFloat q => Ok (VFloat (round53 (round53 q + 1)%Q))
  | VBool b => Ok (VInt (Z.b2z b + 1))
  | _ => Err (TypeError "unsupported operand type(s) for +")
  end.

(** ** Closures, keyword arguments and widget elements *)

(** The three closures [add_geojson] hands to folium as a style or highlight
    function: [lambda x: d] for a fixed dict [d], the caller's own
    per-feature callback, and the local function [random_color], which
    closes over [fill_colors] and over the style dict it updates in place.
    A value of a [**kwargs] dict, [kwval], is a plain value or a function. *)
Inductive style_fn : Type :=
| ConstStyle (d : pyval)
| Callback (f : pyval → pyval)
| RandomColor (fill_colors : kwval) (style_dict : kwval)
with kwval : Type :=
| KVal (v : pyval)
| KFun (f : style_fn).

(** The folium and branca elements the module creates, with the arguments
    it passes to their constructors. *)
Inductive element_body : Type :=
| TileLayer (tiles name attr overlay control show opacity api_key : pyval)
    (kwargs : gmap string kwval)
| GeoJson (data : pyval) (name : string) (kwargs : gmap string kwval)
| FitBounds (bounds : pyval) (max_zoom : option Z)
| LayerControl
| MacroElement (template : string).

(** An element has the identifier it was given when it was built (a uuid in
    branca, a fresh number here). *)
Record Element : Type := mkElement { e_id : nat; e_body : element_body }.

(** branca's [Element.get_name]: the class name in snake case, an underscore
    and the identifier. *)
Definition class_name (b : element_body) : string :=
  match b with
  | TileLayer _ _ _ _ _ _ _ _ _ => "tile_layer"
  | GeoJson _ _ _ => "geo_json"
  | FitBounds _ _ => "fit_bounds"
  | LayerControl => "layer_control"
  | MacroElement _ => "macro_element"
  end.

Definition get_name (e : Element) : string :=
  class_name (e_body e) +:+ "_" +:+ pretty (e_id e).

(** ** The state the methods act on *)

(** The map widget ([children], the children of its root figure, the
    [layersControl] option, the supply of identifiers) and the outside world:
    directories and regular files by absolute path (a list of components),
    the URLs fetched so far, the lines printed so far, and the number of
    random draws made so far. *)
Record State : Type := mkState {
  children : list Element;
  root_children : list Element;
  layersControl : bool;
  next_id : nat;
  dirs : gset (list string);
  files : gmap (list string) string;
  http_log : list string;
  stdout : list string;
  draws : nat
}.

Definition set_children (f : list Element → list Element) (s : State) : State :=
  mkState (f (children s)) (root_children s) (layersControl s) (next_id s)
          (dirs s) (files s) (http_log s) (stdout s) (draws s).
Definition set_root_children (f : list Element → list Element) (s : State) : State :=
  mkState (children s) (f (root_children s)) (layersControl s) (next_id s)
          (dirs s) (files s) (http_log s) (stdout s) (draws s).
Definition set_next_id (f : nat → nat) (s : State) : State :=
  mkState (children s) (root_children s) (layersControl s) (f (next_id s))
          (dirs s) (files s) (http_log s) (stdout s) (draws s).
Definition set_dirs (f : gset (list string) → gset (list string)) (s : State) : State :=
  mkState (children s) (root_children s) (layersControl s) (next_id s)
          (f (dirs s)) (files s) (http_log s) (stdout s) (draws s).
Definition set_files (f : gmap (list string) string → gmap (list string) string)
    (s : State) : State :=
  mkState (children s) (root_children s) (layersControl s) (next_id s)
          (dirs s) (f (files s)) (http_log s) (stdout s) (draws s).
Definition set_http_log (f : list string → list string) (s : State) : State :=
  mkState (children s) (root_children s) (layersControl s) (next_id s)
          (dirs s) (files s) (f (http_log s)) (stdout s) (draws s).
Definition set_stdout (f : list string → list string) (s : State) : State :=
  mkState (children s) (root_children s) (layersControl s) (next_id s)
          (dirs s) (files s) (http_log s) (f (stdout s)) (draws s).
Definition set_draws (f : nat → nat) (s : State) : State :=
  mkState (children s) (root_children s) (layersControl s) (next_id s)
          (dirs s) (files s) (http_log s) (stdout s) (f (draws s)).

(** ** The monad of methods *)

Definition M (A : Type) : Type := State → State * result A.

#[global] Instance M_ret : MRet M := λ A x s, (s, Ok x).
#[global] Instance M_bind : MBind M := λ A B f m s,
  match m s with
  | (s', Ok x) => f x s'
  | (s', Err e) => (s', Err e)
  end.

Definition raise {A} (e : exn) : M A := λ s, (s, Err e).

(** [try: body  except Exception as e: raise Exception(e)]. *)
Definition reraise_as_exception {A} (body : M A) : M A := λ s,
  match body s with
  | (s', Ok x) => (s', Ok x)
  | (s', Err e) => (s', Err (Exception e))
  end.

Definition lift {A} (r : result A) : M A := λ s, (s, r).
Definition get_state : M State := λ s, (s, Ok s).
Definition modify (f : State → State) : M unit := λ s, (f s, Ok tt).
Definition when (b : bool) (m : M unit) : M unit := if b then m else mret tt.

Definition print (line : string) : M unit := modify (set_stdout (λ out, out ++ [line])).

(** ** Collaborators *)

(** A GeoDataFrame, by what the module reads of it: [__geo_interface__],
    [total_bounds], and the four columns of [to_crs(epsg="4326").bounds]
    (reprojection can fail). *)
Record BoundsFrame : Type := mkBounds {
  minx : list Q; miny : list Q; maxx : list Q; maxy : list Q
}.

Record GeoDataFrame : Type := mkGdf {
  geo_interface : pyval;
  total_bounds : pyval;
  bounds_4326 : result BoundsFrame
}.

(** Everything the module calls and does not define.  [abspath] gives the
    components of the absolute path; [random_below k n], taken modulo [n],
    is the index that the [k]-th random draw picks in a sequence of length
    [n], and [random_string k] the name that draw produces.  A call of
    [check_color] may print: the field gives the lines printed, and then
    the text that an f-string shows for the value returned, or the
    exception raised.  [geojson_init data name kwargs k] is the call
    [folium.GeoJson(data=data, name=name, **kwargs)] made after [k] random
    draws: the constructor may refuse the data, and it calls the style and
    highlight functions it is given on a feature of the data, so that a
    function that draws at random draws then; the field gives the number of
    draws made once the call is over, and the exception if it raises. *)
Record Collaborators : Type := mkCollaborators {
  (* os.path, requests, json, random, str() *)
  abspath : string → list string;
  requests_get_json : string → result pyval;
  json_load : string → result pyval;
  random_below : nat → nat → nat;
  py_str : pyval → string;
  (* leafmap.common *)
  random_string : nat → string;
  rgb_to_hex : pyval → result string;
  check_color : pyval → list string * result string;
  cog_mosaic : list pyval → string → string → string → bool → bool → result pyval;
  cog_bounds : pyval → result pyval;
  cog_center : pyval → string → result pyval;
  coords_to_geojson : list pyval → pyval;
  get_center : pyval → result pyval;
  gdf_to_geojson : GeoDataFrame → string → result pyval;
  read_postgis : pyval → pyval → gmap string kwval → result GeoDataFrame;
  osm_gdf_from_geocode : pyval → pyval → pyval → pyval → result GeoDataFrame;
  (* folium.GeoJson *)
  geojson_init : pyval → string → gmap string kwval → nat → nat * result unit;
  (* leafmap.legends and the packaged legend template *)
  builtin_legends : list (string * list (pyval * pyval));
  legend_template : list string;
  (* folium's renderer: the document of a map and its root figure *)
  render : list Element → list Element → gmap string kwval → string
}.

(** ** The file system and the network *)

Definition dirname (p : list string) : list string := removelast p.

(** A path with all its ancestors, the root first. *)
Fixpoint ancestors (p : list string) : list (list string) :=
  match p with
  | [] => [[]]
  | c :: rest => [] :: map (cons c) (ancestors rest)
  end.

Definition is_dir (s : State) (p : list string) : bool := bool_decide (p ∈ dirs s).
Definition is_file (s : State) (p : list string) : bool := bool_decide (is_Some (files s !! p)).

(** [os.path.exists(p)]. *)
Definition path_exists (p : list string) : M bool := λ s, (s, Ok (is_dir s p || is_file s p)).

(** [os.makedirs(d)]: creates [d] and every missing ancestor; fails when [d]
    exists or when an ancestor is a regular file. *)
Definition makedirs (d : list string) : M unit := λ s,
  if is_dir s d || existsb (is_file s) (ancestors d)
  then (s, Err (OSError "cannot create the directory"))
  else (set_dirs (λ ds, ds ∪ list_to_set (ancestors d)) s, Ok tt).

(** Writing a file ([open(p, "wb")] and [write], as folium's [save] does):
    [p] must not be a directory and its directory has to exist (what else
    can go wrong in the operating system is not modelled). *)
Definition write_file (p : list string) (content : string) : M unit := λ s,
  if is_dir s p then (s, Err (IsADirectoryError "Is a directory"))
  else if is_dir s (dirname p)
  then (set_files (λ fs, <[p := content]> fs) s, Ok tt)
  else (s, Err (FileNotFoundError "No such file or directory")).

(** [open(p).read()]: the file is opened in text mode, so that the text
    read is the content with its line ends translated. *)
Definition read_file (p : list string) : M string := λ s,
  if is_dir s p then (s, Err (IsADirectoryError "Is a directory"))
  else
    match files s !! p with
    | Some content => (s, Ok (universal_newlines content))
    | None => (s, Err (FileNotFoundError "No such file or directory"))
    end.

(** [os.remove(p)]. *)
Definition remove_file (p : list string) : M unit := λ s,
  if is_dir s p then (s, Err (IsADirectoryError "Is a directory"))
  else
    match files s !! p with
    | Some _ => (set_files (λ fs, delete p fs) s, Ok tt)
    | None => (s, Err (FileNotFoundError "No such file or directory"))
    end.

(** ** folium's primitives *)

(** [element.add_to(self)] for a newly built element: it is appended to the
    children (identifiers are unique, so no earlier child is replaced). *)
Definition add_child (b : element_body) : M unit := λ s,
  (set_next_id S (set_children (λ l, l ++ [mkElement (next_id s) b]) s), Ok tt).

(** [self.get_root().add_child(element)]. *)
Definition add_root_child (b : element_body) : M unit := λ s,
  (set_next_id S (set_root_children (λ l, l ++ [mkElement (next_id s) b]) s), Ok tt).

(** [self.fit_bounds(bounds, max_zoom=z)]: folium adds a [FitBounds] child. *)
Definition fit_bounds (bounds : pyval) (max_zoom : option Z) : M unit :=
  add_child (FitBounds bounds max_zoom).

(** The keys of [self.to_dict()["children"]], in order. *)
Definition to_dict_children (s : State) : list string := get_name <$> children s.

(** ** More of Python and more collaborators *)

(** [l[k:]] for an integer [k]; a negative [k] counts from the end. *)
Definition py_slice_from {A} (k : Z) (l : list A) : list A :=
  if (0 <=? k)%Z then drop (Z.to_nat k) l
  else drop (length l - Z.to_nat (- k)) l.

(** [os.path.splitext(p)[1]]: the text from the last dot of the last
    component on, when a character other than a dot stands before that dot
    in the component.  [seen] tells whether such a character was met in the
    current component, [ext] is the extension found so far. *)
Fixpoint splitext_scan (seen : bool) (ext : string) (p : string) : string :=
  match p with
  | EmptyString => ext
  | String c rest =>
      if Ascii.eqb c (Ascii.ascii_of_nat 47) then splitext_scan false "" rest
      else if Ascii.eqb c (Ascii.ascii_of_nat 46)
      then splitext_scan seen (if seen then "." else "") rest
      else splitext_scan true
             (if String.eqb ext "" then "" else ext +:+ String c "") rest
  end.

Definition splitext_ext (p : string) : string := splitext_scan false "" p.

(** [str.lower()] on the letters A to Z (the extensions it is compared with
    below have no other lower-case source). *)
Definition ascii_lower (c : Ascii.ascii) : Ascii.ascii :=
  let n := Ascii.nat_of_ascii c in
  if (65 <=? n)%nat && (n <=? 90)%nat then Ascii.ascii_of_nat (n + 32) else c.

Fixpoint str_lower (s : string) : string :=
  match s with
  | EmptyString => EmptyString
  | String c rest => String (ascii_lower c) (str_lower rest)
  end.

(** [str.upper()], on the letters a to z only: the strings of this file
    are strings of 8-bit characters, and other letters are left as they
    are. *)
Definition ascii_upper (c : Ascii.ascii) : Ascii.ascii :=
  let n := Ascii.nat_of_ascii c in
  if (97 <=? n)%nat && (n <=? 122)%nat then Ascii.ascii_of_nat (n - 32) else c.

Fixpoint str_upper (s : string) : string :=
  match s with
  | EmptyString => EmptyString
  | String c rest => String (ascii_upper c) (str_upper rest)
  end.

(** The truth value of a value, as [if v:] takes it. *)
Definition py_truthy (v : kwval) : bool :=
  match v with
  | KVal VNone => false
  | KVal (VBool b) => b
  | KVal (VInt z) => negb (z =? 0)%Z
  | KVal (VFloat q) => negb (Qeq_bool q 0)
  | KVal (VStr s) => negb (String.eqb s "")
  | KVal (VTuple l) | KVal (VList l) => negb (length l =? 0)%nat
  | KVal (VDict kv) => negb (length kv =? 0)%nat
  | KFun _ => true
  end.

Definition kw_is_none (v : kwval) : bool :=
  match v with KVal VNone => true | _ => false end.

(** [v.upper()]: only strings have the method. *)
Definition kw_upper (v : kwval) : result string :=
  match v with
  | KVal (VStr s) => Ok (str_upper s)
  | _ => Err (AttributeError "object has no attribute 'upper'")
  end.

(** [list(v)] for the sequences of [pyval]. *)
Definition py_list (v : pyval) : result (list pyval) :=
  match v with
  | VList l | VTuple l => Ok l
  | VStr s => Ok ((λ c, VStr (String c "")) <$> String.list_ascii_of_string s)
  | VDict kv => Ok (dict_keys kv)
  | _ => Err (TypeError "object is not iterable")
  end.

(** A branca colour map, by the arguments of [LinearColormap] that built it
    and the argument of [to_step], if it was cut in steps. *)
Record Colormap : Type := mkColormap {
  cm_colors : pyval;
  cm_index : pyval;
  cm_vmin : pyval;
  cm_vmax : pyval;
  cm_caption : pyval;
  cm_step : option pyval
}.

Definition to_step (c : Colormap) (n : pyval) : Colormap :=
  mkColormap (cm_colors c) (cm_index c) (cm_vmin c) (cm_vmax c) (cm_caption c) (Some n).

(** What the other methods call and the module does not define.
    [urlopen_lines] gives the decoded lines of a URL, [download_from_url]
    acts on the files, [glob] reads them.  [linear_colormap] tells whether
    branca's [LinearColormap] accepts the colours, the index, the bounds
    and the caption, and [colormap_to_step] whether [to_step] of a colour
    map accepts the number of steps: either may raise. *)
Record Services : Type := mkServices {
  (* os.path, str, urllib, glob *)
  abspath_str : string → string;
  basename : string → string;
  path_join : string → string → string;
  str_strip : string → string;
  urlopen_lines : string → result (list string);
  glob : string → State → list string;
  (* leafmap.common *)
  cog_tile : pyval → string → gmap string kwval → result pyval;
  stac_tile : pyval → pyval → string → gmap string kwval → result pyval;
  stac_center : pyval → string → result pyval;
  shp_to_geojson : string → result pyval;
  kml_to_geojson : string → result pyval;
  vector_to_geojson :
    string → pyval → pyval → pyval → string → gmap string kwval → result pyval;
  download_from_url : string → string → option bool → M unit;
  (* leafmap.osm *)
  osm_gdf_from_address : pyval → pyval → pyval → result GeoDataFrame;
  osm_gdf_from_place : pyval → pyval → pyval → pyval → result GeoDataFrame;
  osm_gdf_from_point : pyval → pyval → pyval → result GeoDataFrame;
  osm_gdf_from_polygon : pyval → pyval → result GeoDataFrame;
  osm_gdf_from_bbox : pyval → pyval → pyval → pyval → pyval → result GeoDataFrame;
  (* float(), os.path.dirname, random_string(n), display_html *)
  py_float : string → result pyval;
  dirname_str : string → string;
  random_string_of : nat → nat → string;
  display_html : string → pyval → pyval → M unit;
  (* folium.Map.__init__ and leafmap.basemaps *)
  folium_map_init : gmap string kwval → result unit;
  folium_basemaps : list (string * Element);
  linear_colormap : pyval → pyval → pyval → pyval → pyval → result unit;
  colormap_to_step : Colormap → pyval → result unit
}.

(** A string between double quotes. *)
Definition quoted (s : string) : string :=
  String (Ascii.ascii_of_nat 34) (s +:+ String (Ascii.ascii_of_nat 34) "").

(** What the constructor adds to the new map, with the arguments it passes:
    the plugins, the Google tile layer and the first fit of the view. *)
Inductive init_child : Type :=
| Fullscreen
| Draw (export : kwval)
| MeasureControl (position : string)
| LatLngPopup
| MiniMap
| GoogleTileLayer (tiles attr name : string) (overlay control : bool)
| ViewFit (bounds : list kwval) (max_zoom : kwval).

(** A new map: the keyword arguments [folium.Map.__init__] was called with,
    the [(width, height)] of the figure the map was put in, if any, the
    elements added in order, the [layersControl] option and the lines
    printed. *)
Record Constructed : Type := mkConstructed {
  folium_kwargs : gmap string kwval;
  baseclass : string;
  figure : option (kwval * kwval);
  added : list init_child;
  layers_control_option : kwval;
  printed : list string
}.

(** The [colors] argument of [add_colorbar]: a [Box] (a dict with attribute
    access) or any other value. *)
Inductive colors_arg : Type :=
| BoxColors (kv : list (pyval * pyval))
| PlainColors (colors : pyval).

(** ** The methods of [Map] *)

Module Map.
Section Methods.
Variable E : Collaborators.

(** The loop of [add_layer_control]: [layer_ctrl] becomes true at the first
    child whose name starts with "layer_control", and the loop stops there. *)
Fixpoint scan_layer_control (items : list string) : bool :=
  match items with
  | [] => false
  | item :: rest =>
      if startswith item "layer_control" then true else scan_layer_control rest
  end.

Definition add_layer_control : M unit :=
  s ← get_state;
  let layer_ctrl := scan_layer_control (to_dict_children s) in
  if negb layer_ctrl then add_child LayerControl else mret tt.

Definition _repr_mimebundle_ : M unit :=
  s ← get_state;
  when (layersControl s) add_layer_control.

Definition set_center (lon lat : pyval) (zoom : Z) : M unit :=
  fit_bounds (VList [VList [lat; lon]; VList [lat; lon]]) (Some zoom).

Definition zoom_to_bounds (bounds : pyval) : M unit :=
  b1 ← lift (py_index bounds 1);
  b0 ← lift (py_index bounds 0);
  b3 ← lift (py_index bounds 3);
  b2 ← lift (py_index bounds 2);
  fit_bounds (VList [VList [b1; b0]; VList [b3; b2]]) None.

Definition zoom_to_gdf (gdf : GeoDataFrame) : M unit :=
  zoom_to_bounds (total_bounds gdf).

(** [add_tile_layer(url, name, attribution, overlay, control, shown, opacity,
    API_key, **kwargs)], parameters in the order of the signature. *)
Definition add_tile_layer (url name attribution overlay control shown opacity api_key : pyval)
    (kwargs : gmap string kwval) : M unit :=
  reraise_as_exception
    (add_child (TileLayer url name attribution overlay control shown opacity api_key kwargs)).

(** The footprint loop of [add_cog_mosaic]: the bounds of each link, those
    that are [None] left out. *)
Fixpoint footprint_coords (links : list pyval) (coords : list pyval) : result (list pyval) :=
  match links with
  | [] => Ok coords
  | link :: rest =>
      coord ← cog_bounds E link;
      footprint_coords rest (if negb (is_none coord) then coords ++ [coord] else coords)
  end.

(** [add_cog_mosaic].  The call of [add_tile_layer] passes [opacity] and
    [shown] by position, where the signature has [overlay] and [control]. *)
Definition add_cog_mosaic (links : list pyval) (name : string) (attribution opacity shown : pyval)
    (titiler_endpoint username : string) (overwrite show_footprints verbose : bool) : M unit :=
  let layername := str_replace name " " "_" in
  tile ← lift (cog_mosaic E links titiler_endpoint username layername overwrite verbose);
  add_tile_layer tile (VStr name) attribution opacity shown
    (VBool true) (VFloat 1%Q) VNone ∅;;
  center ←
    (if show_footprints then
       when verbose
         (print ("Generating footprints of " +:+ pretty (length links)
                 +:+ " COGs. This might take a while ..."));;
       coords ← lift (footprint_coords links []);
       let fc := coords_to_geojson E coords in
       add_child (GeoJson fc (name +:+ "_footprints") ∅);;
       center ← lift (get_center E fc);
       when verbose (print "The footprint layer has been added.");;
       mret center
     else
       link0 ← lift (py_index (VList links) 0);
       lift (cog_center E link0 titiler_endpoint));
  c0 ← lift (py_index center 0);
  c1 ← lift (py_index center 1);
  set_center c0 c1 6.

(** *** Legends *)

(** A value inside an f-string. *)
Definition fmt (v : pyval) : string :=
  match v with VStr s => s | _ => py_str E v end.

Definition hash_plus (c : pyval) : result pyval :=
  match c with
  | VStr s => Ok (VStr ("#" +:+ s))
  | _ => Err (TypeError "can only concatenate str to str")
  end.

(** [["#" + rgb_to_hex(x) for x in colors]] and [[rgb_to_hex(x) for x in
    colors]], each inside [try ... except Exception as e: raise Exception(e)]. *)
Definition tuples_to_hex (with_hash : bool) (items : list pyval) : result (list pyval) :=
  match mapM (λ x, h ← rgb_to_hex E x;
                   Ok (VStr (if with_hash then "#" +:+ h else h))) items with
  | Ok l => Ok l
  | Err e => Err (Exception e)
  end.

(** The branch on the [colors] argument (a list) of [add_legend]. *)
Definition check_colors_arg (items : list pyval) : result (list pyval) :=
  if forallb is_tuple items then tuples_to_hex true items
  else
    hash7 ← py_all (λ item, sw ← py_startswith item "#";
                            if (sw : bool) then n ← py_len item; Ok (n =? 7)%nat
                            else Ok false) items;
    if (hash7 : bool) then Ok items
    else
      six ← py_all (λ item, n ← py_len item; Ok (n =? 6)%nat) items;
      if (six : bool) then Ok items
      else Err (ValueError "The legend colors must be a list of tuples.").

(** The colors taken from the values of a legend dict; [with_hash] tells
    whether converted tuples get the leading "#". *)
Definition dict_colors (with_hash : bool) (values : list pyval) : result (list pyval) :=
  if forallb is_tuple values then tuples_to_hex with_hash values
  else if forallb is_str values then mapM hash_plus values
  else Ok values.

Definition default_labels : list pyval :=
  [VStr "One"; VStr "Two"; VStr "Three"; VStr "Four"; VStr "etc"].
Definition default_colors : list pyval :=
  [VStr "#8DD3C7"; VStr "#FFFFB3"; VStr "#BEBADA"; VStr "#FB8072"; VStr "#80B1D3"].

(** The labels and colors [add_legend] ends up with, before it renders. *)
Definition resolve_legend (colors labels legend_dict : pyval) (builtin_legend : option string)
    : result (list pyval * list pyval) :=
  labels ←
    (if negb (is_none labels) then
       match labels with
       | VList l => Ok l
       | _ => Err (ValueError "The legend labels must be a list.")
       end
     else Ok default_labels);
  colors ←
    (if negb (is_none colors) then
       match colors with
       | VList items => check_colors_arg items
       | _ => Err (ValueError "The legend colors must be a list.")
       end
     else Ok default_colors);
  (if negb (length labels =? length colors)%nat
   then Err (ValueError "The legend keys and values must be the same length.")
   else Ok tt);;
  let allowed_builtin_legends := (builtin_legends E).*1 in
  '(legend_dict, labels, colors) ←
    match builtin_legend with
    | Some name =>
        match filter (λ e, String.eqb e.1 name = true) (builtin_legends E) with
        | [] =>
            Err (ValueError ("The builtin legend must be one of the following: "
                             +:+ str_join ", " allowed_builtin_legends))
        | (_, kv) :: _ =>
            colors ← dict_colors false (dict_values kv);
            Ok (VDict kv, dict_keys kv, colors)
        end
    | None => Ok (legend_dict, labels, colors)
    end;
  if negb (is_none legend_dict) then
    match legend_dict with
    | VDict kv =>
        colors ← dict_colors true (dict_values kv);
        Ok (dict_keys kv, colors)
    | _ => Err (ValueError "The legend dict must be a dictionary.")
    end
  else Ok (labels, colors).

(** The f-string of one entry of the legend, its three values known: the
    text of what [check_color] returned, the opacity and the label. *)
Definition legend_entry (opacity label : pyval) (background : string) : string :=
  "    <li><span style='background:" +:+ background +:+ ";opacity:" +:+ fmt opacity
  +:+ ";'></span>" +:+ fmt label +:+ "</li>" +:+ String newline "".

(** [check_color(color)]: what the call prints goes to the output. *)
Definition call_check_color (color : pyval) : M string := λ s,
  (set_stdout (λ out, out ++ (check_color E color).1) s, (check_color E color).2).

(** One [<li>] line per color, with the label of the same index; the
    f-string calls [check_color] before it looks the label up. *)
Definition legend_item (labels : list pyval) (opacity : pyval) (i : nat) (color : pyval)
    : M string :=
  background ← call_check_color color;
  match labels !! i with
  | Some label => mret (legend_entry opacity label background)
  | None => raise (IndexError "list index out of range")
  end.

Definition legend_items (labels colors : list pyval) (opacity : pyval) : M (list string) :=
  mapM (λ ic, legend_item labels opacity ic.1 ic.2) (imap pair colors).

(** What line [index] of the template contributes to the legend's markup;
    the entries are built when line 39 is reached. *)
Definition legend_line (title : string) (labels colors : list pyval) (opacity : pyval)
    (index : nat) (line : string) : M (list string) :=
  if (index <? 36)%nat then mret [line]
  else if (index =? 36)%nat then mret [str_replace line "Legend" title]
  else if (index <? 39)%nat then mret [line]
  else if (index =? 39)%nat then legend_items labels colors opacity
  else if (41 <? index)%nat then mret [line]
  else mret [].

Definition add_legend (title : string) (colors labels legend_dict : pyval)
    (builtin_legend : option string) (opacity : pyval) : M unit :=
  found ← path_exists (legend_template E);
  (if negb found
   then raise (FileNotFoundError "The legend template does not exist.")
   else mret tt : M unit);;
  '(labels, colors) ← lift (resolve_legend colors labels legend_dict builtin_legend);
  text ← read_file (legend_template E);
  content ← mapM (λ il, legend_line title labels colors opacity il.1 il.2)
                 (imap pair (readlines text));
  let template := str_join "" (concat content) in
  add_root_child (MacroElement template).

(** *** Vector data *)

Definition http_get_json (url : string) : M pyval := λ s,
  (set_http_log (λ log, log ++ [url]) s, requests_get_json E url).

Definition default_style : pyval :=
  VDict [(VStr "color", VStr "#000000"); (VStr "weight", VInt 1);
         (VStr "opacity", VInt 1); (VStr "fillOpacity", VFloat (1 # 10)%Q)].

(** [len(v)] and [v[k]] for a value of [kwargs]. *)
Definition kw_len (v : kwval) : result nat :=
  match v with
  | KVal x => py_len x
  | KFun _ => Err (TypeError "object of type 'function' has no len()")
  end.

Definition kw_get (v : kwval) (k : string) : result pyval :=
  match v with
  | KVal (VDict kv) => dict_get kv k
  | _ => Err (TypeError "object is not subscriptable")
  end.

(** The first part of [add_geojson]: the GeoJSON data for the input. *)
Definition load_geojson (in_geojson : pyval) : M pyval :=
  reraise_as_exception
    (match in_geojson with
     | VStr path =>
         if startswith path "http" then http_get_json path
         else
           let in_geojson := abspath E path in
           found ← path_exists in_geojson;
           if negb found
           then raise (FileNotFoundError "The provided GeoJSON file could not be found.")
           else text ← read_file in_geojson; lift (json_load E text)
     | VDict _ => mret in_geojson
     | _ => raise (TypeError "The input geojson must be a type of str or dict.")
     end).

(** The second part: [kwargs] as passed on to [folium.GeoJson], one step per
    [if] of the source, in the source's order. *)
Definition style_step (kwargs : gmap string kwval) : kwval * gmap string kwval :=
  match kwargs !! "style" with
  | Some style =>
      let kwargs' :=
        match style with
        | KVal (VDict (e :: kv)) =>
            <["style_function" := KFun (ConstStyle (VDict (e :: kv)))]> kwargs
        | _ => kwargs
        end in
      (style, delete "style" kwargs')
  | None =>
      (KVal default_style, <["style_function" := KFun (ConstStyle default_style)]> kwargs)
  end.

Definition style_callback_step (kwargs : gmap string kwval) : gmap string kwval :=
  match kwargs !! "style_callback" with
  | Some callback =>
      let kwargs' :=
        match callback with
        | KVal VNone => kwargs
        | _ => <["style_function" := callback]> kwargs
        end in
      delete "style_callback" kwargs'
  | None => kwargs
  end.

Definition hover_style_step (style_dict : kwval) (kwargs : gmap string kwval)
    : result (gmap string kwval) :=
  match kwargs !! "hover_style" with
  | Some hover =>
      n ← kw_len hover;
      let kwargs' :=
        match hover with
        | KVal hover_dict =>
            if (0 <? n)%nat
            then <["highlight_function" := KFun (ConstStyle hover_dict)]> kwargs
            else kwargs
        | KFun _ => kwargs
        end in
      Ok (delete "hover_style" kwargs')
  | None =>
      weight ← kw_get style_dict "weight";
      weight1 ← py_add1 weight;
      let hover_dict :=
        VDict [(VStr "weight", weight1); (VStr "fillOpacity", VFloat (1 # 2)%Q)] in
      Ok (<["highlight_function" := KFun (ConstStyle hover_dict)]> kwargs)
  end.

Definition fill_colors_step (style_dict : kwval) (kwargs : gmap string kwval)
    : gmap string kwval :=
  match kwargs !! "fill_colors" with
  | Some fill_colors =>
      delete "fill_colors" (<["style_function" := KFun (RandomColor fill_colors style_dict)]> kwargs)
  | None => kwargs
  end.

Definition geojson_kwargs (kwargs : gmap string kwval) : result (gmap string kwval) :=
  let '(style_dict, kwargs) := style_step kwargs in
  let kwargs := style_callback_step kwargs in
  kwargs ← hover_style_step style_dict kwargs;
  let kwargs := fill_colors_step style_dict kwargs in
  Ok (delete "info_mode" kwargs).

(** [folium.GeoJson(data=data, name=layer_name, **kwargs)] on the data and
    the functions of the caller: the layer is built, or the constructor
    raises; the random draws it makes are counted. *)
Definition new_geojson (data : pyval) (layer_name : string) (kwargs : gmap string kwval)
    : M unit := λ s,
  (set_draws (λ _, (geojson_init E data layer_name kwargs (draws s)).1) s,
   (geojson_init E data layer_name kwargs (draws s)).2).

Definition add_geojson (in_geojson : pyval) (layer_name : string)
    (kwargs : gmap string kwval) : M unit :=
  data ← load_geojson in_geojson;
  kwargs ← lift (geojson_kwargs kwargs);
  new_geojson data layer_name kwargs;;
  add_child (GeoJson data layer_name kwargs).

(** [d[k] = v] on a dict. *)
Fixpoint dict_set (kv : list (pyval * pyval)) (k : string) (v : pyval) : list (pyval * pyval) :=
  match kv with
  | [] => [(VStr k, v)]
  | e :: rest => if str_key k e then (e.1, v) :: rest else e :: dict_set rest k v
  end.

(** [random.choice(seq)]: one more draw. *)
Definition random_choice (seq : kwval) : M pyval := λ s,
  match seq with
  | KVal (VList l | VTuple l) =>
      match l !! (random_below E (draws s) (length l) `mod` length l)%nat with
      | Some x => (set_draws S s, Ok x)
      | None => (s, Err (IndexError "Cannot choose from an empty sequence"))
      end
  | _ => (s, Err (TypeError "object is not a sequence"))
  end.

(** What folium gets when it calls a style function on a feature.  For
    [random_color] the returned dict is the closure's style dict with its
    "fillColor" entry set to the colour drawn (in Python the one dict object
    is updated in place at every call). *)
Definition call_style_fn (f : style_fn) (feature : pyval) : M pyval :=
  match f with
  | ConstStyle d => mret d
  | Callback g => mret (g feature)
  | RandomColor fill_colors style_dict =>
      color ← random_choice fill_colors;
      match style_dict with
      | KVal (VDict kv) => mret (VDict (dict_set kv "fillColor" color))
      | _ => raise (TypeError "object does not support item assignment")
      end
  end.

(** numpy's [min] and [max] of a column. *)
Definition np_min (col : list Q) : result Q :=
  match col with
  | [] => Err (ValueError "zero-size array to reduction operation minimum which has no identity")
  | x :: rest => Ok (foldl Qmin x rest)
  end.

Definition np_max (col : list Q) : result Q :=
  match col with
  | [] => Err (ValueError "zero-size array to reduction operation maximum which has no identity")
  | x :: rest => Ok (foldl Qmax x rest)
  end.

(** The [if zoom_to_layer:] block shared by [add_gdf] and
    [add_gdf_from_postgis]. *)
Definition zoom_to_layer_block (gdf : GeoDataFrame) : M unit :=
  bounds ← lift (bounds_4326 gdf);
  west ← lift (np_min (minx bounds));
  south ← lift (np_min (miny bounds));
  east ← lift (np_max (maxx bounds));
  north ← lift (np_max (maxy bounds));
  fit_bounds (VList [VList [VFloat south; VFloat east]; VList [VFloat north; VFloat west]]) None.

Definition add_gdf (gdf : GeoDataFrame) (layer_name : string) (zoom_to_layer : bool)
    (kwargs : gmap string kwval) : M unit :=
  data ← lift (gdf_to_geojson E gdf "4326");
  add_geojson data layer_name kwargs;;
  when zoom_to_layer (zoom_to_layer_block gdf).

Definition add_gdf_from_postgis (sql con : pyval) (layer_name : string) (zoom_to_layer : bool)
    (kwargs : gmap string kwval) : M unit :=
  let kwargs := delete "fill_colors" kwargs in
  gdf ← lift (read_postgis E sql con kwargs);
  data ← lift (gdf_to_geojson E gdf "4326");
  add_geojson data layer_name kwargs;;
  when zoom_to_layer (zoom_to_layer_block gdf).

(** [add_osm_from_geocode], one of the callers of [add_geojson] that always
    passes all five style arguments on. *)
Definition add_osm_from_geocode (query which_result by_osmid buffer_dist : pyval)
    (layer_name : string) (style hover_style style_callback fill_colors info_mode : kwval)
    : M unit :=
  gdf ← lift (osm_gdf_from_geocode E query which_result by_osmid buffer_dist);
  let geojson := geo_interface gdf in
  add_geojson geojson layer_name
    (<["style" := style]> (<["hover_style" := hover_style]>
      (<["style_callback" := style_callback]> (<["fill_colors" := fill_colors]>
        (<["info_mode" := info_mode]> ∅)))));;
  zoom_to_gdf gdf.

(** The defaults of its signature. *)
Definition osm_default_style : kwval := KVal (VDict []).
Definition osm_default_hover_style : kwval := KVal (VDict []).
Definition osm_default_style_callback : kwval := KVal VNone.
Definition osm_default_fill_colors : kwval := KVal (VList [VStr "black"]).
Definition osm_default_info_mode : kwval := KVal (VStr "on_hover").

(** *** HTML export *)

(** [self.save(outfile, **kwargs)]: the rendered document is written. *)
Definition save (outfile : list string) (kwargs : gmap string kwval) : M unit :=
  s ← get_state;
  write_file outfile (render E (children s) (root_children s) kwargs).

Definition draw_random_string : M string := λ s,
  (set_draws S s, Ok (random_string E (draws s))).

(** [to_html]; the result is [None] when a path is given. *)
Definition to_html (outfile : option string) (kwargs : gmap string kwval) : M (option string) :=
  s ← get_state;
  when (layersControl s) add_layer_control;;
  match outfile with
  | Some outfile =>
      (if negb (endswith outfile ".html")
       then raise (ValueError "The output file extension must be html.")
       else mret tt : M unit);;
      let outfile := abspath E outfile in
      let out_dir := dirname outfile in
      found ← path_exists out_dir;
      when (negb found) (makedirs out_dir);;
      save outfile kwargs;;
      mret None
  | None =>
      name ← draw_random_string;
      let outfile := abspath E (name +:+ ".html") in
      save outfile kwargs;;
      text ← read_file outfile;
      let lines := readlines text in
      let out_html := str_join "" lines in
      remove_file outfile;;
      mret (Some out_html)
  end.

(** *** Operations the folium backend does not support *)

Definition not_supported_message : string :=
  "The folium plotting backend does not support this function. Use the ipyleaflet plotting backend instead.".

Definition add_colormap (cmap colors discrete label width height orientation vmin vmax
    axis_off show_name font_size transparent_bg position : pyval) (kwargs : gmap string kwval)
    : M pyval :=
  raise (NotImplementedError not_supported_message).

Definition add_marker_cluster (event add_marker : pyval) : M pyval :=
  raise (NotImplementedError not_supported_message).

Definition add_minimap (zoom position : pyval) : M pyval :=
  raise (NotImplementedError not_supported_message).

Definition add_point_layer (filename popup layer_name : pyval) (kwargs : gmap string kwval)
    : M pyval :=
  raise (NotImplementedError not_supported_message).

Definition add_raster (image bands layer_name colormap x_dim y_dim : pyval) : M pyval :=
  raise (NotImplementedError not_supported_message).

Definition add_time_slider (layers_dict labels time_interval position slider_length : pyval)
    : M pyval :=
  raise (NotImplementedError not_supported_message).

Definition add_vector_tile_layer (url attribution vector_tile_layer_styles : pyval)
    (kwargs : gmap string kwval) : M pyval :=
  raise (NotImplementedError not_supported_message).

Definition add_xy_data (in_csv x y label layer_name : pyval) : M pyval :=
  raise (NotImplementedError not_supported_message).

Definition basemap_demo : M pyval :=
  raise (NotImplementedError not_supported_message).

Definition find_layer (name : pyval) : M pyval :=
  raise (NotImplementedError not_supported_message).

Definition find_layer_index (name : pyval) : M pyval :=
  raise (NotImplementedError not_supported_message).

Definition get_layer_names : M pyval :=
  raise (NotImplementedError not_supported_message).

Definition get_scale : M pyval :=
  raise (NotImplementedError not_supported_message).

Definition image_overlay (url bounds name : pyval) : M pyval :=
  raise (NotImplementedError not_supported_message).

Definition layer_opacity (name value : pyval) : M pyval :=
  raise (NotImplementedError not_supported_message).

Definition split_map (left_layer right_layer : pyval) : M pyval :=
  raise (NotImplementedError not_supported_message).

Definition to_image (outfile monitor : pyval) : M pyval :=
  raise (NotImplementedError not_supported_message).

Definition toolbar_reset : M pyval :=
  raise (NotImplementedError not_supported_message).

Definition video_overlay (url bounds name : pyval) : M pyval :=
  raise (NotImplementedError not_supported_message).

(** *** The other tile layers *)

Variable V : Services.



(** [urllib.request.urlopen(url)], read line by line and decoded. *)
Definition urlopen (url : string) : M (list string) := λ s,
  (set_http_log (λ log, log ++ [url]) s, urlopen_lines V url).

(** The links of [add_cog_mosaic_from_file]: the stripped lines of the URL
    or of the local file, from row [skip_rows] on. *)
Definition read_links (filepath : string) (skip_rows : Z) : M (list pyval) :=
  links ←
    (if startswith filepath "http" then
       lines ← urlopen filepath;
       mret (map (str_strip V) lines)
     else
       text ← read_file (abspath E filepath);
       mret (map (str_strip V) (readlines text)) : M (list string));
  mret (map VStr (py_slice_from skip_rows links)).

(** [add_cog_mosaic_from_file]: after the links are read, the body of
    [add_cog_mosaic] written out again. *)
Definition add_cog_mosaic_from_file (filepath : string) (skip_rows : Z) (name : string)
    (attribution opacity shown : pyval) (titiler_endpoint username : string)
    (overwrite show_footprints verbose : bool) : M unit :=
  let layername := str_replace name " " "_" in
  links ← read_links filepath skip_rows;
  tile ← lift (cog_mosaic E links titiler_endpoint username layername overwrite verbose);
  add_tile_layer tile (VStr name) attribution opacity shown
    (VBool true) (VFloat 1%Q) VNone ∅;;
  center ←
    (if show_footprints then
       when verbose
         (print ("Generating footprints of " +:+ pretty (length links)
                 +:+ " COGs. This might take a while ..."));;
       coords ← lift (footprint_coords links []);
       let fc := coords_to_geojson E coords in
       add_child (GeoJson fc (name +:+ "_footprints") ∅);;
       center ← lift (get_center E fc);
       when verbose (print "The footprint layer has been added.");;
       mret center
     else
       link0 ← lift (py_index (VList links) 0);
       lift (cog_center E link0 titiler_endpoint));
  c0 ← lift (py_index center 0);
  c1 ← lift (py_index center 1);
  set_center c0 c1 6.

(** *** Shapefiles, KML and other vector files *)

Definition add_shp (in_shp : string) (layer_name : string) (kwargs : gmap string kwval)
    : M unit :=
  in_shp ←
    (if startswith in_shp "http" && endswith in_shp ".zip" then
       let out_dir := abspath_str V "./cache/shp" in
       found ← path_exists (abspath E out_dir);
       when (negb found) (makedirs (abspath E out_dir));;
       download_from_url V in_shp out_dir None;;
       s ← get_state;
       match glob V (path_join V out_dir "*.shp") s with
       | file :: _ => mret file
       | [] =>
           raise (FileNotFoundError
             "The downloaded zip file does not contain any shapefile in the root directory.")
       end
     else
       let in_shp := abspath_str V in_shp in
       found ← path_exists (abspath E in_shp);
       if negb found
       then raise (FileNotFoundError "The provided shapefile could not be found.")
       else mret in_shp);
  data ← lift (shp_to_geojson V in_shp);
  add_geojson data layer_name kwargs.

Definition add_kml (in_kml : string) (layer_name : string) (kwargs : gmap string kwval)
    : M unit :=
  in_kml ←
    (if startswith in_kml "http" && endswith in_kml ".kml" then
       let out_dir := abspath_str V "./cache" in
       found ← path_exists (abspath E out_dir);
       when (negb found) (makedirs (abspath E out_dir));;
       download_from_url V in_kml out_dir (Some false);;
       let in_kml := path_join V out_dir (basename V in_kml) in
       found ← path_exists (abspath E in_kml);
       if negb found
       then raise (FileNotFoundError "The downloaded kml file could not be found.")
       else mret in_kml
     else
       let in_kml := abspath_str V in_kml in
       found ← path_exists (abspath E in_kml);
       if negb found
       then raise (FileNotFoundError "The provided KML could not be found.")
       else mret in_kml);
  data ← lift (kml_to_geojson V in_kml);
  add_geojson data layer_name kwargs.

Definition add_vector (filename : string) (layer_name : string) (bbox mask rows : pyval)
    (kwargs : gmap string kwval) : M unit :=
  let filename :=
    if negb (startswith filename "http") then abspath_str V filename else filename in
  let ext := str_lower (splitext_ext filename) in
  if String.eqb ext ".shp" then add_shp filename layer_name kwargs
  else if String.eqb ext ".json" || String.eqb ext ".geojson"
  then add_geojson (VStr filename) layer_name kwargs
  else
    geojson ← lift (vector_to_geojson V filename bbox mask rows "4326" kwargs);
    add_geojson geojson layer_name kwargs.

(** *** The other OpenStreetMap queries *)

(** What every [add_osm_from_...] method does once it has its
    GeoDataFrame; each of them writes these two calls out. *)
Definition osm_layer (gdf : GeoDataFrame) (layer_name : string)
    (style hover_style style_callback fill_colors info_mode : kwval) : M unit :=
  let geojson := geo_interface gdf in
  add_geojson geojson layer_name
    (<["style" := style]> (<["hover_style" := hover_style]>
      (<["style_callback" := style_callback]> (<["fill_colors" := fill_colors]>
        (<["info_mode" := info_mode]> ∅)))));;
  zoom_to_gdf gdf.

Definition add_osm_from_address (address tags dist : pyval) (layer_name : string)
    (style hover_style style_callback fill_colors info_mode : kwval) : M unit :=
  gdf ← lift (osm_gdf_from_address V address tags dist);
  osm_layer gdf layer_name style hover_style style_callback fill_colors info_mode.

Definition add_osm_from_place (query tags which_result buffer_dist : pyval)
    (layer_name : string) (style hover_style style_callback fill_colors info_mode : kwval)
    : M unit :=
  gdf ← lift (osm_gdf_from_place V query tags which_result buffer_dist);
  osm_layer gdf layer_name style hover_style style_callback fill_colors info_mode.

Definition add_osm_from_point (center_point tags dist : pyval) (layer_name : string)
    (style hover_style style_callback fill_colors info_mode : kwval) : M unit :=
  gdf ← lift (osm_gdf_from_point V center_point tags dist);
  osm_layer gdf layer_name style hover_style style_callback fill_colors info_mode.

Definition add_osm_from_polygon (polygon tags : pyval) (layer_name : string)
    (style hover_style style_callback fill_colors info_mode : kwval) : M unit :=
  gdf ← lift (osm_gdf_from_polygon V polygon tags);
  osm_layer gdf layer_name style hover_style style_callback fill_colors info_mode.

Definition add_osm_from_bbox (north south east west tags : pyval) (layer_name : string)
    (style hover_style style_callback fill_colors info_mode : kwval) : M unit :=
  gdf ← lift (osm_gdf_from_bbox V north south east west tags);
  osm_layer gdf layer_name style hover_style style_callback fill_colors info_mode.

(** [add_osm_from_view]: the body is [pass]. *)
Definition add_osm_from_view (tags : pyval) (layer_name : string)
    (style hover_style style_callback fill_colors info_mode : kwval) : M unit :=
  mret tt.

(** *** The constructor *)

(** [if key in kwargs: x = kwargs[key]  else: kwargs[key] = v], with the
    value read or set. *)
Definition setdefault_get (key : string) (v : kwval) (kwargs : gmap string kwval)
    : kwval * gmap string kwval :=
  match kwargs !! key with
  | Some x => (x, kwargs)
  | None => (v, <[key := v]> kwargs)
  end.

(** [if alias in kwargs: kwargs[key] = kwargs[alias]; kwargs.pop(alias)]. *)
Definition rename_key (alias key : string) (kwargs : gmap string kwval)
    : gmap string kwval :=
  match kwargs !! alias with
  | Some x => delete alias (<[key := x]> kwargs)
  | None => kwargs
  end.

(** [if key in kwargs and isinstance(kwargs[key], str):
       kwargs[key] = float(kwargs[key].replace("px", ""))]. *)
Definition px_to_float (key : string) (kwargs : gmap string kwval)
    : result (gmap string kwval) :=
  match kwargs !! key with
  | Some (KVal (VStr text)) =>
      x ← py_float V (str_replace text "px" "");
      Ok (<[key := KVal x]> kwargs)
  | _ => Ok kwargs
  end.

(** [x = None; if key in kwargs: x = kwargs.pop(key)]. *)
Definition pop_or_none (key : string) (kwargs : gmap string kwval)
    : kwval * gmap string kwval :=
  (default (KVal VNone) (kwargs !! key), delete key kwargs).

(** One control: the default of its flag, then the element when the flag is
    true. *)
Definition control (key : string) (on : bool) (element : init_child)
    (kwargs : gmap string kwval) : list init_child * gmap string kwval :=
  let '(flag, kwargs) := setdefault_get key (KVal (VBool on)) kwargs in
  (if py_truthy flag then [element] else [], kwargs).

Definition google_roadmap : init_child :=
  GoogleTileLayer "https://mt1.google.com/vt/lyrs=m&x={x}&y={y}&z={z}" "Google" "Google Maps"
    true true.

Definition invalid_google_map (name : string) : string :=
  name +:+ " is invalid. google_map must be one of: [" +:+ quoted "ROADMAP" +:+ ", "
  +:+ quoted "HYBRID" +:+ ", " +:+ quoted "TERRAIN" +:+ ", " +:+ quoted "SATELLITE"
  +:+ "]. Adding the default ROADMAP.".

(** The [google_map] block: the base layers added and the lines printed. *)
Definition google_layer (kwargs : gmap string kwval)
    : result (list init_child * list string) :=
  match kwargs !! "google_map" with
  | None => Ok ([google_roadmap], [])
  | Some google_map =>
      if kw_is_none google_map then Ok ([], [])
      else
        upper ← kw_upper google_map;
        if String.eqb upper "ROADMAP" then Ok ([google_roadmap], [])
        else if String.eqb upper "HYBRID" then
          Ok ([GoogleTileLayer "https://mt1.google.com/vt/lyrs=y&x={x}&y={y}&z={z}" "Google"
                 "Google Satellite" true true], [])
        else if String.eqb upper "TERRAIN" then
          Ok ([GoogleTileLayer "https://mt1.google.com/vt/lyrs=p&x={x}&y={y}&z={z}" "Google"
                 "Google Terrain" true true], [])
        else if String.eqb upper "SATELLITE" then
          Ok ([GoogleTileLayer "https://mt1.google.com/vt/lyrs=s&x={x}&y={y}&z={z}" "Google"
                 "Google Satellite" true true], [])
        else
          let name := match google_map with KVal (VStr name) => name | _ => "" end in
          Ok ([google_roadmap], [invalid_google_map name])
  end.

(** The first part of [Map.__init__]: the keyword arguments are put in
    folium's terms.  The result is [latlon], [zoom], [height], [width] and
    the keyword arguments for [folium.Map.__init__]. *)
Definition init_arguments (kwargs : gmap string kwval)
    : result (kwval * kwval * kwval * kwval * gmap string kwval) :=
  let latlon := KVal (VList [VInt 40; VInt (-100)]) in
  let zoom := KVal (VInt 4) in
  let kwargs := rename_key "center" "location" kwargs in
  let '(latlon, kwargs) := setdefault_get "location" latlon kwargs in
  let kwargs := rename_key "zoom" "zoom_start" kwargs in
  let '(zoom, kwargs) := setdefault_get "zoom_start" zoom kwargs in
  let kwargs := (setdefault_get "control_scale" (KVal (VBool true)) kwargs).2 in
  let kwargs := (setdefault_get "draw_export" (KVal (VBool false)) kwargs).2 in
  kwargs ← px_to_float "height" kwargs;
  kwargs ← px_to_float "width" kwargs;
  let '(height, kwargs) := pop_or_none "height" kwargs in
  let '(width, kwargs) := pop_or_none "width" kwargs in
  Ok (latlon, zoom, height, width, kwargs).

(** [Map.__init__], called with keyword arguments only. *)
Definition init (kwargs : gmap string kwval) : result Constructed :=
  '(latlon, zoom, height, width, kwargs) ← init_arguments kwargs;
  folium_map_init V kwargs;;
  let passed := kwargs in
  let figure :=
    if negb (kw_is_none height) || negb (kw_is_none width)
    then Some (width, height) else None in
  let '(fullscreen, kwargs) := control "fullscreen_control" true Fullscreen kwargs in
  let '(draw, kwargs) :=
    control "draw_control" true (Draw (default (KVal VNone) (kwargs !! "draw_export")))
      kwargs in
  let '(measure, kwargs) :=
    control "measure_control" true (MeasureControl "bottomleft") kwargs in
  let '(latlng, kwargs) := control "latlon_control" true LatLngPopup kwargs in
  let '(minimap, kwargs) := control "minimap_control" false MiniMap kwargs in
  '(layers, lines) ← google_layer kwargs;
  let layers_control := default (KVal (VBool true)) (kwargs !! "layers_control") in
  Ok {| folium_kwargs := passed;
        baseclass := "folium";
        figure := figure;
        added := fullscreen ++ draw ++ measure ++ latlng ++ minimap ++ layers
                 ++ [ViewFit [latlon; latlon] zoom];
        layers_control_option := layers_control;
        printed := lines |}.

(** *** Basemaps *)

(** [layer.add_to(self)] for an element that exists already: folium keeps
    its children by name, so an element that is a child already stays where
    it is. *)
Definition add_existing_child (e : Element) : M unit :=
  modify (set_children (λ l,
    if existsb (λ c, String.eqb (get_name c) (get_name e)) l
    then (λ c, if String.eqb (get_name c) (get_name e) then e else c) <$> l
    else l ++ [e])).

Definition basemap_message : string :=
  "Basemap can only be one of the following: " +:+ str_join ", " (folium_basemaps V).*1.

(** [add_basemap(basemap)] for a string; nothing in the [try] block raises
    then. *)
Definition add_basemap (basemap : string) : M unit :=
  match filter (λ e, String.eqb e.1 basemap = true) (folium_basemaps V) with
  | (_, layer) :: _ => add_existing_child layer
  | [] => print basemap_message
  end.

(** *** Static maps *)

Definition draw_random_string_of (n : nat) : M string := λ s,
  (set_draws S s, Ok (random_string_of V n (draws s))).

(** [static_map] on a [Map], which is a [folium.Map]: the [else] branch of
    the [isinstance] test is not reached.  The keyword arguments are not
    used. *)
Definition static_map (width height : pyval) (out_file : option string)
    (kwargs : gmap string kwval) : M unit :=
  out_file ←
    match out_file with
    | Some out_file => mret out_file
    | None =>
        name ← draw_random_string_of 3;
        mret ("./cache/" +:+ "folium_" +:+ name +:+ ".html")
    end;
  let out_dir := abspath_str V (dirname_str V out_file) in
  found ← path_exists (abspath E out_dir);
  when (negb found) (makedirs (abspath E out_dir));;
  to_html (Some out_file) ∅;;
  display_html V out_file width height.

(** *** Colour bars *)

(** [colormap.to_step(n)]. *)
Definition cut_in_steps (colormap : Colormap) (n : pyval) : result Colormap :=
  colormap_to_step V colormap n;; Ok (to_step colormap n).

(** [add_colorbar] up to its last statement, [self.add_child(colormap)]: the
    colour map that is added. *)
Definition add_colorbar_colormap (colors : colors_arg) (vmin vmax index caption : pyval)
    (categorical : pyval) (step : pyval) : M Colormap :=
  colors ←
    match colors with
    | BoxColors kv =>
        λ s, match (listed ← dict_get kv "default"; py_list listed) with
             | Ok l => (s, Ok (VList l))
             | Err e =>
                 (set_stdout (λ out, out ++ ["The provided color list is invalid."]) s,
                  Err (Exception e))
             end
    | PlainColors colors => mret colors
    end;
  items ← lift (py_list colors);
  six ← lift (py_all (λ color, n ← py_len color; Ok (n =? 6)%nat) items);
  colors ← lift (if (six : bool) then l ← mapM hash_plus items; Ok (VList l) else Ok colors);
  lift (linear_colormap V colors index vmin vmax caption);;
  let colormap := mkColormap colors index vmin vmax caption None in
  if py_truthy (KVal categorical) then
    if negb (is_none step) then lift (cut_in_steps colormap step)
    else if negb (is_none index) then
      n ← lift (py_len index);
      lift (cut_in_steps colormap (VInt (Z.of_nat n - 1)))
    else lift (cut_in_steps colormap (VInt 3))
  else mret colormap.

End Methods.
End Map.

(** ** Module-level functions *)

(** The two functions that, like the stubs of [Map], only refuse. *)
Definition linked_maps (rows cols height layers labels label_position : pyval)
    (kwargs : gmap string kwval) : M pyval :=
  raise (NotImplementedError Map.not_supported_message).

Definition split_map (left_layer right_layer left_label right_label label_position : pyval)
    (kwargs : gmap string kwval) : M pyval :=
  raise (NotImplementedError Map.not_supported_message).

(** A call of one of the unsupported operations, with its arguments. *)
Inductive stub_call : Type :=
| Call_add_colormap (cmap colors discrete label width height orientation vmin vmax
    axis_off show_name font_size transparent_bg position : pyval) (kwargs : gmap string kwval)
| Call_add_marker_cluster (event add_marker : pyval)
| Call_add_minimap (zoom position : pyval)
| Call_add_point_layer (filename popup layer_name : pyval) (kwargs : gmap string kwval)
| Call_add_raster (image bands layer_name colormap x_dim y_dim : pyval)
| Call_add_time_slider (layers_dict labels time_interval position slider_length : pyval)
| Call_add_vector_tile_layer (url attribution vector_tile_layer_styles : pyval)
    (kwargs : gmap string kwval)
| Call_add_xy_data (in_csv x y label layer_name : pyval)
| Call_basemap_demo
| Call_find_layer (name : pyval)
| Call_find_layer_index (name : pyval)
| Call_get_layer_names
| Call_get_scale
| Call_image_overlay (url bounds name : pyval)
| Call_layer_opacity (name value : pyval)
| Call_split_map (left_layer right_layer : pyval)
| Call_to_image (outfile monitor : pyval)
| Call_toolbar_reset
| Call_video_overlay (url bounds name : pyval)
| Call_linked_maps (rows cols height layers labels label_position : pyval)
    (kwargs : gmap string kwval)
| Call_split_map_function (left_layer right_layer left_label right_label label_position : pyval)
    (kwargs : gmap string kwval).

Definition run_stub (c : stub_call) : M pyval :=
  match c with
  | Call_add_colormap a b c d e f g h i j k l m n kw =>
      Map.add_colormap a b c d e f g h i j k l m n kw
  | Call_add_marker_cluster a b => Map.add_marker_cluster a b
  | Call_add_minimap a b => Map.add_minimap a b
  | Call_add_point_layer a b c kw => Map.add_point_layer a b c kw
  | Call_add_raster a b c d e f => Map.add_raster a b c d e f
  | Call_add_time_slider a b c d e => Map.add_time_slider a b c d e
  | Call_add_vector_tile_layer a b c kw => Map.add_vector_tile_layer a b c kw
  | Call_add_xy_data a b c d e => Map.add_xy_data a b c d e
  | Call_basemap_demo => Map.basemap_demo
  | Call_find_layer a => Map.find_layer a
  | Call_find_layer_index a => Map.find_layer_index a
  | Call_get_layer_names => Map.get_layer_names
  | Call_get_scale => Map.get_scale
  | Call_image_overlay a b c => Map.image_overlay a b c
  | Call_layer_opacity a b => Map.layer_opacity a b
  | Call_split_map a b => Map.split_map a b
  | Call_to_image a b => Map.to_image a b
  | Call_toolbar_reset => Map.toolbar_reset
  | Call_video_overlay a b c => Map.video_overlay a b c
  | Call_linked_maps a b c d e f kw => linked_maps a b c d e f kw
  | Call_split_map_function a b c d e kw => split_map a b c d e kw
  end.

(** ** Sample collaborators and states *)

Definition hex_char (d : N) : Ascii.ascii :=
  match String.get (N.to_nat d) "0123456789abcdef" with
  | Some c => c
  | None => Ascii.zero
  end.

Fixpoint hex_of_N (fuel : nat) (n : N) (acc : string) : string :=
  match fuel with
  | O => acc
  | S fuel' =>
      let acc' := String (hex_char (n mod 16)) acc in
      if (n / 16 =? 0)%N then acc' else hex_of_N fuel' (n / 16)%N acc'
  end.

(** Python's ["%02x" % z]. *)
Definition format_02x (z : Z) : string :=
  let digits := hex_of_N (S (N.to_nat (N.log2 (Z.abs_N z)))) (Z.abs_N z) "" in
  if (z <? 0)%Z then "-" +:+ digits
  else if (String.length digits <? 2)%nat then "0" +:+ digits
  else digits.

(** Modelled from the spec: [rgb_to_hex] of [leafmap.common] is not among the
    sources; the spec calls it "a known tuple→hex mapping (e.g., (255,0,0) →
    #ff0000)", the "#" being added by [add_legend].  The model formats the
    three integers of the tuple as two hexadecimal digits each. *)
Definition rgb_to_hex_model (rgb : pyval) : result string :=
  match rgb with
  | VTuple [VInt r; VInt g; VInt b] => Ok (format_02x r +:+ format_02x g +:+ format_02x b)
  | _ => Err (TypeError "rgb must be a tuple of three integers")
  end.

(** The components of a path written with "/". *)
Fixpoint split_slash (cur : string) (s : string) : list string :=
  match s with
  | EmptyString => if String.eqb cur "" then [] else [cur]
  | String c rest =>
      if Ascii.eqb c (Ascii.ascii_of_nat 47)
      then (if String.eqb cur "" then [] else [cur]) ++ split_slash "" rest
      else split_slash (cur +:+ String c "") rest
  end.

Definition sample_abspath (p : string) : list string :=
  if startswith p "/" then split_slash "" p else ["home"; "user"] ++ split_slash "" p.

Definition sample_template_path : list string := ["pkg"; "data"; "template"; "legend.txt"].

(** A template of 45 lines; line 36 holds the title. *)
Definition sample_template : string :=
  str_join "" (imap (λ i (_ : unit),
                      (if (i =? 36)%nat then "<div class='legend-title'>Legend</div>"
                       else "line " +:+ pretty i) +:+ String newline "")
                    (replicate 45 tt)).

Definition sample_bounds (link : pyval) : result pyval :=
  match link with
  | VStr s =>
      if startswith s "bad" then Ok VNone
      else Ok (VList [VFloat 0; VFloat 0; VFloat 2; VFloat 4])
  | _ => Err (TypeError "the link must be a string")
  end.

(** A feature collection for the examples, with one feature and the
    members [extra]. *)
Definition sample_collection (extra : list (pyval * pyval)) : pyval :=
  VDict ([(VStr "type", VStr "FeatureCollection");
          (VStr "features", VList [VDict [(VStr "type", VStr "Feature")]])] ++ extra).

(** A [folium.GeoJson] for the examples: the data has to be a dict whose
    "features" are a list that is not empty, and a style function that
    draws at random is called once. *)
Definition sample_geojson_init (data : pyval) (name : string) (kwargs : gmap string kwval)
    (k : nat) : nat * result unit :=
  match data with
  | VDict kv =>
      match dict_get kv "features" with
      | Ok (VList (_ :: _)) =>
          (match kwargs !! "style_function" with
           | Some (KFun (RandomColor _ _)) => S k
           | _ => k
           end, Ok tt)
      | Ok (VList []) => (k, Err (IndexError "list index out of range"))
      | Ok _ => (k, Err (TypeError "the features must be a list"))
      | Err e => (k, Err e)
      end
  | _ => (k, Err (TypeError "the data must be a dict"))
  end.

(** A [check_color] for the examples.  A string of "#" and six characters
    is returned as it is; any other value is refused the way
    [leafmap.common.check_color] refuses a colour it cannot read: two lines
    are printed and black is returned. *)
Definition sample_check_color (color : pyval) : list string * result string :=
  let refused := (["The provided color is invalid. Using the default black color.";
                   "invalid color"], Ok "#000000") in
  match color with
  | VStr c => if startswith c "#" && (String.length c =? 7)%nat then ([], Ok c) else refused
  | _ => refused
  end.

(** Collaborators for the examples; [center_of] is the [get_center] used. *)
Definition sample (center_of : pyval → result pyval) : Collaborators := {|
  abspath := sample_abspath;
  requests_get_json := λ url, Ok (sample_collection [(VStr "source", VStr url)]);
  json_load := λ text, Ok (sample_collection [(VStr "text", VStr text)]);
  random_below := λ k n, k;
  py_str := λ v, match v with
                 | VInt z => pretty z
                 | VFloat q => pretty (Qnum q) +:+ "/" +:+ pretty (Z.pos (Qden q))
                 | _ => "?"
                 end;
  random_string := λ k, "tmp" +:+ pretty k;
  rgb_to_hex := rgb_to_hex_model;
  check_color := sample_check_color;
  cog_mosaic := λ links endpoint username layername overwrite verbose,
    Ok (VStr (endpoint +:+ "mosaicjson/" +:+ username +:+ "." +:+ layername));
  cog_bounds := sample_bounds;
  cog_center := λ link endpoint, Ok (VTuple [VFloat 10; VFloat 20]);
  coords_to_geojson := λ coords, VDict [(VStr "type", VStr "FeatureCollection");
                                        (VStr "features", VList coords)];
  get_center := center_of;
  gdf_to_geojson := λ gdf epsg, Ok (geo_interface gdf);
  read_postgis := λ sql con kwargs, Err (CollaboratorError "no database");
  geojson_init := sample_geojson_init;
  osm_gdf_from_geocode := λ query which_result by_osmid buffer_dist,
    Ok (mkGdf (sample_collection [])
              (VList [VFloat 1; VFloat 2; VFloat 3; VFloat 4])
              (Ok (mkBounds [1%Q] [2%Q] [3%Q] [4%Q])));
  builtin_legends := [("NLCD", [(VStr "11 Open Water", VStr "466b9f");
                                (VStr "12 Perennial Ice/Snow", VStr "d1def8")])];
  legend_template := sample_template_path;
  render := λ ch root kwargs, "<html>" +:+ str_join "," (get_name <$> ch) +:+ "</html>"
|}.

Definition fixed_center (fc : pyval) : result pyval := Ok (VTuple [VFloat 1; VFloat 2]).


(** A map with no child yet, on a machine where the package and the working
    directory /home/user exist. *)
Definition sample_state : State := {|
  children := [];
  root_children := [];
  layersControl := true;
  next_id := 0;
  dirs := {[ []; ["home"]; ["home"; "user"]; ["pkg"]; ["pkg"; "data"];
             ["pkg"; "data"; "template"] ]};
  files := {[ sample_template_path := sample_template ]};
  http_log := [];
  stdout := [];
  draws := 0
|}.

(** A GeoDataFrame of two rows, in EPSG:4326 already. *)
Definition sample_gdf : GeoDataFrame := {|
  geo_interface := sample_collection [];
  total_bounds := VList [VFloat 0; VFloat 2; VFloat 7; VFloat 9];
  bounds_4326 := Ok (mkBounds [1%Q; 0%Q] [2%Q; 5%Q] [3%Q; 7%Q] [4%Q; 9%Q])
|}.

(** [str.strip()]: white space is dropped at both ends. *)
Fixpoint lstrip (s : string) : string :=
  match s with
  | EmptyString => EmptyString
  | String c rest => if Ascii.is_space c then lstrip rest else s
  end.

Definition strip (s : string) : string := String.rev (lstrip (String.rev (lstrip s))).

Definition sample_abspath_str (p : string) : string :=
  "/" +:+ str_join "/" (sample_abspath p).

(** A [LinearColormap] for the examples: a colour that starts with "#" has
    to go on with six hexadecimal digits; names and tuples pass. *)
Definition is_hex_digit (c : Ascii.ascii) : bool :=
  bool_decide (c ∈ String.list_ascii_of_string "0123456789abcdefABCDEF").

Definition sample_color_ok (color : pyval) : bool :=
  match color with
  | VStr (String first digits as c) =>
      negb (startswith c "#")
      || ((String.length digits =? 6)%nat
          && forallb is_hex_digit (String.list_ascii_of_string digits))
  | VTuple _ => true
  | _ => false
  end.

Definition sample_linear_colormap (colors index vmin vmax caption : pyval) : result unit :=
  match colors with
  | VList items =>
      if forallb sample_color_ok items then Ok tt
      else Err (ValueError "Unrecognized color code")
  | _ => Err (TypeError "the colors must be a list")
  end.

(** Services for the examples: every download stores one file, named after
    the URL, in the output directory; the list of COGs behind a URL has a
    header line and two links. *)
Definition sample_services : Services := {|
  abspath_str := sample_abspath_str;
  basename := λ p, default "" (last (split_slash "" p));
  path_join := λ a b, a +:+ "/" +:+ b;
  str_strip := strip;
  urlopen_lines := λ url, Ok ["url" +:+ String newline "";
                              "https://example.org/a.tif" +:+ String newline "";
                              "https://example.org/b.tif" +:+ String newline ""];
  glob := λ pattern s, [];
  cog_tile := λ url endpoint kwargs, Ok (VStr (endpoint +:+ "cog/tiles"));
  stac_tile := λ url bands endpoint kwargs, Ok (VStr (endpoint +:+ "stac/tiles"));
  stac_center := λ url endpoint, Ok (VTuple [VFloat 30; VFloat 40]);
  shp_to_geojson := λ path, Ok (sample_collection [(VStr "source", VStr path)]);
  kml_to_geojson := λ path, Ok (sample_collection [(VStr "source", VStr path)]);
  vector_to_geojson := λ filename bbox mask rows epsg kwargs,
    Ok (sample_collection [(VStr "source", VStr filename)]);
  download_from_url := λ url out_dir unzip,
    write_file (sample_abspath out_dir ++ [default "" (last (split_slash "" url))]) "data";
  osm_gdf_from_address := λ address tags dist, Ok sample_gdf;
  osm_gdf_from_place := λ query tags which_result buffer_dist, Ok sample_gdf;
  osm_gdf_from_point := λ center_point tags dist, Ok sample_gdf;
  osm_gdf_from_polygon := λ polygon tags, Err (CollaboratorError "no geometry found");
  osm_gdf_from_bbox := λ north south east west tags, Ok sample_gdf;
  py_float := λ text, match text with
                      | "600" => Ok (VFloat 600)
                      | "400" => Ok (VFloat 400)
                      | _ => Err (ValueError "could not convert string to float")
                      end;
  dirname_str := λ p, str_join "/" (removelast (split_slash "" p));
  random_string_of := λ n k, "s" +:+ pretty k;
  display_html := λ src width height, print ("display " +:+ src);
  folium_map_init := λ kwargs, Ok tt;
  folium_basemaps :=
    [("OpenStreetMap",
      mkElement 1000 (TileLayer (VStr "https://tile.openstreetmap.org/{z}/{x}/{y}.png")
                        (VStr "OpenStreetMap") (VStr "OpenStreetMap") (VBool true)
                        (VBool true) (VBool true) (VFloat 1) VNone ∅));
     ("HYBRID",
      mkElement 1001 (TileLayer (VStr "https://mt1.google.com/vt/lyrs=y&x={x}&y={y}&z={z}")
                        (VStr "Google Satellite") (VStr "Google") (VBool true)
                        (VBool true) (VBool true) (VFloat 1) VNone ∅))];
  linear_colormap := sample_linear_colormap;
  colormap_to_step := λ colormap n,
    match n with
    | VInt _ => Ok tt
    | _ => Err (TypeError "the number of steps must be an integer")
    end
|}.

(** ** Vocabulary of the properties *)

(** The state after one more child [b] has been attached to the map. *)
Definition attach (b : element_body) (s : State) : State :=
  set_next_id S (set_children (λ l, l ++ [mkElement (next_id s) b]) s).

(** The state after one more child [b] has been attached to the figure of
    the map. *)
Definition attach_root (b : element_body) (s : State) : State :=
  set_next_id S (set_root_children (λ l, l ++ [mkElement (next_id s) b]) s).

(** The state after the lines [lines] have been printed. *)
Definition after_print (lines : list string) (s : State) : State :=
  set_stdout (λ out, out ++ lines) s.

(** A computation that does nothing to the state but print. *)
Definition only_prints {A} (m : M A) : Prop := ∀ s, ∃ out, (m s).1 = after_print out s.

(** [check_color] applied to the colours one after the other, up to the
    first call that raises: the lines printed, and the backgrounds
    returned. *)
Fixpoint check_colors (E : Collaborators) (colors : list pyval)
    : list string * result (list string) :=
  match colors with
  | [] => ([], Ok [])
  | color :: rest =>
      match (check_color E color).2 with
      | Err e => ((check_color E color).1, Err e)
      | Ok background =>
          ((check_color E color).1 ++ (check_colors E rest).1,
           match (check_colors E rest).2 with
           | Ok backgrounds => Ok (background :: backgrounds)
           | Err e => Err e
           end)
      end
  end.

(** [sub] occurs in [s]. *)
Fixpoint mentions (sub s : string) : bool :=
  match s with
  | EmptyString => String.prefix sub EmptyString
  | String _ rest => String.prefix sub s || mentions sub rest
  end.

(** The number of children whose identifier starts with the layer-control
    prefix. *)
Definition count_layer_controls (s : State) : nat :=
  length (filter (λ name, startswith name "layer_control" = true) (to_dict_children s)).

(** The state after the first step of [to_html] and of the display hook: the
    layer control is asked for when the [layersControl] option is on. *)
Definition ensure_layer_control (s : State) : State :=
  if layersControl s then (Map.add_layer_control s).1 else s.

(** A computation that leaves the children and the options of the map as
    they are, whatever it does to the files. *)
Definition keeps_map {A} (m : M A) : Prop :=
  ∀ s, children (m s).1 = children s ∧ layersControl (m s).1 = layersControl s.

(** The three entry points that may add the layer control. *)
Inductive control_op : Type :=
| Op_add_layer_control
| Op_repr_mimebundle
| Op_to_html (outfile : option string) (kwargs : gmap string kwval).

Definition run_op (E : Collaborators) (s : State) (op : control_op) : State :=
  match op with
  | Op_add_layer_control => (Map.add_layer_control s).1
  | Op_repr_mimebundle => (Map._repr_mimebundle_ s).1
  | Op_to_html outfile kwargs => (Map.to_html E outfile kwargs s).1
  end.

(** Whether a call asks for the layer control: [add_layer_control] always
    does, the display hook and [to_html] do when the option is on. *)
Definition asks_for_control (s : State) (op : control_op) : bool :=
  match op with
  | Op_add_layer_control => true
  | Op_repr_mimebundle | Op_to_html _ _ => layersControl s
  end.

(** The state after the calls [ops], made one after the other; a call that
    raises leaves the state it reached. *)
Definition run_ops (E : Collaborators) (ops : list control_op) (s : State) : State :=
  foldl (run_op E) s ops.

(** The keyword arguments of [add_geojson] that are leafmap's own. *)
Definition leafmap_only_keys : list string :=
  ["style"; "style_callback"; "hover_style"; "fill_colors"; "info_mode"].

(** Whether a keyword value is a dict with at least one entry. *)
Definition nonempty_dict (v : kwval) : bool :=
  match v with KVal (VDict (_ :: _)) => true | _ => false end.

(** The markup of a legend, from the lines of the template and the entries
    of the legend: the first 36 lines, line 36 with the title put in, lines
    37 and 38, the entries, and the lines from line 42 on. *)
Definition legend_markup (title : string) (items lines : list string) : string :=
  str_join ""
    (take 36 lines
     ++ ((λ line, str_replace line "Legend" title) <$> take 1 (drop 36 lines))
     ++ take 2 (drop 37 lines) ++ items ++ drop 42 lines).

(** What line [index] of the template contributes to the markup once the
    entries [items] of the legend are known. *)
Definition legend_pieces (title : string) (items : list string) (index : nat) (line : string)
    : list string :=
  if (index <? 36)%nat then [line]
  else if (index =? 36)%nat then [str_replace line "Legend" title]
  else if (index <? 39)%nat then [line]
  else if (index =? 39)%nat then items
  else if (41 <? index)%nat then [line]
  else [].

(** The keyword arguments the constructor reads or rewrites before it calls
    [folium.Map.__init__]. *)
Definition init_keys : list string :=
  ["center"; "location"; "zoom"; "zoom_start"; "control_scale"; "draw_export";
   "height"; "width"].

(** Whether the control of flag [key] is asked for: the caller's value, or
    the default [on]. *)
Definition flag_of (kwargs : gmap string kwval) (key : string) (on : bool) : bool :=
  py_truthy (default (KVal (VBool on)) (kwargs !! key)).

(** The height or the width the constructor ends up with: the caller's
    value, converted when it is a string, [None] when there is none. *)
Definition size_of (V : Services) (kwargs : gmap string kwval) (key : string) : kwval :=
  match kwargs !! key with
  | Some (KVal (VStr text)) =>
      match py_float V (str_replace text "px" "") with
      | Ok x => KVal x
      | Err _ => KVal VNone
      end
  | Some v => v
  | None => KVal VNone
  end.

(** ** Properties *)

(** *** The monad *)

Lemma bind_ok {A B} (m : M A) (f : A → M B) s s' x :
  m s = (s', Ok x) → (m ≫= f) s = f x s'.
Proof. intros H. unfold mbind, M_bind. by rewrite H. Qed.

Lemma bind_err {A B} (m : M A) (f : A → M B) s s' e :
  m s = (s', Err e) → (m ≫= f) s = (s', Err e).
Proof. intros H. unfold mbind, M_bind. by rewrite H. Qed.

Lemma bind_lift_ok {A B} (x : A) (f : A → M B) s :
  (lift (Ok x) ≫= f) s = f x s.
Proof. done. Qed.

Lemma bind_lift_err {A B} (e : exn) (f : A → M B) s :
  (lift (Err e) ≫= f) s = (s, Err e).
Proof. done. Qed.

Lemma add_child_attach b s : add_child b s = (attach b s, Ok tt).
Proof. done. Qed.

Lemma fit_bounds_attach bounds z s :
  fit_bounds bounds z s = (attach (FitBounds bounds z) s, Ok tt).
Proof. done. Qed.

(** *** View fitting *)

Lemma zoom_to_bounds_list (b0 b1 b2 b3 : pyval) (s : State) :
  Map.zoom_to_bounds (VList [b0; b1; b2; b3]) s
  = (attach (FitBounds (VList [VList [b1; b0]; VList [b3; b2]]) None) s, Ok tt).
Proof. done. Qed.

(** C5. For a bounds list (or tuple) [min_x, min_y, max_x, max_y],
    [zoom_to_bounds] succeeds and attaches exactly one fit-bounds element,
    for the pairs [[min_y, min_x]] and [[max_y, max_x]]; the children seen
    before are kept in place and nothing else of the state changes. *)
Theorem zoom_to_bounds_fit_bounds (min_x min_y max_x max_y : pyval) (s : State) :
  let call := FitBounds (VList [VList [min_y; min_x]; VList [max_y; max_x]]) None in
  Map.zoom_to_bounds (VList [min_x; min_y; max_x; max_y]) s = (attach call s, Ok tt)
  ∧ Map.zoom_to_bounds (VTuple [min_x; min_y; max_x; max_y]) s = (attach call s, Ok tt)
  ∧ children (attach call s) = children s ++ [mkElement (next_id s) call]
  ∧ root_children (attach call s) = root_children s
  ∧ layersControl (attach call s) = layersControl s
  ∧ dirs (attach call s) = dirs s
  ∧ files (attach call s) = files s
  ∧ http_log (attach call s) = http_log s
  ∧ stdout (attach call s) = stdout s
  ∧ draws (attach call s) = draws s.
Proof. by repeat split. Qed.

(** *** Unsupported operations *)

(** C10. Every call of an operation of the unsupported set, whatever the
    arguments given for its parameters, raises the not-supported error,
    whose message names the ipyleaflet backend, and leaves the state as it
    was. *)
Theorem unsupported_operations_always_refuse (c : stub_call) (s : State) :
  run_stub c s = (s, Err (NotImplementedError Map.not_supported_message))
  ∧ is_not_supported (NotImplementedError Map.not_supported_message) = true
  ∧ mentions "ipyleaflet" Map.not_supported_message = true.
Proof. split; [by destruct c | by vm_compute]. Qed.

(** *** GeoDataFrames *)

Lemma zoom_to_layer_block_swapped gdf b west south east north s :
  bounds_4326 gdf = Ok b →
  Map.np_min (minx b) = Ok west → Map.np_min (miny b) = Ok south →
  Map.np_max (maxx b) = Ok east → Map.np_max (maxy b) = Ok north →
  Map.zoom_to_layer_block gdf s =
    (attach (FitBounds (VList [VList [VFloat south; VFloat east];
                               VList [VFloat north; VFloat west]]) None) s, Ok tt).
Proof.
  intros Hb Hw Hs He Hn. unfold Map.zoom_to_layer_block.
  rewrite Hb, bind_lift_ok, Hw, bind_lift_ok, Hs, bind_lift_ok, He, bind_lift_ok,
    Hn, bind_lift_ok.
  apply fit_bounds_attach.
Qed.

(** C4. When the reprojected bounds of a GeoDataFrame give [west], [south],
    [east] and [north], [add_gdf] and [add_gdf_from_postgis] with
    [zoom_to_layer=True], once the layer is attached, issue the fit-bounds
    call [[south, east], [north, west]]; [zoom_to_bounds] on the same box
    issues [[south, west], [north, east]]. *)
Theorem add_gdf_fit_bounds_swaps_east_west (E : Collaborators) (gdf : GeoDataFrame)
    (layer_name : string) (kwargs : gmap string kwval) (b : BoundsFrame)
    (west south east north : Q) (data : pyval) :
  bounds_4326 gdf = Ok b →
  Map.np_min (minx b) = Ok west → Map.np_min (miny b) = Ok south →
  Map.np_max (maxx b) = Ok east → Map.np_max (maxy b) = Ok north →
  gdf_to_geojson E gdf "4326" = Ok data →
  let swapped := FitBounds (VList [VList [VFloat south; VFloat east];
                                   VList [VFloat north; VFloat west]]) None in
  let regular := FitBounds (VList [VList [VFloat south; VFloat west];
                                   VList [VFloat north; VFloat east]]) None in
  (∀ s s1, Map.add_geojson E data layer_name kwargs s = (s1, Ok tt) →
     Map.add_gdf E gdf layer_name true kwargs s = (attach swapped s1, Ok tt))
  ∧ (∀ sql con s s1,
       read_postgis E sql con (delete "fill_colors" kwargs) = Ok gdf →
       Map.add_geojson E data layer_name (delete "fill_colors" kwargs) s = (s1, Ok tt) →
       Map.add_gdf_from_postgis E sql con layer_name true kwargs s = (attach swapped s1, Ok tt))
  ∧ (∀ s1, Map.zoom_to_bounds (VList [VFloat west; VFloat south; VFloat east; VFloat north]) s1
           = (attach regular s1, Ok tt)).
Proof.
  intros Hb Hw Hs He Hn Hdata swapped regular. split; [|split].
  - intros s s1 Hadd. unfold Map.add_gdf.
    rewrite Hdata, bind_lift_ok. rewrite (bind_ok _ _ _ _ _ Hadd). simpl.
    by apply (zoom_to_layer_block_swapped gdf b).
  - intros sql con s s1 Hread Hadd. unfold Map.add_gdf_from_postgis.
    rewrite Hread, bind_lift_ok, Hdata, bind_lift_ok. rewrite (bind_ok _ _ _ _ _ Hadd). simpl.
    by apply (zoom_to_layer_block_swapped gdf b).
  - intros s1. apply zoom_to_bounds_list.
Qed.

Lemma add_gdf_fit_bounds_swaps_east_west_witness :
  Map.add_gdf (sample fixed_center) sample_gdf "Untitled" true ∅ sample_state
  = (attach (FitBounds (VList [VList [VFloat 2; VFloat 7]; VList [VFloat 9; VFloat 0]]) None)
       (Map.add_geojson (sample fixed_center) (geo_interface sample_gdf) "Untitled" ∅
          sample_state).1,
     Ok tt).
Proof.
  refine (proj1 (add_gdf_fit_bounds_swaps_east_west (sample fixed_center) sample_gdf
    "Untitled" ∅ (mkBounds [1%Q; 0%Q] [2%Q; 5%Q] [3%Q; 7%Q] [4%Q; 9%Q])
    0%Q 2%Q 7%Q 9%Q (geo_interface sample_gdf) _ _ _ _ _ _) sample_state _ _);
    reflexivity.
Defined.

(** *** Loading GeoJSON *)

(** A URL is fetched once, and what the fetch returns is the data. *)
Lemma load_geojson_http (E : Collaborators) (url : string) (s : State) :
  startswith url "http" = true →
  Map.load_geojson E (VStr url) s
  = (set_http_log (λ log, log ++ [url]) s,
     match requests_get_json E url with Ok data => Ok data | Err e => Err (Exception e) end).
Proof.
  intros Hurl. unfold Map.load_geojson, reraise_as_exception. rewrite Hurl.
  unfold Map.http_get_json. by destruct (requests_get_json E url).
Qed.

(** A local path that names nothing: the [FileNotFoundError] raised inside
    the [try] block leaves the method wrapped in a generic [Exception]. *)
Lemma load_geojson_missing (E : Collaborators) (path : string) (s : State) :
  startswith path "http" = false →
  is_dir s (abspath E path) = false →
  is_file s (abspath E path) = false →
  Map.load_geojson E (VStr path) s
  = (s, Err (Exception (FileNotFoundError "The provided GeoJSON file could not be found."))).
Proof.
  intros Hurl Hd Hf. unfold Map.load_geojson, reraise_as_exception. rewrite Hurl.
  unfold mbind, M_bind, path_exists. by rewrite Hd, Hf.
Qed.

(** An input that is neither a string nor a dict: the [TypeError] is wrapped
    in the same way. *)
Lemma load_geojson_wrong_type (E : Collaborators) (v : pyval) (s : State) :
  is_str v = false → is_dict v = false →
  Map.load_geojson E v s
  = (s, Err (Exception (TypeError "The input geojson must be a type of str or dict."))).
Proof. intros Hs Hd. by destruct v. Qed.

Lemma add_geojson_load_error (E : Collaborators) v layer_name kwargs s s' e :
  Map.load_geojson E v s = (s', Err e) →
  Map.add_geojson E v layer_name kwargs s = (s', Err e).
Proof. intros H. unfold Map.add_geojson. by rewrite (bind_err _ _ _ _ _ H). Qed.

(** C6, the code at the failing inputs.  With no file "missing.geojson",
    [add_geojson] raises a generic [Exception] that carries the
    [FileNotFoundError], not a [FileNotFoundError]; and an integer input
    raises a generic [Exception] that carries the [TypeError].  A URL is
    fetched exactly once and the body becomes the data of the layer. *)
Theorem add_geojson_input_errors_are_wrapped :
  Map.add_geojson (sample fixed_center) (VStr "missing.geojson") "Untitled" ∅ sample_state
  = (sample_state,
     Err (Exception (FileNotFoundError "The provided GeoJSON file could not be found.")))
  ∧ is_file_not_found
      (Exception (FileNotFoundError "The provided GeoJSON file could not be found.")) = false
  ∧ Map.add_geojson (sample fixed_center) (VInt 5) "Untitled" ∅ sample_state
    = (sample_state,
       Err (Exception (TypeError "The input geojson must be a type of str or dict.")))
  ∧ is_validation_error
      (Exception (TypeError "The input geojson must be a type of str or dict.")) = false
  ∧ http_log (Map.add_geojson (sample fixed_center) (VStr "https://example.org/a.geojson")
                "Untitled" ∅ sample_state).1
    = ["https://example.org/a.geojson"].
Proof.
  split; [|split; [done|split; [|split; [done|]]]].
  - apply add_geojson_load_error. by apply load_geojson_missing.
  - apply add_geojson_load_error. by apply load_geojson_wrong_type.
  - reflexivity.
Qed.

(** *** Styling a vector layer *)

Lemma geojson_kwargs_callback_and_fill_colors (callback fill_colors : kwval) :
  Map.geojson_kwargs
    (<["style_callback" := callback]> (<["fill_colors" := fill_colors]> ∅))
  = Ok (<["style_function" := KFun (RandomColor fill_colors (KVal Map.default_style))]>
         (<["highlight_function" :=
              KFun (ConstStyle (VDict [(VStr "weight", VInt 2);
                                       (VStr "fillOpacity", VFloat (1 # 2)%Q)]))]> ∅)).
Proof. by destruct callback as [[]|]. Qed.

(** C3, the code at the failing input.  Called with a style callback and
    with [fill_colors] on a dict, [add_geojson] hands to [folium.GeoJson]
    keyword arguments whose style function is [random_color] over
    [fill_colors], and in which the callback occurs nowhere: when the
    constructor accepts them the layer attached is built with
    [random_color], and when it raises nothing is attached.  The style that
    [random_color] gives a feature is the default style with the
    "fillColor" drawn from the list.  Through [add_osm_from_geocode], which
    passes its default [fill_colors] on, a callback is dropped as well. *)
Theorem fill_colors_override_style_callback (E : Collaborators) (data : list (pyval * pyval))
    (layer_name : string) (callback : pyval → pyval) (feature : pyval) (s : State) :
  let kwargs : gmap string kwval :=
    <["style_callback" := KFun (Callback callback)]>
      (<["fill_colors" := KVal (VList [VStr "red"])]> ∅) in
  let chosen := RandomColor (KVal (VList [VStr "red"])) (KVal Map.default_style) in
  let passed : gmap string kwval :=
    <["style_function" := KFun chosen]>
      (<["highlight_function" :=
           KFun (ConstStyle (VDict [(VStr "weight", VInt 2);
                                    (VStr "fillOpacity", VFloat (1 # 2)%Q)]))]> ∅) in
  Map.geojson_kwargs kwargs = Ok passed
  ∧ (∀ k, geojson_init E (VDict data) layer_name passed (draws s) = (k, Ok tt) →
          Map.add_geojson E (VDict data) layer_name kwargs s
          = (attach (GeoJson (VDict data) layer_name passed) (set_draws (λ _, k) s), Ok tt))
  ∧ (∀ k e, geojson_init E (VDict data) layer_name passed (draws s) = (k, Err e) →
            Map.add_geojson E (VDict data) layer_name kwargs s
            = (set_draws (λ _, k) s, Err e))
  ∧ (∀ key, passed !! key ≠ Some (KFun (Callback callback)))
  ∧ (Map.call_style_fn E chosen feature s).2
    = Ok (VDict [(VStr "color", VStr "#000000"); (VStr "weight", VInt 1);
                 (VStr "opacity", VInt 1); (VStr "fillOpacity", VFloat (1 # 10)%Q);
                 (VStr "fillColor", VStr "red")])
  ∧ children (Map.add_osm_from_geocode (sample fixed_center) (VStr "Paris") VNone
                (VBool false) VNone "Untitled" Map.osm_default_style Map.osm_default_hover_style
                (KFun (Callback callback)) Map.osm_default_fill_colors Map.osm_default_info_mode
                sample_state).1
    = [mkElement 0 (GeoJson (sample_collection []) "Untitled"
                      {[ "style_function" :=
                           KFun (RandomColor (KVal (VList [VStr "black"])) (KVal (VDict []))) ]});
       mkElement 1 (FitBounds (VList [VList [VFloat 2; VFloat 1]; VList [VFloat 4; VFloat 3]])
                      None)].
Proof.
  intros kwargs chosen passed.
  assert (Map.geojson_kwargs kwargs = Ok passed) as Hk
    by apply geojson_kwargs_callback_and_fill_colors.
  assert (Map.load_geojson E (VDict data) s = (s, Ok (VDict data))) as Hload by done.
  split; [exact Hk|]. split; [|split; [|split; [|split]]].
  - intros k Hinit. unfold Map.add_geojson.
    rewrite (bind_ok _ _ _ _ _ Hload), Hk, bind_lift_ok.
    unfold mbind, M_bind, Map.new_geojson. by rewrite Hinit.
  - intros k e Hinit. unfold Map.add_geojson.
    rewrite (bind_ok _ _ _ _ _ Hload), Hk, bind_lift_ok.
    unfold mbind, M_bind, Map.new_geojson. by rewrite Hinit.
  - intros key. unfold passed.
    destruct (decide (key = "style_function")) as [->|Hs];
      [by rewrite lookup_insert_eq|rewrite lookup_insert_ne by done].
    destruct (decide (key = "highlight_function")) as [->|Hh];
      [by rewrite lookup_insert_eq|by rewrite lookup_insert_ne].
  - unfold Map.call_style_fn, chosen, Map.random_choice, mbind, M_bind. by simpl.
  - reflexivity.
Qed.

Lemma fill_colors_override_style_callback_witness :
  let callback := λ feature : pyval, VDict [(VStr "fillColor", VStr "blue")] in
  let random_color := RandomColor (KVal (VList [VStr "red"])) (KVal Map.default_style) in
  (Map.add_geojson (sample fixed_center) (sample_collection []) "Untitled"
     (<["style_callback" := KFun (Callback callback)]>
        (<["fill_colors" := KVal (VList [VStr "red"])]> ∅)) sample_state).2 = Ok tt
  ∧ ∃ kwargs,
      children (Map.add_geojson (sample fixed_center) (sample_collection []) "Untitled"
                  (<["style_callback" := KFun (Callback callback)]>
                     (<["fill_colors" := KVal (VList [VStr "red"])]> ∅)) sample_state).1
      = [mkElement 0 (GeoJson (sample_collection []) "Untitled" kwargs)]
      ∧ kwargs !! "style_function" = Some (KFun random_color).
Proof.
  intros callback random_color.
  destruct (fill_colors_override_style_callback (sample fixed_center)
              [(VStr "type", VStr "FeatureCollection");
               (VStr "features", VList [VDict [(VStr "type", VStr "Feature")]])]
              "Untitled" callback VNone sample_state) as (_ & Hrun & _).
  specialize (Hrun 1%nat eq_refl).
  change (VDict [(VStr "type", VStr "FeatureCollection");
                 (VStr "features", VList [VDict [(VStr "type", VStr "Feature")]])])
    with (sample_collection []) in Hrun.
  rewrite Hrun. split; [reflexivity|]. eexists. split; reflexivity.
Defined.

(** *** COG mosaics *)







(** *** Legends: the colours *)

Lemma mapM_result_length {A B} (f : A → result B) (l : list A) (k : list B) :
  mapM f l = Ok k → length k = length l.
Proof.
  revert k. induction l as [|x l IH]; intros k H; simpl in H.
  - by injection H as <-.
  - unfold mbind, result_bind in H. destruct (f x); [|done].
    destruct (mapM f l) as [k'|]; [|done]. injection H as <-. simpl. by rewrite (IH k').
Qed.

Lemma tuples_to_hex_ok (E : Collaborators) (with_hash : bool) (items : list pyval)
    (hexes : list string) :
  mapM (rgb_to_hex E) items = Ok hexes →
  Map.tuples_to_hex E with_hash items
  = Ok ((λ h, VStr (if with_hash then "#" +:+ h else h)) <$> hexes).
Proof.
  unfold Map.tuples_to_hex. revert hexes.
  induction items as [|x items IH]; intros hexes H; simpl in *.
  - by injection H as <-.
  - unfold mbind, result_bind in *. destruct (rgb_to_hex E x) as [h|]; [|done].
    destruct (mapM (rgb_to_hex E) items) as [hs|]; [|done]. injection H as <-.
    specialize (IH hs eq_refl). simpl.
    destruct (mapM _ items) as [l|]; [|done]. by injection IH as ->.
Qed.

Lemma tuples_to_hex_length (E : Collaborators) (with_hash : bool) (items l : list pyval) :
  Map.tuples_to_hex E with_hash items = Ok l → length l = length items.
Proof.
  unfold Map.tuples_to_hex. intros H.
  destruct (mapM _ items) as [k|] eqn:Hk; [|done]. injection H as <-.
  by apply mapM_result_length in Hk.
Qed.

Lemma mapM_result_cons {A B} (f : A → result B) (x : A) (l : list A) :
  mapM f (x :: l) = (y ← f x; k ← mapM f l; Ok (y :: k)).
Proof. done. Qed.

Lemma mapM_hash_plus (strs : list string) :
  mapM Map.hash_plus (VStr <$> strs) = Ok ((λ c, VStr ("#" +:+ c)) <$> strs).
Proof.
  induction strs as [|c strs IH]; [done|].
  rewrite !fmap_cons, mapM_result_cons, IH. done.
Qed.

Lemma forallb_is_tuple_strs (c : string) (strs : list string) :
  forallb is_tuple (VStr <$> (c :: strs)) = false.
Proof. done. Qed.

Lemma forallb_is_str_strs (strs : list string) : forallb is_str (VStr <$> strs) = true.
Proof. by induction strs. Qed.

(** The test for "#" and seven characters never raises on strings. *)
Lemma py_all_hash7_strs (strs : list string) :
  py_all (λ item, sw ← py_startswith item "#";
                  if (sw : bool) then n ← py_len item; Ok (n =? 7)%nat else Ok false)
         (VStr <$> strs)
  = Ok (forallb (λ c, startswith c "#" && (String.length c =? 7)%nat) strs).
Proof.
  induction strs as [|c strs IH]; [done|]. simpl. unfold mbind, result_bind. simpl.
  destruct (startswith c "#"); simpl; [|done].
  destruct (String.length c =? 7)%nat; simpl; [apply IH|done].
Qed.

Lemma py_all_six_strs (strs : list string) :
  py_all (λ item, n ← py_len item; Ok (n =? 6)%nat) (VStr <$> strs)
  = Ok (forallb (λ c, (String.length c =? 6)%nat) strs).
Proof.
  induction strs as [|c strs IH]; [done|]. simpl. unfold mbind, result_bind. simpl.
  destruct (String.length c =? 6)%nat; simpl; [apply IH|done].
Qed.

(** The [colors] argument when it is a list of strings: kept as it is when
    all are "#" plus six characters or all are six characters long, refused
    otherwise. *)
Lemma check_colors_arg_strs (E : Collaborators) (strs : list string) :
  Map.check_colors_arg E (VStr <$> strs)
  = if forallb (λ c, startswith c "#" && (String.length c =? 7)%nat) strs
       || forallb (λ c, (String.length c =? 6)%nat) strs
    then Ok (VStr <$> strs)
    else Err (ValueError "The legend colors must be a list of tuples.").
Proof.
  destruct strs as [|c strs]; [done|].
  unfold Map.check_colors_arg. rewrite forallb_is_tuple_strs.
  rewrite py_all_hash7_strs. unfold mbind at 1, result_bind at 1.
  destruct (forallb _ (c :: strs)); [done|].
  rewrite py_all_six_strs. unfold mbind, result_bind. done.
Qed.

Lemma dict_colors_strs (E : Collaborators) (with_hash : bool) (strs : list string) :
  Map.dict_colors E with_hash (VStr <$> strs) = Ok ((λ c, VStr ("#" +:+ c)) <$> strs).
Proof.
  destruct strs as [|c strs]; [done|].
  unfold Map.dict_colors. rewrite forallb_is_tuple_strs, forallb_is_str_strs.
  apply mapM_hash_plus.
Qed.

Lemma dict_colors_tuples (E : Collaborators) (with_hash : bool) (items : list pyval)
    (hexes : list string) :
  forallb is_tuple items = true →
  mapM (rgb_to_hex E) items = Ok hexes →
  Map.dict_colors E with_hash items
  = Ok ((λ h, VStr (if with_hash then "#" +:+ h else h)) <$> hexes).
Proof. intros Ht Hh. unfold Map.dict_colors. rewrite Ht. by apply tuples_to_hex_ok. Qed.

Lemma dict_colors_length (E : Collaborators) (with_hash : bool) (values l : list pyval) :
  Map.dict_colors E with_hash values = Ok l → length l = length values.
Proof.
  unfold Map.dict_colors. intros H.
  destruct (forallb is_tuple values); [by apply tuples_to_hex_length in H|].
  destruct (forallb is_str values); [by apply mapM_result_length in H|].
  by injection H as <-.
Qed.

Lemma check_colors_arg_length (E : Collaborators) (items l : list pyval) :
  Map.check_colors_arg E items = Ok l → length l = length items.
Proof.
  unfold Map.check_colors_arg. intros H.
  destruct (forallb is_tuple items); [by apply tuples_to_hex_length in H|].
  unfold mbind, result_bind in H.
  destruct (py_all _ items) as [[]|]; [by injection H as <-| |done].
  destruct (py_all _ items) as [[]|]; [by injection H as <-|done|done].
Qed.

(** The three routes of [resolve_legend]. *)
Lemma resolve_legend_direct (E : Collaborators) (labels items colors : list pyval) :
  Map.check_colors_arg E items = Ok colors →
  length labels = length items →
  Map.resolve_legend E (VList items) (VList labels) VNone None = Ok (labels, colors).
Proof.
  intros Hc Hlen. unfold Map.resolve_legend. simpl. rewrite Hc.
  unfold mbind, result_bind. simpl.
  rewrite Hlen, <- (check_colors_arg_length E items colors Hc), Nat.eqb_refl. done.
Qed.

Lemma resolve_legend_dict (E : Collaborators) (kv : list (pyval * pyval)) (colors : list pyval) :
  Map.dict_colors E true (dict_values kv) = Ok colors →
  Map.resolve_legend E VNone VNone (VDict kv) None = Ok (dict_keys kv, colors).
Proof. intros Hc. unfold Map.resolve_legend. simpl. by rewrite Hc. Qed.

Lemma resolve_legend_builtin (E : Collaborators) (name key : string)
    (kv : list (pyval * pyval)) (rest : list (string * list (pyval * pyval)))
    (legend_dict : pyval) (colors0 colors : list pyval) :
  filter (λ e, String.eqb e.1 name = true) (builtin_legends E) = (key, kv) :: rest →
  Map.dict_colors E false (dict_values kv) = Ok colors0 →
  Map.dict_colors E true (dict_values kv) = Ok colors →
  Map.resolve_legend E VNone VNone legend_dict (Some name) = Ok (dict_keys kv, colors).
Proof.
  intros Hf H0 H1. unfold Map.resolve_legend. simpl. rewrite Hf.
  unfold mbind, result_bind. simpl. rewrite H0. simpl. by rewrite H1.
Qed.

(** *** Legends: labels and colours go in pairs *)

Lemma dict_keys_values_length (kv : list (pyval * pyval)) :
  length (dict_keys kv) = length (dict_values kv).
Proof. unfold dict_keys, dict_values. by rewrite !length_fmap. Qed.

(** Whatever route is taken, the resolved lists have the same length. *)
Lemma resolve_legend_lengths (E : Collaborators) (colors labels legend_dict : pyval)
    (builtin_legend : option string) (ls cs : list pyval) :
  Map.resolve_legend E colors labels legend_dict builtin_legend = Ok (ls, cs) →
  length ls = length cs.
Proof.
  unfold Map.resolve_legend, mbind, result_bind. intros H.
  destruct (if negb (is_none labels) then _ else _) as [ls0|]; [|done].
  destruct (if negb (is_none colors) then _ else _) as [cs0|]; [|done].
  destruct (length ls0 =? length cs0)%nat eqn:Hlen; simpl in H; [|done].
  apply Nat.eqb_eq in Hlen.
  destruct builtin_legend as [name|].
  - destruct (filter _ (builtin_legends E)) as [|[key kv] rest]; [done|].
    destruct (Map.dict_colors E false (dict_values kv)); [|done]. simpl in H.
    destruct (Map.dict_colors E true (dict_values kv)) as [cs1|] eqn:Hd; [|done].
    injection H as <- <-. apply dict_colors_length in Hd.
    by rewrite Hd, dict_keys_values_length.
  - simpl in H. destruct (is_none legend_dict) eqn:Hn; simpl in H.
    + by injection H as <- <-.
    + destruct legend_dict as [| | | | | | |kv]; try done.
      destruct (Map.dict_colors E true (dict_values kv)) as [cs1|] eqn:Hd; [|done].
      injection H as <- <-. apply dict_colors_length in Hd.
      by rewrite Hd, dict_keys_values_length.
Qed.


(** *** Legends: the entries and the markup *)

Lemma after_print_nil (s : State) : after_print [] s = s.
Proof. destruct s. unfold after_print, set_stdout. simpl. by rewrite app_nil_r. Qed.

Lemma after_print_app (l1 l2 : list string) (s : State) :
  after_print l2 (after_print l1 s) = after_print (l1 ++ l2) s.
Proof. unfold after_print, set_stdout. simpl. by rewrite <- app_assoc. Qed.

Lemma mapM_M_cons {A B} (f : A → M B) (x : A) (l : list A) :
  mapM f (x :: l) = (y ← f x; k ← mapM f l; mret (y :: k)).
Proof. done. Qed.


(** The loop over the colours: [check_color] is called on each colour in
    turn, and entry [i] is written from label [i] and from what the call
    returned for colour [i]. *)
Lemma legend_items_from (E : Collaborators) (labels colors : list pyval) (opacity : pyval)
    (k : nat) (s : State) :
  length labels = (k + length colors)%nat →
  mapM (λ ic, Map.legend_item E labels opacity ic.1 ic.2)
       (imap (λ i c, ((k + i)%nat, c)) colors) s
  = (after_print (check_colors E colors).1 s,
     match (check_colors E colors).2 with
     | Ok backgrounds =>
         Ok (zip_with (Map.legend_entry E opacity) (drop k labels) backgrounds)
     | Err e => Err e
     end).
Proof.
  revert k s. induction colors as [|c colors IH]; intros k s Hk.
  - simpl. rewrite after_print_nil. by rewrite zip_with_nil_r.
  - rewrite imap_cons, mapM_M_cons.
    rewrite (imap_ext _ (λ i c0, ((S k + i)%nat, c0))) by (intros; simpl; f_equal; lia).
    simpl in Hk.
    destruct (lookup_lt_is_Some_2 labels k) as [label Hlabel]; [lia|].
    unfold mbind at 1, M_bind at 1.
    unfold Map.legend_item at 1. simpl fst. simpl snd. rewrite Nat.add_0_r.
    unfold mbind at 1, M_bind at 1, Map.call_check_color.
    fold (after_print (check_color E c).1 s).
    simpl check_colors.
    destruct (check_color E c).2 as [b|e]; [|done].
    rewrite Hlabel. unfold mret at 1, M_ret at 1.
    unfold mbind, M_bind. rewrite (IH (S k)) by lia.
    rewrite after_print_app. simpl.
    destruct (check_colors E colors).2 as [bs|e]; [|done].
    unfold mret, M_ret. by rewrite (drop_S labels label k Hlabel).
Qed.

Lemma legend_items_run (E : Collaborators) (labels colors : list pyval) (opacity : pyval)
    (s : State) :
  length labels = length colors →
  Map.legend_items E labels colors opacity s
  = (after_print (check_colors E colors).1 s,
     match (check_colors E colors).2 with
     | Ok backgrounds => Ok (zip_with (Map.legend_entry E opacity) labels backgrounds)
     | Err e => Err e
     end).
Proof. intros Hlen. by apply (legend_items_from E labels colors opacity 0 s). Qed.

Section LegendLines.
Variable E : Collaborators.
Variables (title : string) (labels colors : list pyval) (opacity : pyval).

Lemma legend_line_pure (index : nat) (line : string) (items : list string) (t : State) :
  index ≠ 39%nat →
  Map.legend_line E title labels colors opacity index line t
  = (t, Ok (legend_pieces title items index line)).
Proof.
  intros Hi. unfold Map.legend_line, legend_pieces.
  destruct (index =? 39)%nat eqn:H39; [apply Nat.eqb_eq in H39; lia|].
  by repeat case_match.
Qed.

Lemma legend_line_entries (line : string) :
  Map.legend_line E title labels colors opacity 39 line
  = Map.legend_items E labels colors opacity.
Proof. done. Qed.

(** The lines before line 39 and those after it leave the state alone. *)
Lemma legend_lines_pure (k : nat) (lines items : list string) (t : State) :
  (39 < k ∨ k + length lines ≤ 39)%nat →
  mapM (λ il, Map.legend_line E title labels colors opacity il.1 il.2)
       (imap (λ i line, ((k + i)%nat, line)) lines) t
  = (t, Ok (imap (λ i line, legend_pieces title items (k + i) line) lines)).
Proof.
  revert k. induction lines as [|line lines IH]; intros k Hk; [done|].
  simpl in Hk. rewrite !imap_cons, mapM_M_cons.
  rewrite (imap_ext _ (λ i line0, ((S k + i)%nat, line0)))
    by (intros; simpl; f_equal; lia).
  rewrite (bind_ok _ _ _ _ _ (legend_line_pure (k + 0) line items t ltac:(lia))).
  rewrite (bind_ok _ _ _ _ _ (IH (S k) ltac:(lia))).
  unfold mret, M_ret. do 3 f_equal.
  apply imap_ext. intros. simpl. f_equal. lia.
Qed.

(** The lines of a template that reaches line 39: the state changes as the
    entries change it. *)
Lemma legend_lines_through (k : nat) (lines items : list string) (t t' : State) :
  (k ≤ 39 < k + length lines)%nat →
  Map.legend_items E labels colors opacity t = (t', Ok items) →
  mapM (λ il, Map.legend_line E title labels colors opacity il.1 il.2)
       (imap (λ i line, ((k + i)%nat, line)) lines) t
  = (t', Ok (imap (λ i line, legend_pieces title items (k + i) line) lines)).
Proof.
  intros Hk Hitems. revert k Hk.
  induction lines as [|line lines IH]; intros k Hk; [simpl in Hk; lia|].
  simpl in Hk. rewrite !imap_cons, mapM_M_cons.
  rewrite (imap_ext _ (λ i line0, ((S k + i)%nat, line0)))
    by (intros; simpl; f_equal; lia).
  rewrite (imap_ext (λ i line0, legend_pieces title items (k + S i) line0)
             (λ i line0, legend_pieces title items (S k + i) line0))
    by (intros; simpl; f_equal; lia).
  destruct (decide (k = 39%nat)) as [->|Hne].
  - assert (Map.legend_line E title labels colors opacity (39 + 0) line t = (t', Ok items))
      as Hhead by exact Hitems.
    rewrite (bind_ok _ _ _ _ _ Hhead).
    by rewrite (bind_ok _ _ _ _ _ (legend_lines_pure 40 lines items t' ltac:(lia))).
  - rewrite (bind_ok _ _ _ _ _ (legend_line_pure (k + 0) line items t ltac:(lia))).
    by rewrite (bind_ok _ _ _ _ _ (IH (S k) ltac:(lia))).
Qed.

Lemma legend_lines_error (k : nat) (lines : list string) (e : exn) (t t' : State) :
  (k ≤ 39 < k + length lines)%nat →
  Map.legend_items E labels colors opacity t = (t', Err e) →
  mapM (λ il, Map.legend_line E title labels colors opacity il.1 il.2)
       (imap (λ i line, ((k + i)%nat, line)) lines) t = (t', Err e).
Proof.
  intros Hk Hitems. revert k Hk.
  induction lines as [|line lines IH]; intros k Hk; [simpl in Hk; lia|].
  simpl in Hk. rewrite !imap_cons, mapM_M_cons.
  rewrite (imap_ext _ (λ i line0, ((S k + i)%nat, line0)))
    by (intros; simpl; f_equal; lia).
  destruct (decide (k = 39%nat)) as [->|Hne].
  - assert (Map.legend_line E title labels colors opacity (39 + 0) line t = (t', Err e))
      as Hhead by exact Hitems.
    by rewrite (bind_err _ _ _ _ _ Hhead).
  - rewrite (bind_ok _ _ _ _ _ (legend_line_pure (k + 0) line [] t ltac:(lia))).
    by rewrite (bind_err _ _ _ _ _ (IH (S k) ltac:(lia))).
Qed.

End LegendLines.

Lemma pieces_tail (title : string) (items : list string) (k : nat) (lines : list string) :
  (42 ≤ k)%nat →
  concat (imap (λ i line, legend_pieces title items (k + i) line) lines) = lines.
Proof.
  revert k. induction lines as [|line lines IH]; intros k Hk; [done|].
  rewrite imap_cons. simpl concat.
  rewrite (imap_ext _ (λ i line0, legend_pieces title items (S k + i) line0))
    by (intros; simpl; f_equal; lia).
  rewrite IH by lia. unfold legend_pieces.
  repeat case_match; try done;
    repeat match goal with
           | H : (_ <? _)%nat = true |- _ => apply Nat.ltb_lt in H
           | H : (_ <? _)%nat = false |- _ => apply Nat.ltb_ge in H
           | H : (_ =? _)%nat = true |- _ => apply Nat.eqb_eq in H
           | H : (_ =? _)%nat = false |- _ => apply Nat.eqb_neq in H
           end; lia.
Qed.

(** The pieces of the lines, put together, are the markup of the legend. *)
Lemma legend_pieces_markup (title : string) (items lines : list string) :
  (40 ≤ length lines)%nat →
  str_join "" (concat (imap (λ i line, legend_pieces title items (0 + i) line) lines))
  = legend_markup title items lines.
Proof.
  intros Hlen. unfold legend_markup. f_equal.
  do 40 (destruct lines as [|? lines]; [simpl in Hlen; lia|]). clear Hlen.
  rewrite !imap_cons.
  rewrite (imap_ext _ (λ i line, legend_pieces title items (40 + i) line)) by done.
  change (drop 42 ?l) with (drop 2 lines).
  destruct lines as [|line40 [|line41 lines]]; [done|done|].
  rewrite !imap_cons.
  rewrite (imap_ext _ (λ i line, legend_pieces title items (42 + i) line)) by done.
  rewrite !concat_cons, pieces_tail by lia. simpl. done.
Qed.

(** [add_legend] in one piece, for a template that reaches line 39: the
    colours are checked one after the other, which may print; when a check
    raises nothing is added; otherwise the markup goes to the figure. *)
Lemma add_legend_run (E : Collaborators) (title : string)
    (colors labels legend_dict : pyval) (builtin_legend : option string) (opacity : pyval)
    (s : State) (text : string) (ls cs : list pyval) :
  files s !! legend_template E = Some text →
  is_dir s (legend_template E) = false →
  (40 ≤ length (readlines (universal_newlines text)))%nat →
  Map.resolve_legend E colors labels legend_dict builtin_legend = Ok (ls, cs) →
  Map.add_legend E title colors labels legend_dict builtin_legend opacity s
  = match (check_colors E cs).2 with
    | Ok backgrounds =>
        (attach_root
           (MacroElement
              (legend_markup title (zip_with (Map.legend_entry E opacity) ls backgrounds)
                 (readlines (universal_newlines text))))
           (after_print (check_colors E cs).1 s),
         Ok tt)
    | Err e => (after_print (check_colors E cs).1 s, Err e)
    end.
Proof.
  intros Hfile Hdir Hlen Hr.
  pose proof (resolve_legend_lengths E _ _ _ _ _ _ Hr) as Hl.
  pose proof (legend_items_run E ls cs opacity s Hl) as Hitems.
  assert (path_exists (legend_template E) s = (s, Ok true)) as Hexists.
  { unfold path_exists. rewrite Hdir. simpl. do 2 f_equal.
    unfold is_file. apply bool_decide_eq_true. by rewrite Hfile. }
  assert (read_file (legend_template E) s = (s, Ok (universal_newlines text))) as Hread.
  { unfold read_file. by rewrite Hdir, Hfile. }
  assert (0 ≤ 39 < 0 + length (readlines (universal_newlines text)))%nat as Hrange by lia.
  unfold Map.add_legend.
  rewrite (bind_ok _ _ _ _ _ Hexists). simpl negb. cbv iota.
  rewrite (bind_ok (mret tt) _ s s tt eq_refl).
  rewrite Hr, bind_lift_ok. cbv beta iota.
  rewrite (bind_ok _ _ _ _ _ Hread).
  change (imap pair (readlines (universal_newlines text)))
    with (imap (λ i line, ((0 + i)%nat, line)) (readlines (universal_newlines text))).
  destruct (check_colors E cs).2 as [backgrounds|e].
  - rewrite (bind_ok _ _ _ _ _
               (legend_lines_through E title ls cs opacity 0 _ _ s _ Hrange Hitems)).
    rewrite legend_pieces_markup by done. done.
  - by rewrite (bind_err _ _ _ _ _
                  (legend_lines_error E title ls cs opacity 0 _ e s _ Hrange Hitems)).
Qed.

(** *** Legends: the "#" of a colour *)

(** C2, the code on the three routes.  Given directly in [colors], strings
    of six characters are resolved to themselves: no "#" is put in front,
    and [check_color] is handed the six characters.  Given by a legend dict
    or by a builtin legend, every string gets a "#" in front, a string that
    has one already too.  So with a [check_color] that reads "#" and six
    characters and nothing else, [colors=["466b9f"]] and
    [legend_dict={"Water": "#466b9f"}] both end in a black entry and two
    printed lines, where "#466b9f" was meant. *)
Theorem legend_color_hash_depends_on_route (E : Collaborators) :
  (∀ labels strs,
     forallb (λ c, (String.length c =? 6)%nat) strs = true →
     length labels = length strs →
     Map.resolve_legend E (VList (VStr <$> strs)) (VList labels) VNone None
     = Ok (labels, VStr <$> strs))
  ∧ (∀ kv strs,
       dict_values kv = VStr <$> strs →
       Map.resolve_legend E VNone VNone (VDict kv) None
       = Ok (dict_keys kv, (λ c, VStr ("#" +:+ c)) <$> strs))
  ∧ (∀ name key kv rest legend_dict strs,
       filter (λ e, String.eqb e.1 name = true) (builtin_legends E) = (key, kv) :: rest →
       dict_values kv = VStr <$> strs →
       Map.resolve_legend E VNone VNone legend_dict (Some name)
       = Ok (dict_keys kv, (λ c, VStr ("#" +:+ c)) <$> strs))
  ∧ (let black := Map.legend_entry (sample fixed_center) (VInt 1) (VStr "Water") "#000000" in
     let refusal := ["The provided color is invalid. Using the default black color.";
                     "invalid color"] in
     let result :=
       (attach_root
          (MacroElement (legend_markup "Land cover" [black] (readlines sample_template)))
          (after_print refusal sample_state),
        Ok tt) in
     Map.add_legend (sample fixed_center) "Land cover" (VList [VStr "466b9f"])
       (VList [VStr "Water"]) VNone None (VInt 1) sample_state = result
     ∧ Map.add_legend (sample fixed_center) "Land cover" VNone VNone
         (VDict [(VStr "Water", VStr "#466b9f")]) None (VInt 1) sample_state = result).
Proof.
  split; [|split; [|split]].
  - intros labels strs H6 Hlen. apply resolve_legend_direct; [|by rewrite length_fmap].
    by rewrite check_colors_arg_strs, H6, orb_true_r.
  - intros kv strs Hv. apply resolve_legend_dict. rewrite Hv. apply dict_colors_strs.
  - intros name key kv rest legend_dict strs Hf Hv.
    apply (resolve_legend_builtin E name key kv rest legend_dict
             ((λ c, VStr ("#" +:+ c)) <$> strs)); [done| |];
      rewrite Hv; apply dict_colors_strs.
  - intros black refusal result. split.
    + rewrite (add_legend_run (sample fixed_center) "Land cover" _ _ _ _ _ sample_state
                 sample_template [VStr "Water"] [VStr "466b9f"]);
        [done|done|done|vm_compute; lia|done].
    + rewrite (add_legend_run (sample fixed_center) "Land cover" _ _ _ _ _ sample_state
                 sample_template [VStr "Water"] [VStr "##466b9f"]);
        [done|done|done|vm_compute; lia|done].
Qed.

Lemma legend_color_hash_depends_on_route_witness :
  Map.resolve_legend (sample fixed_center) (VList [VStr "466b9f"]) (VList [VStr "Water"])
    VNone None
  = Ok ([VStr "Water"], [VStr "466b9f"])
  ∧ Map.resolve_legend (sample fixed_center) VNone VNone
      (VDict [(VStr "Water", VStr "#466b9f")]) None
    = Ok ([VStr "Water"], [VStr "##466b9f"])
  ∧ Map.resolve_legend (sample fixed_center) VNone VNone VNone (Some "NLCD")
    = Ok ([VStr "11 Open Water"; VStr "12 Perennial Ice/Snow"],
          [VStr "#466b9f"; VStr "#d1def8"]).
Proof.
  pose proof (legend_color_hash_depends_on_route (sample fixed_center))
    as (Hdirect & Hdict & Hbuiltin & _).
  split; [|split].
  - refine (Hdirect [VStr "Water"] ["466b9f"] _ _); reflexivity.
  - refine (Hdict [(VStr "Water", VStr "#466b9f")] ["#466b9f"] _). reflexivity.
  - refine (Hbuiltin "NLCD" "NLCD" [(VStr "11 Open Water", VStr "466b9f");
                                    (VStr "12 Perennial Ice/Snow", VStr "d1def8")]
              [] VNone ["466b9f"; "d1def8"] _ _); reflexivity.
Defined.

(** *** Legends: one entry for each label *)




(** *** The layer control *)

Lemma scan_layer_control_count (items : list string) :
  Map.scan_layer_control items
  = negb (length (filter (λ name, startswith name "layer_control" = true) items) =? 0)%nat.
Proof.
  induction items as [|item items IH]; [done|]. simpl Map.scan_layer_control.
  destruct (startswith item "layer_control") eqn:Hitem.
  - by rewrite filter_cons_True.
  - rewrite filter_cons_False by (by rewrite Hitem). done.
Qed.

Lemma add_layer_control_cases (s : State) :
  Map.add_layer_control s
  = (if (count_layer_controls s =? 0)%nat then attach LayerControl s else s, Ok tt).
Proof.
  unfold Map.add_layer_control, mbind, M_bind, get_state.
  rewrite scan_layer_control_count. fold (count_layer_controls s).
  by destruct (count_layer_controls s =? 0)%nat.
Qed.

Lemma count_attach_layer_control (s : State) :
  count_layer_controls (attach LayerControl s) = S (count_layer_controls s).
Proof.
  unfold count_layer_controls, to_dict_children, attach. simpl.
  rewrite fmap_app, filter_app, length_app. simpl. lia.
Qed.

Lemma ensure_layer_control_count (s : State) :
  layersControl s = true →
  count_layer_controls (ensure_layer_control s)
  = if (count_layer_controls s =? 0)%nat then 1 else count_layer_controls s.
Proof.
  intros Hopt. unfold ensure_layer_control. rewrite Hopt, add_layer_control_cases. simpl.
  destruct (count_layer_controls s =? 0)%nat eqn:Hc; [|done].
  apply Nat.eqb_eq in Hc. by rewrite count_attach_layer_control, Hc.
Qed.

Lemma ensure_layer_control_option (s : State) :
  layersControl (ensure_layer_control s) = layersControl s.
Proof.
  unfold ensure_layer_control. destruct (layersControl s) eqn:Hopt; [|done].
  rewrite add_layer_control_cases. simpl. by destruct (count_layer_controls s =? 0)%nat.
Qed.

(** The file operations do not touch the map. *)
Lemma keeps_map_bind {A B} (m : M A) (f : A → M B) :
  keeps_map m → (∀ x, keeps_map (f x)) → keeps_map (m ≫= f).
Proof.
  intros Hm Hf s. unfold mbind, M_bind. specialize (Hm s).
  destruct (m s) as [s' [x|e]]; simpl in *; [|done].
  destruct (Hf x s') as [-> ->]. done.
Qed.

Lemma keeps_map_ret {A} (x : A) : keeps_map (mret x).
Proof. done. Qed.

Lemma keeps_map_raise {A} (e : exn) : keeps_map (@raise A e).
Proof. done. Qed.

Lemma keeps_map_get_state : keeps_map get_state.
Proof. done. Qed.

Lemma keeps_map_when (b : bool) (m : M unit) : keeps_map m → keeps_map (when b m).
Proof. by destruct b. Qed.

Lemma keeps_map_path_exists p : keeps_map (path_exists p).
Proof. done. Qed.

Lemma keeps_map_makedirs d : keeps_map (makedirs d).
Proof. intros s. unfold makedirs. by destruct (_ || _). Qed.

Lemma keeps_map_write_file p text : keeps_map (write_file p text).
Proof.
  intros s. unfold write_file. destruct (is_dir s p); [done|].
  by destruct (is_dir s (dirname p)).
Qed.

Lemma keeps_map_read_file p : keeps_map (read_file p).
Proof.
  intros s. unfold read_file. destruct (is_dir s p); [done|]. by destruct (files s !! p).
Qed.

Lemma keeps_map_remove_file p : keeps_map (remove_file p).
Proof.
  intros s. unfold remove_file. destruct (is_dir s p); [done|]. by destruct (files s !! p).
Qed.

Lemma keeps_map_save (E : Collaborators) p kwargs : keeps_map (Map.save E p kwargs).
Proof.
  apply keeps_map_bind; [apply keeps_map_get_state|]. intros s. apply keeps_map_write_file.
Qed.

Lemma keeps_map_draw_random_string (E : Collaborators) : keeps_map (Map.draw_random_string E).
Proof. done. Qed.

Ltac keeps_map_step :=
  match goal with
  | |- keeps_map (mbind _ _) => apply keeps_map_bind; [|intros ?]
  | |- keeps_map (if ?b then _ else _) => destruct b
  | |- keeps_map (when _ _) => apply keeps_map_when
  | |- keeps_map (mret _) => apply keeps_map_ret
  | |- keeps_map (raise _) => apply keeps_map_raise
  | |- keeps_map (path_exists _) => apply keeps_map_path_exists
  | |- keeps_map (makedirs _) => apply keeps_map_makedirs
  | |- keeps_map (read_file _) => apply keeps_map_read_file
  | |- keeps_map (remove_file _) => apply keeps_map_remove_file
  | |- keeps_map (Map.save _ _ _) => apply keeps_map_save
  | |- keeps_map (Map.draw_random_string _) => apply keeps_map_draw_random_string
  end.

Lemma when_add_layer_control (s : State) :
  when (layersControl s) Map.add_layer_control s = (ensure_layer_control s, Ok tt).
Proof.
  unfold when, ensure_layer_control. destruct (layersControl s); [|done].
  by rewrite add_layer_control_cases.
Qed.

(** [to_html] is its first step followed by a computation on files. *)
Lemma to_html_steps (E : Collaborators) (outfile : option string)
    (kwargs : gmap string kwval) (s : State) :
  ∃ rest : M (option string),
    keeps_map rest
    ∧ Map.to_html E outfile kwargs s = rest (ensure_layer_control s).
Proof.
  unfold Map.to_html. eexists. split; [|].
  2: { unfold mbind at 1, M_bind at 1, get_state.
       rewrite (bind_ok _ _ _ _ _ (when_add_layer_control s)). reflexivity. }
  destruct outfile as [path|]; cbv zeta; repeat keeps_map_step.
Qed.

Lemma to_html_map_part (E : Collaborators) (outfile : option string)
    (kwargs : gmap string kwval) (s : State) :
  children (Map.to_html E outfile kwargs s).1 = children (ensure_layer_control s)
  ∧ layersControl (Map.to_html E outfile kwargs s).1 = layersControl s.
Proof.
  destruct (to_html_steps E outfile kwargs s) as (rest & Hrest & ->).
  rewrite <- (ensure_layer_control_option s). apply Hrest.
Qed.

Lemma ensure_layer_control_off (s : State) :
  layersControl s = false → ensure_layer_control s = s.
Proof. unfold ensure_layer_control. by intros ->. Qed.

Lemma count_layer_controls_children (s s' : State) :
  children s' = children s → count_layer_controls s' = count_layer_controls s.
Proof. unfold count_layer_controls, to_dict_children. by intros ->. Qed.

(** One call: the option is kept, and the number of layer controls goes
    from zero to one when the call asks for the control, and stays as it is
    otherwise. *)
Lemma run_op_count (E : Collaborators) (s : State) (op : control_op) :
  layersControl (run_op E s op) = layersControl s
  ∧ count_layer_controls (run_op E s op)
    = if asks_for_control s op && (count_layer_controls s =? 0)%nat
      then 1 else count_layer_controls s.
Proof.
  assert (∀ s' : State,
            children s' = children (ensure_layer_control s) →
            count_layer_controls s'
            = if layersControl s && (count_layer_controls s =? 0)%nat
              then 1 else count_layer_controls s) as Hensure.
  { intros s' Hch. rewrite (count_layer_controls_children _ _ Hch).
    destruct (layersControl s) eqn:Hopt.
    - by rewrite (ensure_layer_control_count s Hopt).
    - by rewrite (ensure_layer_control_off s Hopt). }
  destruct op as [| |outfile kwargs]; simpl.
  - rewrite add_layer_control_cases. simpl.
    destruct (count_layer_controls s =? 0)%nat eqn:Hc; [|done].
    apply Nat.eqb_eq in Hc. by rewrite count_attach_layer_control, Hc.
  - unfold Map._repr_mimebundle_, mbind, M_bind, get_state.
    rewrite when_add_layer_control. simpl.
    split; [apply ensure_layer_control_option|by apply Hensure].
  - destruct (to_html_map_part E outfile kwargs s) as [Hch Hopt].
    split; [done|by apply Hensure].
Qed.

Lemma existsb_pointwise {A} (f g : A → bool) (l : list A) :
  (∀ x, f x = g x) → existsb f l = existsb g l.
Proof. intros Hfg. induction l as [|x l IH]; [done|]. simpl. by rewrite Hfg, IH. Qed.

Lemma run_ops_count_one (E : Collaborators) (ops : list control_op) (s : State) :
  count_layer_controls s = 1 → count_layer_controls (run_ops E ops s) = 1.
Proof.
  revert s. induction ops as [|op ops IH]; intros s Hone; [done|].
  simpl. apply IH. destruct (run_op_count E s op) as [_ ->].
  rewrite Hone. by rewrite andb_false_r.
Qed.

Lemma run_ops_count (E : Collaborators) (ops : list control_op) (s : State) :
  (count_layer_controls s ≤ 1)%nat →
  existsb (asks_for_control s) ops = true →
  count_layer_controls (run_ops E ops s) = 1.
Proof.
  revert s. induction ops as [|op ops IH]; intros s Hle Hasks; [done|].
  simpl in *. destruct (run_op_count E s op) as [Hopt Hcount].
  destruct (count_layer_controls s =? 0)%nat eqn:Hzero.
  - destruct (asks_for_control s op) eqn:Hop; simpl in *.
    + by apply run_ops_count_one.
    + apply IH; [lia|]. rewrite <- Hasks. apply existsb_pointwise.
      intros op'. unfold asks_for_control. by rewrite Hopt.
  - apply run_ops_count_one. rewrite Hcount, andb_false_r.
    apply Nat.eqb_neq in Hzero. lia.
Qed.

(** C8. [add_layer_control] adds a layer control exactly when no child's
    identifier starts with "layer_control", so calling it twice is the same
    as calling it once.  On a map with at most one layer control, after any
    sequence of calls of [add_layer_control], of the display hook and of
    [to_html] of which at least one asks for the control (the hook and
    [to_html] do when the layers control is enabled), whether or not a call
    of [to_html] raises, the map has exactly one layer control. *)
Theorem layer_control_exactly_once (E : Collaborators) (ops : list control_op) (s : State) :
  (count_layer_controls s ≤ 1)%nat →
  existsb (asks_for_control s) ops = true →
  count_layer_controls (run_ops E ops s) = 1
  ∧ Map.add_layer_control s
    = (if (count_layer_controls s =? 0)%nat then attach LayerControl s else s, Ok tt)
  ∧ (Map.add_layer_control (Map.add_layer_control s).1).1 = (Map.add_layer_control s).1.
Proof.
  intros Hle Hops. split; [|split].
  - by apply run_ops_count.
  - apply add_layer_control_cases.
  - rewrite (add_layer_control_cases s). simpl.
    destruct (count_layer_controls s =? 0)%nat eqn:Hc; rewrite add_layer_control_cases.
    + by rewrite count_attach_layer_control.
    + by rewrite Hc.
Qed.

Lemma layer_control_exactly_once_witness :
  count_layer_controls
    (run_ops (sample fixed_center)
       [Op_to_html (Some "out/map.html") ∅; Op_to_html (Some "map.txt") ∅;
        Op_repr_mimebundle; Op_add_layer_control; Op_to_html None ∅]
       sample_state) = 1.
Proof.
  refine (proj1 (layer_control_exactly_once (sample fixed_center)
    [Op_to_html (Some "out/map.html") ∅; Op_to_html (Some "map.txt") ∅;
     Op_repr_mimebundle; Op_add_layer_control; Op_to_html None ∅]
    sample_state _ _)).
  - vm_compute. lia.
  - reflexivity.
Defined.

(** *** HTML export *)

Lemma string_app_cons (c : Ascii.ascii) (a b : string) :
  String c a +:+ b = String c (a +:+ b).
Proof. done. Qed.

Lemma string_app_nil_r (s : string) : s +:+ "" = s.
Proof. induction s as [|c s IH]; [done|]. by rewrite string_app_cons, IH. Qed.

Lemma string_app_assoc (a b c : string) : (a +:+ b) +:+ c = a +:+ (b +:+ c).
Proof. induction a as [|x a IH]; [done|]. by rewrite !string_app_cons, IH. Qed.

Lemma str_join_empty_cons (x : string) (l : list string) :
  str_join "" (x :: l) = x +:+ str_join "" l.
Proof. destruct l; [|done]. simpl. by rewrite string_app_nil_r. Qed.

(** Reading the lines of a text and joining them gives the text back. *)
Lemma readlines_from_join (cur s : string) :
  str_join "" (readlines_from cur s) = cur +:+ s.
Proof.
  revert cur. induction s as [|c s IH]; intros cur; simpl readlines_from.
  - destruct (String.eqb cur "") eqn:Hcur.
    + apply String.eqb_eq in Hcur. by subst.
    + simpl. by rewrite string_app_nil_r.
  - destruct (Ascii.eqb c newline).
    + rewrite str_join_empty_cons, IH. by rewrite string_app_assoc.
    + rewrite IH. by rewrite string_app_assoc.
Qed.

Lemma readlines_join (s : string) : str_join "" (readlines s) = s.
Proof. apply readlines_from_join. Qed.

Lemma ensure_layer_control_world (s : State) :
  dirs (ensure_layer_control s) = dirs s
  ∧ files (ensure_layer_control s) = files s
  ∧ draws (ensure_layer_control s) = draws s.
Proof.
  unfold ensure_layer_control. destruct (layersControl s); [|done].
  rewrite add_layer_control_cases. simpl. by destruct (_ =? _)%nat.
Qed.

Lemma elem_of_ancestors_self (p : list string) : p ∈ ancestors p.
Proof.
  induction p as [|c p IH]; simpl; [apply list_elem_of_here|].
  by apply list_elem_of_further, (list_elem_of_fmap_2 (cons c)).
Qed.

Lemma existsb_false_elem {A} (f : A → bool) (l : list A) (x : A) :
  existsb f l = false → x ∈ l → f x = false.
Proof.
  intros Hl Hx. destruct (f x) eqn:Hfx; [|done].
  assert (existsb f l = true) as Ht; [|congruence].
  apply existsb_exists. exists x. split; [by apply list_elem_of_In|done].
Qed.

Lemma to_html_path_steps (E : Collaborators) (path : string)
    (kwargs : gmap string kwval) (s : State) :
  Map.to_html E (Some path) kwargs s
  = ((if negb (endswith path ".html")
      then raise (ValueError "The output file extension must be html.")
      else mret tt : M unit);;
     found ← path_exists (dirname (abspath E path));
     when (negb found) (makedirs (dirname (abspath E path)));;
     Map.save E (abspath E path) kwargs;;
     mret None) (ensure_layer_control s).
Proof.
  unfold Map.to_html. unfold mbind at 1, M_bind at 1, get_state.
  by rewrite (bind_ok _ _ _ _ _ (when_add_layer_control s)).
Qed.

Lemma to_html_temporary_steps (E : Collaborators) (kwargs : gmap string kwval) (s : State) :
  Map.to_html E None kwargs s
  = (name ← Map.draw_random_string E;
     Map.save E (abspath E (name +:+ ".html")) kwargs;;
     text ← read_file (abspath E (name +:+ ".html"));
     remove_file (abspath E (name +:+ ".html"));;
     mret (Some (str_join "" (readlines text)))) (ensure_layer_control s).
Proof.
  unfold Map.to_html. unfold mbind at 1, M_bind at 1, get_state.
  by rewrite (bind_ok _ _ _ _ _ (when_add_layer_control s)).
Qed.

Lemma ancestors_length (p q : list string) : q ∈ ancestors p → (length q ≤ length p)%nat.
Proof.
  revert q. induction p as [|c p IH]; intros q Hq; simpl in Hq.
  - apply list_elem_of_singleton in Hq as ->. done.
  - apply elem_of_cons in Hq as [->|Hq]; [simpl; lia|].
    apply list_elem_of_fmap in Hq as (q' & -> & Hq'). specialize (IH q' Hq'). simpl. lia.
Qed.

Lemma dirname_length (p : list string) : p ≠ [] → (length (dirname p) < length p)%nat.
Proof.
  intros Hp. destruct (exists_last Hp) as (q & x & ->).
  unfold dirname. rewrite removelast_last, length_app. simpl. lia.
Qed.

(** A path is not among the ancestors of its own directory. *)
Lemma not_ancestor_of_dirname (p : list string) : p ≠ [] → p ∉ ancestors (dirname p).
Proof.
  intros Hp Hin. apply ancestors_length in Hin.
  pose proof (dirname_length p Hp). lia.
Qed.

(** What [to_html] does after its first step, from any state [s0]. *)
Lemma export_to_path (E : Collaborators) (path : string) (kwargs : gmap string kwval)
    (s0 : State) :
  endswith path ".html" = true →
  existsb (is_file s0) (ancestors (dirname (abspath E path))) = false →
  abspath E path ≠ [] →
  is_dir s0 (abspath E path) = false →
  ∃ s',
    ((if negb (endswith path ".html")
      then raise (ValueError "The output file extension must be html.")
      else mret tt : M unit);;
     found ← path_exists (dirname (abspath E path));
     when (negb found) (makedirs (dirname (abspath E path)));;
     Map.save E (abspath E path) kwargs;;
     mret (None : option string)) s0 = (s', Ok None)
    ∧ files s' = <[abspath E path := render E (children s0) (root_children s0) kwargs]> (files s0)
    ∧ dirname (abspath E path) ∈ dirs s'
    ∧ dirs s' = (if is_dir s0 (dirname (abspath E path)) then dirs s0
                 else dirs s0 ∪ list_to_set (ancestors (dirname (abspath E path))))
    ∧ children s' = children s0
    ∧ stdout s' = stdout s0
    ∧ draws s' = draws s0.
Proof.
  intros Hext Hanc Hroot Htarget.
  remember (abspath E path) as outfile eqn:Houtfile.
  remember (dirname outfile) as out_dir eqn:Hout_dir.
  pose proof (existsb_false_elem _ _ out_dir Hanc (elem_of_ancestors_self out_dir)) as Hnofile.
  assert (out_dir ∈ dirs s0 ∪ list_to_set (ancestors out_dir)) as Hin.
  { apply elem_of_union_r, elem_of_list_to_set, elem_of_ancestors_self. }
  unfold Map.save.
  unfold mbind, M_bind, path_exists, when, get_state, write_file, mret, M_ret.
  rewrite Hext. simpl. rewrite Hnofile, orb_false_r, <- Hout_dir.
  destruct (is_dir s0 out_dir) eqn:Hd; simpl.
  - rewrite Htarget, Hd. eexists. split; [reflexivity|]. simpl.
    unfold is_dir in Hd. by apply bool_decide_eq_true in Hd.
  - unfold makedirs. rewrite Hd, Hanc. simpl.
    assert (is_dir (set_dirs (λ ds, ds ∪ list_to_set (ancestors out_dir)) s0) outfile = false)
      as ->.
    { unfold is_dir in *. apply bool_decide_eq_false. apply bool_decide_eq_false in Htarget.
      simpl. rewrite elem_of_union, elem_of_list_to_set. intros [Hin'|Hin']; [done|].
      subst out_dir. by apply (not_ancestor_of_dirname outfile). }
    assert (is_dir (set_dirs (λ ds, ds ∪ list_to_set (ancestors out_dir)) s0) out_dir = true)
      as ->.
    { unfold is_dir. by apply bool_decide_eq_true. }
    eexists. split; [reflexivity|]. done.
Qed.

Lemma export_to_temporary (E : Collaborators) (kwargs : gmap string kwval) (s0 : State) :
  let outfile := abspath E (random_string E (draws s0) +:+ ".html") in
  let html := render E (children s0) (root_children s0) kwargs in
  is_dir s0 (dirname outfile) = true →
  is_dir s0 outfile = false →
  ∃ s',
    (name ← Map.draw_random_string E;
     Map.save E (abspath E (name +:+ ".html")) kwargs;;
     text ← read_file (abspath E (name +:+ ".html"));
     remove_file (abspath E (name +:+ ".html"));;
     mret (Some (str_join "" (readlines text))) : M (option string)) s0
    = (s', Ok (Some (universal_newlines html)))
    ∧ files s' = delete outfile (files s0)
    ∧ files s' !! outfile = None
    ∧ dirs s' = dirs s0
    ∧ children s' = children s0.
Proof.
  intros outfile html Hd Htarget. subst html.
  remember outfile as p eqn:Hp. unfold outfile in Hp.
  unfold Map.draw_random_string, Map.save.
  unfold mbind, M_bind, get_state, write_file.
  rewrite <- Hp. simpl.
  assert (is_dir (set_draws S s0) p = false) as Hp1 by exact Htarget. rewrite Hp1.
  assert (is_dir (set_draws S s0) (dirname p) = true) as -> by exact Hd.
  unfold read_file.
  match goal with |- context [is_dir ?st p] =>
    assert (is_dir st p = false) as Hp2 by exact Htarget end.
  rewrite Hp2. simpl. rewrite lookup_insert_eq.
  unfold remove_file.
  match goal with |- context [is_dir ?st p] =>
    assert (is_dir st p = false) as Hp3 by exact Htarget end.
  rewrite Hp3. simpl. rewrite lookup_insert_eq.
  eexists. split.
  { unfold mret, M_ret. rewrite readlines_join. reflexivity. }
  simpl. rewrite delete_insert_eq. repeat split; try done. apply lookup_delete_eq.
Qed.

(** C9.  Let [s0] be the state once the layer control is ensured, and [html]
    the document of the map in [s0].
    - A path that does not end in ".html": [to_html] raises the [ValueError]
      and no file or directory changes.
    - A path that ends in ".html" and names no directory, no ancestor of
      its directory being a regular file: [to_html] returns [None]; the
      directory exists afterwards, created with its missing ancestors when
      it did not exist, and the file holds [html].
    - No path, the directory of the temporary file existing and the
      temporary name being no directory: [to_html] returns the text of the
      temporary file, which is [html] as a file opened in text mode gives
      it (its line ends read as line feeds), and the temporary file is gone
      afterwards. *)
Theorem to_html_contract (E : Collaborators) (kwargs : gmap string kwval) (s : State) :
  let s0 := ensure_layer_control s in
  let html := render E (children s0) (root_children s0) kwargs in
  (∀ path,
     endswith path ".html" = false →
     Map.to_html E (Some path) kwargs s
     = (s0, Err (ValueError "The output file extension must be html."))
     ∧ is_validation_error (ValueError "The output file extension must be html.") = true
     ∧ files s0 = files s ∧ dirs s0 = dirs s)
  ∧ (∀ path,
       endswith path ".html" = true →
       existsb (is_file s) (ancestors (dirname (abspath E path))) = false →
       abspath E path ≠ [] →
       is_dir s (abspath E path) = false →
       ∃ s',
         Map.to_html E (Some path) kwargs s = (s', Ok None)
         ∧ files s' = <[abspath E path := html]> (files s)
         ∧ dirname (abspath E path) ∈ dirs s'
         ∧ dirs s' = (if is_dir s (dirname (abspath E path)) then dirs s
                      else dirs s ∪ list_to_set (ancestors (dirname (abspath E path))))
         ∧ children s' = children s0)
  ∧ (let outfile := abspath E (random_string E (draws s) +:+ ".html") in
     is_dir s (dirname outfile) = true →
     is_dir s outfile = false →
     ∃ s',
       Map.to_html E None kwargs s = (s', Ok (Some (universal_newlines html)))
       ∧ (∀ s1, write_file outfile html s0 = (s1, Ok tt) →
                read_file outfile s1 = (s1, Ok (universal_newlines html)))
       ∧ files s' = delete outfile (files s)
       ∧ files s' !! outfile = None
       ∧ dirs s' = dirs s
       ∧ children s' = children s0).
Proof.
  intros s0 html. subst html.
  destruct (ensure_layer_control_world s) as (Hdirs & Hfiles & Hdraws).
  assert (∀ p, is_dir s0 p = is_dir s p) as Hisdir
    by (intros p; unfold is_dir, s0; by rewrite Hdirs).
  assert (∀ p, is_file s0 p = is_file s p) as Hisfile
    by (intros p; unfold is_file, s0; by rewrite Hfiles).
  split; [|split].
  - intros path Hext. rewrite to_html_path_steps.
    unfold mbind, M_bind. rewrite Hext. done.
  - intros path Hext Hanc Hroot Htarget. rewrite to_html_path_steps.
    destruct (export_to_path E path kwargs s0 Hext)
      as (s' & Hrun & Hf & Hin & Hd & Hc & _); [|done|by rewrite Hisdir|].
    { rewrite <- Hanc. unfold is_file, s0. by rewrite Hfiles. }
    exists s'. rewrite Hisdir in Hd. unfold s0 in Hf, Hd at 1 2. rewrite Hfiles in Hf.
    rewrite !Hdirs in Hd. done.
  - intros outfile Hd Htarget. rewrite to_html_temporary_steps.
    destruct (export_to_temporary E kwargs s0) as (s' & Hrun & Hf & Hnone & Hds & Hc).
    { rewrite Hisdir. unfold s0. by rewrite Hdraws. }
    { rewrite Hisdir. unfold s0. by rewrite Hdraws. }
    exists s'. unfold s0 in Hf, Hnone, Hds, Hrun. rewrite Hdraws in Hf, Hnone.
    rewrite Hfiles in Hf. rewrite Hdirs in Hds.
    split; [done|]. split; [|done].
    intros s1. unfold write_file, read_file. rewrite Hisdir, Htarget.
    destruct (is_dir s0 (dirname outfile)); [|done]. intros H. injection H as <-.
    assert (is_dir (set_files (λ fs, <[outfile := render E (children s0) (root_children s0)
                                                    kwargs]> fs) s0) outfile = false) as ->.
    { change (is_dir s0 outfile = false). by rewrite Hisdir. }
    simpl. by rewrite lookup_insert_eq.
Qed.

Lemma to_html_contract_witness :
  (Map.to_html (sample fixed_center) (Some "map.txt") ∅ sample_state).2
  = Err (ValueError "The output file extension must be html.")
  ∧ (∃ s',
       Map.to_html (sample fixed_center) (Some "out/map.html") ∅ sample_state = (s', Ok None)
       ∧ files s' !! ["home"; "user"; "out"; "map.html"] = Some "<html>layer_control_0</html>"
       ∧ ["home"; "user"; "out"] ∈ dirs s')
  ∧ (∃ s',
       Map.to_html (sample fixed_center) None ∅ sample_state
       = (s', Ok (Some "<html>layer_control_0</html>"))
       ∧ files s' !! ["home"; "user"; "tmp0.html"] = None).
Proof.
  pose proof (to_html_contract (sample fixed_center) ∅ sample_state) as (Hbad & Hpath & Htemp).
  split; [|split].
  - destruct (Hbad "map.txt") as [-> _]; reflexivity.
  - destruct (Hpath "out/map.html") as (s' & Hrun & Hfiles & Hdir & _);
      [reflexivity|reflexivity|discriminate|reflexivity|].
    exists s'. split; [exact Hrun|]. split; [|exact Hdir].
    rewrite Hfiles. reflexivity.
  - destruct Htemp as (s' & Hrun & _ & _ & Hgone & _); [reflexivity|reflexivity|].
    exists s'. split; [exact Hrun|exact Hgone].
Defined.

(** ** Further properties *)

(** *** View fitting: short and long inputs *)

(** X1. [zoom_to_bounds] subscripts its argument at 1, 0, 3 and 2, in
    that order, whatever the argument is.  A list, a tuple or a string of
    fewer than four items raises an [IndexError]; [None], a boolean and a
    number raise a [TypeError]; a dict without one of the keys raises a
    [KeyError] for the first key missing in that order; in all these cases
    the state is as it was.  Of a list, a tuple or a string of four items
    or more the first four are used (of a string: its characters), and of a
    dict the values under the keys 0 to 3. *)
Theorem zoom_to_bounds_input_length (s : State) :
  (∀ l, (length l < 4)%nat →
        Map.zoom_to_bounds (VList l) s = (s, Err (IndexError "list index out of range"))
        ∧ Map.zoom_to_bounds (VTuple l) s
          = (s, Err (IndexError "tuple index out of range")))
  ∧ (∀ t, (String.length t < 4)%nat →
          Map.zoom_to_bounds (VStr t) s = (s, Err (IndexError "string index out of range")))
  ∧ (∀ v, is_str v = false → is_tuple v = false → is_dict v = false → (∀ l, v ≠ VList l) →
          Map.zoom_to_bounds v s
          = (s, Err (TypeError ("'" +:+ type_name v +:+ "' object is not subscriptable"))))
  ∧ (∀ b0 b1 b2 b3 rest,
       let call := FitBounds (VList [VList [b1; b0]; VList [b3; b2]]) None in
       Map.zoom_to_bounds (VList (b0 :: b1 :: b2 :: b3 :: rest)) s = (attach call s, Ok tt)
       ∧ Map.zoom_to_bounds (VTuple (b0 :: b1 :: b2 :: b3 :: rest)) s = (attach call s, Ok tt))
  ∧ (∀ c0 c1 c2 c3 rest,
       let char c := VStr (String c "") in
       Map.zoom_to_bounds (VStr (String c0 (String c1 (String c2 (String c3 rest))))) s
       = (attach (FitBounds (VList [VList [char c1; char c0]; VList [char c3; char c2]]) None) s,
          Ok tt))
  ∧ (∀ kv,
       Map.zoom_to_bounds (VDict kv) s
       = match dict_at kv 1, dict_at kv 0, dict_at kv 3, dict_at kv 2 with
         | Some b1, Some b0, Some b3, Some b2 =>
             (attach (FitBounds (VList [VList [b1; b0]; VList [b3; b2]]) None) s, Ok tt)
         | None, _, _, _ => (s, Err (KeyError "1"))
         | Some _, None, _, _ => (s, Err (KeyError "0"))
         | Some _, Some _, None, _ => (s, Err (KeyError "3"))
         | Some _, Some _, Some _, None => (s, Err (KeyError "2"))
         end).
Proof.
  split; [|split; [|split; [|split; [|split]]]].
  - intros l Hl. destruct l as [|b0 [|b1 [|b2 [|b3 l]]]]; simpl in Hl; try lia; done.
  - intros t Ht. destruct t as [|c0 [|c1 [|c2 [|c3 t]]]]; simpl in Ht; try lia; done.
  - intros v Hs Ht Hd Hl. destruct v; try done. by destruct (Hl items).
  - done.
  - done.
  - intros kv. unfold Map.zoom_to_bounds, mbind, M_bind, lift, py_index.
    destruct (dict_at kv 1); [|done]. destruct (dict_at kv 0); [|done].
    destruct (dict_at kv 3); [|done]. by destruct (dict_at kv 2).
Qed.

Lemma zoom_to_bounds_input_length_witness :
  Map.zoom_to_bounds (VList [VFloat 1; VFloat 2; VFloat 3]) sample_state
  = (sample_state, Err (IndexError "list index out of range"))
  ∧ Map.zoom_to_bounds (VStr "abc") sample_state
    = (sample_state, Err (IndexError "string index out of range"))
  ∧ Map.zoom_to_bounds (VInt 7) sample_state
    = (sample_state, Err (TypeError "'int' object is not subscriptable")).
Proof.
  pose proof (zoom_to_bounds_input_length sample_state) as (Hshort & Hstr & Hother & _).
  split; [|split].
  - refine (proj1 (Hshort [VFloat 1; VFloat 2; VFloat 3] _)). simpl. lia.
  - refine (Hstr "abc" _). simpl. lia.
  - refine (Hother (VInt 7) _ _ _ _); [reflexivity|reflexivity|reflexivity|discriminate].
Defined.

(** *** Styling a vector layer: what reaches folium *)

Lemma style_step_lookup (kwargs : gmap string kwval) (k : string) :
  k ≠ "style_function" →
  (Map.style_step kwargs).2 !! k = if decide (k = "style") then None else kwargs !! k.
Proof.
  intros Hk. unfold Map.style_step.
  destruct (kwargs !! "style") as [style|] eqn:Hstyle; simpl.
  - case_decide as Hs; [subst; apply lookup_delete_eq|].
    rewrite lookup_delete_ne by done.
    destruct style as [[| | | | | | |[|e kv]]|]; try done.
    by rewrite lookup_insert_ne.
  - rewrite lookup_insert_ne by done. case_decide; [by subst|done].
Qed.

Lemma style_callback_step_lookup (kwargs : gmap string kwval) (k : string) :
  k ≠ "style_function" →
  Map.style_callback_step kwargs !! k
  = if decide (k = "style_callback") then None else kwargs !! k.
Proof.
  intros Hk. unfold Map.style_callback_step.
  destruct (kwargs !! "style_callback") as [callback|] eqn:Hcb.
  - case_decide as Hs; [subst; apply lookup_delete_eq|].
    rewrite lookup_delete_ne by done.
    destruct callback as [[]|]; try done; by rewrite lookup_insert_ne.
  - case_decide; [by subst|done].
Qed.

Lemma hover_style_step_lookup (style_dict : kwval) (kwargs kwargs' : gmap string kwval)
    (k : string) :
  Map.hover_style_step style_dict kwargs = Ok kwargs' →
  k ≠ "highlight_function" →
  kwargs' !! k = if decide (k = "hover_style") then None else kwargs !! k.
Proof.
  unfold Map.hover_style_step. intros H Hk.
  destruct (kwargs !! "hover_style") as [hover|] eqn:Hh.
  - unfold mbind, result_bind in H. destruct (Map.kw_len hover) as [n|]; [|done].
    injection H as <-. case_decide as Hs; [subst; apply lookup_delete_eq|].
    rewrite lookup_delete_ne by done.
    destruct hover as [h|]; [|done]. destruct (0 <? n)%nat; [|done].
    by rewrite lookup_insert_ne.
  - unfold mbind, result_bind in H.
    destruct (Map.kw_get style_dict "weight") as [w|]; [|done].
    destruct (py_add1 w) as [w1|]; [|done]. injection H as <-.
    rewrite lookup_insert_ne by done. case_decide; [by subst|done].
Qed.

Lemma fill_colors_step_lookup (style_dict : kwval) (kwargs : gmap string kwval) (k : string) :
  k ≠ "style_function" →
  Map.fill_colors_step style_dict kwargs !! k
  = if decide (k = "fill_colors") then None else kwargs !! k.
Proof.
  intros Hk. unfold Map.fill_colors_step.
  destruct (kwargs !! "fill_colors") as [fc|] eqn:Hfc.
  - case_decide as Hs; [subst; apply lookup_delete_eq|].
    by rewrite lookup_delete_ne, lookup_insert_ne.
  - case_decide; [by subst|done].
Qed.

Lemma geojson_kwargs_steps (kwargs kwargs' : gmap string kwval) :
  Map.geojson_kwargs kwargs = Ok kwargs' →
  ∃ hovered,
    Map.hover_style_step (Map.style_step kwargs).1
      (Map.style_callback_step (Map.style_step kwargs).2) = Ok hovered
    ∧ kwargs' = delete "info_mode" (Map.fill_colors_step (Map.style_step kwargs).1 hovered).
Proof.
  unfold Map.geojson_kwargs. destruct (Map.style_step kwargs) as [style_dict kw1]. simpl.
  unfold mbind, result_bind.
  destruct (Map.hover_style_step style_dict (Map.style_callback_step kw1)) as [hovered|];
    [|done].
  intros H. injection H as <-. eauto.
Qed.

(** X2. The keyword arguments [add_geojson] hands to [folium.GeoJson] never
    hold "style", "style_callback", "hover_style", "fill_colors" or
    "info_mode"; every other argument of the caller, the two function
    arguments "style_function" and "highlight_function" apart, is handed on
    unchanged. *)
Theorem geojson_kwargs_passed_on (kwargs kwargs' : gmap string kwval) (k : string) :
  Map.geojson_kwargs kwargs = Ok kwargs' →
  (k ∈ leafmap_only_keys → kwargs' !! k = None)
  ∧ (k ∉ leafmap_only_keys → k ≠ "style_function" → k ≠ "highlight_function" →
     kwargs' !! k = kwargs !! k).
Proof.
  intros H. destruct (geojson_kwargs_steps kwargs kwargs' H) as (hovered & Hh & ->).
  assert (k ≠ "style_function" → k ≠ "highlight_function" →
          delete "info_mode" (Map.fill_colors_step (Map.style_step kwargs).1 hovered) !! k
          = if decide (k ∈ leafmap_only_keys) then None else kwargs !! k) as Hall.
  { intros Hsf Hhf. unfold leafmap_only_keys.
    destruct (decide (k = "info_mode")) as [->|Hi]; [by rewrite lookup_delete_eq|].
    rewrite lookup_delete_ne by done. rewrite fill_colors_step_lookup by done.
    destruct (decide (k = "fill_colors")) as [->|Hf]; [done|].
    rewrite (hover_style_step_lookup _ _ _ k Hh) by done.
    destruct (decide (k = "hover_style")) as [->|Hho]; [done|].
    rewrite style_callback_step_lookup by done.
    destruct (decide (k = "style_callback")) as [->|Hc]; [done|].
    rewrite style_step_lookup by done.
    destruct (decide (k = "style")) as [->|Hs]; [done|].
    case_decide as Hin; [|done].
    repeat (apply elem_of_cons in Hin as [Hin|Hin]; [done|]). by apply elem_of_nil in Hin. }
  split.
  - intros Hin. rewrite Hall.
    + by rewrite decide_True.
    + intros ->. unfold leafmap_only_keys in Hin.
      repeat (apply elem_of_cons in Hin as [Hin|Hin]; [done|]). by apply elem_of_nil in Hin.
    + intros ->. unfold leafmap_only_keys in Hin.
      repeat (apply elem_of_cons in Hin as [Hin|Hin]; [done|]). by apply elem_of_nil in Hin.
  - intros Hnot Hsf Hhf. rewrite Hall by done. by rewrite decide_False.
Qed.

Lemma geojson_kwargs_passed_on_witness :
  let kwargs : gmap string kwval :=
    <["style" := KVal (VDict [(VStr "weight", VInt 3)])]>
      (<["info_mode" := KVal (VStr "on_click")]> (<["tooltip" := KVal (VStr "name")]> ∅)) in
  let kwargs' : gmap string kwval :=
    <["style_function" := KFun (ConstStyle (VDict [(VStr "weight", VInt 3)]))]>
      (<["highlight_function" :=
           KFun (ConstStyle (VDict [(VStr "weight", VInt 4);
                                    (VStr "fillOpacity", VFloat (1 # 2)%Q)]))]>
         (<["tooltip" := KVal (VStr "name")]> ∅)) in
  kwargs' !! "info_mode" = None ∧ kwargs' !! "tooltip" = kwargs !! "tooltip".
Proof.
  intros kwargs kwargs'. split.
  - refine (proj1 (geojson_kwargs_passed_on kwargs kwargs' "info_mode" _) _);
      [reflexivity|]. unfold leafmap_only_keys. set_solver.
  - refine (proj2 (geojson_kwargs_passed_on kwargs kwargs' "tooltip" _) _ _ _);
      [reflexivity| |done|done].
    unfold leafmap_only_keys. intros Hin.
    repeat (apply elem_of_cons in Hin as [Hin|Hin]; [discriminate Hin|]).
    by apply elem_of_nil in Hin.
Defined.

(** *** Styling a vector layer: which function wins *)

Lemma style_step_dict (kwargs : gmap string kwval) :
  (Map.style_step kwargs).1 = default (KVal Map.default_style) (kwargs !! "style").
Proof. unfold Map.style_step. by destruct (kwargs !! "style"). Qed.

Lemma style_step_style_function (kwargs : gmap string kwval) :
  (Map.style_step kwargs).2 !! "style_function"
  = match kwargs !! "style" with
    | None => Some (KFun (ConstStyle Map.default_style))
    | Some st =>
        match st with
        | KVal d => if nonempty_dict st then Some (KFun (ConstStyle d))
                    else kwargs !! "style_function"
        | KFun _ => kwargs !! "style_function"
        end
    end.
Proof.
  unfold Map.style_step. destruct (kwargs !! "style") as [style|]; simpl.
  - rewrite lookup_delete_ne by done.
    destruct style as [[| | | | | | |[|e kv]]|]; simpl; try done.
    by rewrite lookup_insert_eq.
  - by rewrite lookup_insert_eq.
Qed.

Lemma style_callback_step_style_function (kwargs : gmap string kwval) :
  Map.style_callback_step kwargs !! "style_function"
  = match kwargs !! "style_callback" with
    | Some (KVal VNone) | None => kwargs !! "style_function"
    | Some callback => Some callback
    end.
Proof.
  unfold Map.style_callback_step. destruct (kwargs !! "style_callback") as [callback|]; [|done].
  rewrite lookup_delete_ne by done.
  destruct callback as [[]|]; try done; by rewrite lookup_insert_eq.
Qed.

Lemma fill_colors_step_style_function (style_dict : kwval) (kwargs : gmap string kwval) :
  Map.fill_colors_step style_dict kwargs !! "style_function"
  = match kwargs !! "fill_colors" with
    | Some fill_colors => Some (KFun (RandomColor fill_colors style_dict))
    | None => kwargs !! "style_function"
    end.
Proof.
  unfold Map.fill_colors_step. destruct (kwargs !! "fill_colors") as [fc|]; [|done].
  by rewrite lookup_delete_ne, lookup_insert_eq.
Qed.

(** The style function after all the steps, read off the caller's
    arguments. *)
Lemma geojson_kwargs_style_function (kwargs kwargs' : gmap string kwval) :
  Map.geojson_kwargs kwargs = Ok kwargs' →
  kwargs' !! "style_function"
  = match kwargs !! "fill_colors" with
    | Some fill_colors =>
        Some (KFun (RandomColor fill_colors
                      (default (KVal Map.default_style) (kwargs !! "style"))))
    | None =>
        match kwargs !! "style_callback" with
        | Some (KVal VNone) | None => (Map.style_step kwargs).2 !! "style_function"
        | Some callback => Some callback
        end
    end.
Proof.
  intros H. destruct (geojson_kwargs_steps kwargs kwargs' H) as (hovered & Hh & ->).
  rewrite lookup_delete_ne by done. rewrite fill_colors_step_style_function.
  rewrite (hover_style_step_lookup _ _ _ "fill_colors" Hh) by done.
  rewrite style_callback_step_lookup by done. rewrite style_step_lookup by done.
  rewrite style_step_dict. simpl.
  destruct (kwargs !! "fill_colors") as [fc|]; [done|].
  rewrite (hover_style_step_lookup _ _ _ "style_function" Hh) by done. simpl.
  rewrite style_callback_step_style_function.
  rewrite (style_step_lookup kwargs "style_callback") by done. done.
Qed.

(** X3. Which style function [add_geojson] hands to folium.  [fill_colors]
    wins over everything: the function is [random_color] over the given
    colours and over the caller's style (the default style when none is
    given).  Without [fill_colors], a style callback that is not [None]
    wins.  Without either, the function returns the default style when no
    style is given and the given style when it is a dict that is not empty;
    with any other style (an empty dict among them) the caller's own
    "style_function" is handed on, if there is one. *)
Theorem geojson_style_function_priority (kwargs kwargs' : gmap string kwval) :
  Map.geojson_kwargs kwargs = Ok kwargs' →
  (∀ fill_colors,
     kwargs !! "fill_colors" = Some fill_colors →
     kwargs' !! "style_function"
     = Some (KFun (RandomColor fill_colors
                     (default (KVal Map.default_style) (kwargs !! "style")))))
  ∧ (kwargs !! "fill_colors" = None →
     (∀ callback,
        kwargs !! "style_callback" = Some callback → callback ≠ KVal VNone →
        kwargs' !! "style_function" = Some callback)
     ∧ (kwargs !! "style_callback" = None ∨ kwargs !! "style_callback" = Some (KVal VNone) →
        (kwargs !! "style" = None →
         kwargs' !! "style_function" = Some (KFun (ConstStyle Map.default_style)))
        ∧ (∀ d, kwargs !! "style" = Some (KVal d) → nonempty_dict (KVal d) = true →
                kwargs' !! "style_function" = Some (KFun (ConstStyle d)))
        ∧ (∀ style, kwargs !! "style" = Some style → nonempty_dict style = false →
                    kwargs' !! "style_function" = kwargs !! "style_function"))).
Proof.
  intros H. pose proof (geojson_kwargs_style_function kwargs kwargs' H) as Hsf.
  split; [intros fc Hfc; by rewrite Hsf, Hfc|].
  intros Hfc. rewrite Hfc in Hsf. split.
  - intros callback Hcb Hnone. rewrite Hsf, Hcb. by destruct callback as [[]|].
  - intros Hcb.
    assert (kwargs' !! "style_function" = (Map.style_step kwargs).2 !! "style_function")
      as ->.
    { rewrite Hsf. by destruct Hcb as [-> | ->]. }
    rewrite style_step_style_function. split; [by intros ->|split].
    + intros d -> Hd. by rewrite Hd.
    + intros style -> Hs. destruct style as [d|]; [by rewrite Hs|done].
Qed.

Lemma geojson_style_function_priority_witness :
  let style := KVal (VDict [(VStr "color", VStr "red"); (VStr "weight", VInt 2)]) in
  let kwargs : gmap string kwval :=
    <["style" := style]> (<["fill_colors" := KVal (VList [VStr "blue"])]> ∅) in
  let kwargs' : gmap string kwval :=
    <["style_function" := KFun (RandomColor (KVal (VList [VStr "blue"])) style)]>
      (<["highlight_function" :=
           KFun (ConstStyle (VDict [(VStr "weight", VInt 3);
                                    (VStr "fillOpacity", VFloat (1 # 2)%Q)]))]> ∅) in
  kwargs' !! "style_function"
  = Some (KFun (RandomColor (KVal (VList [VStr "blue"]))
                  (default (KVal Map.default_style) (kwargs !! "style")))).
Proof.
  intros style kwargs kwargs'.
  refine (proj1 (geojson_style_function_priority kwargs kwargs' _)
            (KVal (VList [VStr "blue"])) _); reflexivity.
Defined.

(** *** Styling a vector layer: the highlight function and what can fail *)

Lemma geojson_kwargs_hover (kwargs : gmap string kwval) :
  Map.geojson_kwargs kwargs
  = match Map.hover_style_step (default (KVal Map.default_style) (kwargs !! "style"))
            (Map.style_callback_step (Map.style_step kwargs).2) with
    | Ok hovered =>
        Ok (delete "info_mode"
              (Map.fill_colors_step (default (KVal Map.default_style) (kwargs !! "style"))
                 hovered))
    | Err e => Err e
    end.
Proof.
  unfold Map.geojson_kwargs. rewrite <- style_step_dict.
  destruct (Map.style_step kwargs) as [style_dict kw1]. simpl.
  unfold mbind, result_bind. by destruct (Map.hover_style_step _ _).
Qed.

Lemma steps_keep_hover_style (kwargs : gmap string kwval) :
  Map.style_callback_step (Map.style_step kwargs).2 !! "hover_style" = kwargs !! "hover_style".
Proof. rewrite style_callback_step_lookup by done. by rewrite style_step_lookup. Qed.

Lemma steps_keep_highlight_function (kwargs : gmap string kwval) :
  Map.style_callback_step (Map.style_step kwargs).2 !! "highlight_function"
  = kwargs !! "highlight_function".
Proof. rewrite style_callback_step_lookup by done. by rewrite style_step_lookup. Qed.

Lemma later_steps_keep_highlight_function (style_dict : kwval) (hovered : gmap string kwval) :
  delete "info_mode" (Map.fill_colors_step style_dict hovered) !! "highlight_function"
  = hovered !! "highlight_function".
Proof. rewrite lookup_delete_ne by done. by rewrite fill_colors_step_lookup. Qed.

(** X4. Which highlight function [add_geojson] hands to folium, and the
    only ways the styling can fail.  A [hover_style] that has a length and
    is not empty is returned for every feature; an empty one leaves the
    caller's own "highlight_function", if any.  Without [hover_style] the
    function returns the weight of the style plus one and a fill opacity of
    one half.  The styling raises exactly when [hover_style] is given and
    has no length, or is not given and the style has no "weight" to which
    one can be added. *)
Theorem geojson_highlight_function (kwargs : gmap string kwval) :
  let style_dict := default (KVal Map.default_style) (kwargs !! "style") in
  (∀ hover n,
     kwargs !! "hover_style" = Some (KVal hover) → py_len hover = Ok n →
     ∃ kwargs', Map.geojson_kwargs kwargs = Ok kwargs'
       ∧ kwargs' !! "highlight_function"
         = if (0 <? n)%nat then Some (KFun (ConstStyle hover))
           else kwargs !! "highlight_function")
  ∧ (∀ weight weight1,
       kwargs !! "hover_style" = None →
       Map.kw_get style_dict "weight" = Ok weight → py_add1 weight = Ok weight1 →
       ∃ kwargs', Map.geojson_kwargs kwargs = Ok kwargs'
         ∧ kwargs' !! "highlight_function"
           = Some (KFun (ConstStyle (VDict [(VStr "weight", weight1);
                                            (VStr "fillOpacity", VFloat (1 # 2)%Q)]))))
  ∧ (∀ e, Map.geojson_kwargs kwargs = Err e
          ↔ match kwargs !! "hover_style" with
            | Some hover => Map.kw_len hover = Err e
            | None => (weight ← Map.kw_get style_dict "weight"; py_add1 weight) = Err e
            end).
Proof.
  intros style_dict. rewrite geojson_kwargs_hover. fold style_dict.
  unfold Map.hover_style_step. rewrite steps_keep_hover_style.
  split; [|split].
  - intros hover n -> Hn. simpl. rewrite Hn. simpl. eexists. split; [done|].
    rewrite later_steps_keep_highlight_function, lookup_delete_ne by done.
    destruct (0 <? n)%nat; [by rewrite lookup_insert_eq|].
    apply steps_keep_highlight_function.
  - intros weight weight1 -> Hw Hw1. rewrite Hw. simpl. rewrite Hw1. simpl.
    eexists. split; [done|].
    by rewrite later_steps_keep_highlight_function, lookup_insert_eq.
  - intros e. destruct (kwargs !! "hover_style") as [hover|].
    + unfold mbind, result_bind. destruct (Map.kw_len hover) as [n|e']; [done|].
      split; congruence.
    + unfold mbind, result_bind. destruct (Map.kw_get style_dict "weight") as [w|e']; simpl.
      * destruct (py_add1 w) as [w1|e']; [done|]. split; congruence.
      * split; congruence.
Qed.

Lemma geojson_highlight_function_witness :
  let hover := VDict [(VStr "fillOpacity", VFloat (7 # 10)%Q)] in
  let heavy := VDict [(VStr "weight", VFloat 10000000000000000)] in
  (∃ kwargs',
     Map.geojson_kwargs {[ "hover_style" := KVal hover ]} = Ok kwargs'
     ∧ kwargs' !! "highlight_function" = Some (KFun (ConstStyle hover)))
  ∧ (∃ kwargs',
       Map.geojson_kwargs {[ "style" := KVal heavy ]} = Ok kwargs'
       ∧ kwargs' !! "highlight_function"
         = Some (KFun (ConstStyle (VDict [(VStr "weight", VFloat 10000000000000000);
                                          (VStr "fillOpacity", VFloat (1 # 2)%Q)])))).
Proof.
  intros hover heavy. split.
  - refine (proj1 (geojson_highlight_function {[ "hover_style" := KVal hover ]})
              hover 1%nat _ _); reflexivity.
  - refine (proj1 (proj2 (geojson_highlight_function {[ "style" := KVal heavy ]}))
              (VFloat 10000000000000000) (VFloat 10000000000000000) _ _ _); reflexivity.
Defined.

(** X5. A style that is a dict without "weight", given without
    [hover_style]: [add_geojson] raises the [KeyError] of the missing key,
    outside the wrapping of the input errors, and attaches nothing. *)
Theorem add_geojson_style_without_weight (E : Collaborators) (data kv : list (pyval * pyval))
    (layer_name : string) (kwargs : gmap string kwval) (s : State) :
  kwargs !! "style" = Some (KVal (VDict kv)) →
  kwargs !! "hover_style" = None →
  filter (λ e, str_key "weight" e = true) kv = [] →
  Map.add_geojson E (VDict data) layer_name kwargs s = (s, Err (KeyError "weight")).
Proof.
  intros Hstyle Hhover Hweight.
  assert (Map.geojson_kwargs kwargs = Err (KeyError "weight")) as Hk.
  { apply (proj2 (proj2 (geojson_highlight_function kwargs))).
    rewrite Hhover, Hstyle. simpl. unfold dict_get. by rewrite Hweight. }
  assert (Map.load_geojson E (VDict data) s = (s, Ok (VDict data))) as Hload by done.
  unfold Map.add_geojson. by rewrite (bind_ok _ _ _ _ _ Hload), Hk.
Qed.

Lemma add_geojson_style_without_weight_witness :
  Map.add_geojson (sample fixed_center) (VDict [(VStr "type", VStr "FeatureCollection")])
    "Untitled" {[ "style" := KVal (VDict [(VStr "color", VStr "red")]) ]} sample_state
  = (sample_state, Err (KeyError "weight")).
Proof.
  refine (add_geojson_style_without_weight (sample fixed_center)
            [(VStr "type", VStr "FeatureCollection")] [(VStr "color", VStr "red")]
            "Untitled" {[ "style" := KVal (VDict [(VStr "color", VStr "red")]) ]}
            sample_state _ _ _); reflexivity.
Defined.

(** *** What [add_geojson] does to the map and to the world *)

Lemma load_geojson_state (E : Collaborators) (in_geojson : pyval) (s : State) :
  (Map.load_geojson E in_geojson s).1
  = match in_geojson with
    | VStr path =>
        if startswith path "http" then set_http_log (λ log, log ++ [path]) s else s
    | _ => s
    end.
Proof.
  unfold Map.load_geojson, reraise_as_exception.
  destruct in_geojson as [| | | |path| | |kv]; try done.
  destruct (startswith path "http").
  - unfold Map.http_get_json. by destruct (requests_get_json E path).
  - unfold mbind, M_bind, path_exists, read_file, raise, lift.
    destruct (is_dir s (abspath E path) || is_file s (abspath E path)); simpl; [|done].
    destruct (is_dir s (abspath E path)); [done|].
    destruct (files s !! abspath E path); [|done]. simpl.
    by destruct (json_load E _).
Qed.

(** [add_geojson] in one piece: the input is loaded, the keyword arguments
    are styled, the layer is built and attached. *)
Lemma add_geojson_run (E : Collaborators) (in_geojson : pyval) (layer_name : string)
    (kwargs : gmap string kwval) (s : State) :
  Map.add_geojson E in_geojson layer_name kwargs s
  = match Map.load_geojson E in_geojson s with
    | (s1, Ok data) =>
        match Map.geojson_kwargs kwargs with
        | Ok kwargs' =>
            match geojson_init E data layer_name kwargs' (draws s1) with
            | (k, Ok _) =>
                (attach (GeoJson data layer_name kwargs') (set_draws (λ _, k) s1), Ok tt)
            | (k, Err e) => (set_draws (λ _, k) s1, Err e)
            end
        | Err e => (s1, Err e)
        end
    | (s1, Err e) => (s1, Err e)
    end.
Proof.
  unfold Map.add_geojson, mbind, M_bind, lift, Map.new_geojson.
  destruct (Map.load_geojson E in_geojson s) as [s1 [data|e]]; [|done].
  destruct (Map.geojson_kwargs kwargs) as [kwargs'|]; [|done].
  by destruct (geojson_init E data layer_name kwargs' (draws s1)) as [k [[]|e]].
Qed.

(** X6. Whatever its arguments, [add_geojson] touches neither the files,
    nor the figure, nor the options, nor the output; it fetches a URL when
    the input is a string that starts with "http", and only then; and it
    makes no random draw but those of [folium.GeoJson], which it calls
    once the input is loaded and the keyword arguments are styled, and not
    otherwise.  When it returns, the constructor has accepted the data and
    the styled keyword arguments, and exactly one GeoJSON layer of the
    given name has been appended to the children with them; when it raises,
    the children are as they were. *)
Theorem add_geojson_effect (E : Collaborators) (in_geojson : pyval) (layer_name : string)
    (kwargs : gmap string kwval) (s : State) :
  let r := Map.add_geojson E in_geojson layer_name kwargs s in
  root_children r.1 = root_children s
  ∧ layersControl r.1 = layersControl s
  ∧ dirs r.1 = dirs s
  ∧ files r.1 = files s
  ∧ stdout r.1 = stdout s
  ∧ http_log r.1
    = match in_geojson with
      | VStr path => if startswith path "http" then http_log s ++ [path] else http_log s
      | _ => http_log s
      end
  ∧ match r.2 with
    | Ok _ =>
        ∃ data kwargs',
          (Map.load_geojson E in_geojson s).2 = Ok data
          ∧ Map.geojson_kwargs kwargs = Ok kwargs'
          ∧ geojson_init E data layer_name kwargs' (draws s) = (draws r.1, Ok tt)
          ∧ children r.1 = children s ++ [mkElement (next_id s) (GeoJson data layer_name kwargs')]
          ∧ next_id r.1 = S (next_id s)
    | Err e =>
        children r.1 = children s ∧ next_id r.1 = next_id s
        ∧ (draws r.1 = draws s
           ∨ ∃ data kwargs',
               (Map.load_geojson E in_geojson s).2 = Ok data
               ∧ Map.geojson_kwargs kwargs = Ok kwargs'
               ∧ geojson_init E data layer_name kwargs' (draws s) = (draws r.1, Err e))
    end.
Proof.
  intros r. subst r. rewrite add_geojson_run.
  pose proof (load_geojson_state E in_geojson s) as Hs.
  set (log := match in_geojson with
              | VStr path => if startswith path "http" then http_log s ++ [path] else http_log s
              | _ => http_log s
              end).
  assert ((Map.load_geojson E in_geojson s).1
          = mkState (children s) (root_children s) (layersControl s) (next_id s)
              (dirs s) (files s) log (stdout s) (draws s)) as Hs'.
  { rewrite Hs. unfold log. destruct s.
    destruct in_geojson as [| | | |path| | |kv]; try done.
    by destruct (startswith path "http"). }
  clear Hs. clearbody log.
  destruct (Map.load_geojson E in_geojson s) as [s1 [data|e]]; simpl in Hs'; subst s1;
    [|simpl; do 6 (split; [done|]); split; [done|split; [done|by left]]].
  destruct (Map.geojson_kwargs kwargs) as [kwargs'|e];
    [|simpl; do 6 (split; [done|]); split; [done|split; [done|by left]]].
  simpl draws.
  destruct (geojson_init E data layer_name kwargs' (draws s)) as [k [[]|e]] eqn:Hinit; simpl.
  - do 6 (split; [done|]). by exists data, kwargs'.
  - do 6 (split; [done|]). split; [done|]. split; [done|]. right. by exists data, kwargs'.
Qed.

Lemma add_geojson_effect_witness :
  let r := Map.add_geojson (sample fixed_center) (VStr "https://example.org/a.geojson")
             "Rivers" ∅ sample_state in
  r.2 = Ok tt
  ∧ http_log r.1 = ["https://example.org/a.geojson"]
  ∧ ∃ kwargs',
      children r.1
      = [mkElement 0 (GeoJson (sample_collection
                                 [(VStr "source", VStr "https://example.org/a.geojson")])
                        "Rivers" kwargs')].
Proof.
  intros r.
  destruct (add_geojson_effect (sample fixed_center) (VStr "https://example.org/a.geojson")
              "Rivers" ∅ sample_state) as (_ & _ & _ & _ & _ & Hlog & Hr).
  fold r in Hlog, Hr. split; [reflexivity|]. split; [exact Hlog|].
  change r.2 with (Ok tt : result unit) in Hr.
  destruct Hr as (data & kwargs' & Hdata & _ & _ & Hchildren & _).
  exists kwargs'. rewrite Hchildren. injection Hdata as <-. reflexivity.
Defined.

(** *** COG mosaics: failures after the first layer *)



(** *** Legends: which source wins *)

(** [resolve_legend] checks the [labels] and [colors] arguments first,
    whatever else is given, and only then turns to the builtin legend or to
    the legend dict. *)
Lemma resolve_legend_after_arguments (E : Collaborators) (colors labels legend_dict : pyval)
    (builtin_legend : option string) :
  Map.resolve_legend E colors labels legend_dict builtin_legend
  = match Map.resolve_legend E colors labels VNone None with
    | Err e => Err e
    | Ok direct =>
        match builtin_legend with
        | Some name =>
            match filter (λ e, String.eqb e.1 name = true) (builtin_legends E) with
            | [] =>
                Err (ValueError ("The builtin legend must be one of the following: "
                                 +:+ str_join ", " (builtin_legends E).*1))
            | (_, kv) :: _ =>
                Map.dict_colors E false (dict_values kv);;
                colors ← Map.dict_colors E true (dict_values kv);
                Ok (dict_keys kv, colors)
            end
        | None =>
            if is_none legend_dict then Ok direct
            else match legend_dict with
                 | VDict kv =>
                     colors ← Map.dict_colors E true (dict_values kv);
                     Ok (dict_keys kv, colors)
                 | _ => Err (ValueError "The legend dict must be a dictionary.")
                 end
        end
    end.
Proof.
  unfold Map.resolve_legend, mbind, result_bind.
  destruct (if negb (is_none labels) then _ else _) as [ls0|]; [|done].
  destruct (if negb (is_none colors) then _ else _) as [cs0|]; [|done].
  destruct (negb (length ls0 =? length cs0)%nat); [done|]. simpl.
  destruct builtin_legend as [name|].
  - destruct (filter _ (builtin_legends E)) as [|[key kv] rest]; [done|].
    by destruct (Map.dict_colors E false (dict_values kv)).
  - simpl. by destruct legend_dict.
Qed.

(** X8. The sources of a legend, in the order [add_legend] honours them.
    The [labels] and [colors] arguments are checked first: an error in them
    is raised even when a legend dict or a builtin legend makes them
    useless.  Once they pass, they play no part when a legend dict or a
    builtin legend is given; a builtin legend makes the legend dict useless
    in turn.  A name that is no builtin legend is refused with the list of
    the names, and a legend dict that is no dict is refused. *)
Theorem legend_sources_precedence (E : Collaborators) (colors labels : pyval) :
  (∀ e legend_dict builtin_legend,
     Map.resolve_legend E colors labels VNone None = Err e →
     Map.resolve_legend E colors labels legend_dict builtin_legend = Err e)
  ∧ (∀ legend_dict legend_dict' name,
       Map.resolve_legend E colors labels legend_dict (Some name)
       = Map.resolve_legend E colors labels legend_dict' (Some name))
  ∧ (∀ colors' labels' legend_dict builtin_legend,
       is_ok (Map.resolve_legend E colors labels VNone None) = true →
       is_ok (Map.resolve_legend E colors' labels' VNone None) = true →
       is_none legend_dict = false ∨ is_Some builtin_legend →
       Map.resolve_legend E colors labels legend_dict builtin_legend
       = Map.resolve_legend E colors' labels' legend_dict builtin_legend)
  ∧ (∀ legend_dict name,
       is_ok (Map.resolve_legend E colors labels VNone None) = true →
       filter (λ e, String.eqb e.1 name = true) (builtin_legends E) = [] →
       Map.resolve_legend E colors labels legend_dict (Some name)
       = Err (ValueError ("The builtin legend must be one of the following: "
                          +:+ str_join ", " (builtin_legends E).*1)))
  ∧ (∀ legend_dict,
       is_ok (Map.resolve_legend E colors labels VNone None) = true →
       is_none legend_dict = false → is_dict legend_dict = false →
       Map.resolve_legend E colors labels legend_dict None
       = Err (ValueError "The legend dict must be a dictionary.")).
Proof.
  split; [|split; [|split; [|split]]].
  - intros e legend_dict builtin_legend He.
    by rewrite resolve_legend_after_arguments, He.
  - intros legend_dict legend_dict' name.
    rewrite (resolve_legend_after_arguments E colors labels legend_dict).
    by rewrite (resolve_legend_after_arguments E colors labels legend_dict').
  - intros colors' labels' legend_dict builtin_legend Hok Hok' Hgiven.
    rewrite (resolve_legend_after_arguments E colors labels).
    rewrite (resolve_legend_after_arguments E colors' labels').
    destruct (Map.resolve_legend E colors labels VNone None); [|done].
    destruct (Map.resolve_legend E colors' labels' VNone None); [|done].
    destruct builtin_legend; [done|].
    destruct Hgiven as [-> | []]; done.
  - intros legend_dict name Hok Hf. rewrite resolve_legend_after_arguments, Hf.
    by destruct (Map.resolve_legend E colors labels VNone None).
  - intros legend_dict Hok Hn Hd. rewrite resolve_legend_after_arguments, Hn.
    destruct (Map.resolve_legend E colors labels VNone None); [|done].
    by destruct legend_dict.
Qed.

Lemma legend_sources_precedence_witness :
  Map.resolve_legend (sample fixed_center) VNone (VStr "Water") (VDict []) (Some "NLCD")
  = Err (ValueError "The legend labels must be a list.")
  ∧ Map.resolve_legend (sample fixed_center) VNone VNone (VDict []) (Some "Land cover")
    = Err (ValueError "The builtin legend must be one of the following: NLCD").
Proof.
  split.
  - refine (proj1 (legend_sources_precedence (sample fixed_center) VNone (VStr "Water"))
              _ (VDict []) (Some "NLCD") _); reflexivity.
  - refine (proj1 (proj2 (proj2 (proj2
              (legend_sources_precedence (sample fixed_center) VNone VNone))))
              (VDict []) "Land cover" _ _); reflexivity.
Defined.

(** *** Legends: what [add_legend] does to the map *)

Lemma only_prints_ret {A} (x : A) : only_prints (mret x : M A).
Proof. intros s. exists []. by rewrite after_print_nil. Qed.

Lemma only_prints_raise {A} (e : exn) : only_prints (raise e : M A).
Proof. intros s. exists []. by rewrite after_print_nil. Qed.

Lemma only_prints_lift {A} (r : result A) : only_prints (lift r).
Proof. intros s. exists []. by rewrite after_print_nil. Qed.

Lemma only_prints_bind {A B} (m : M A) (f : A → M B) :
  only_prints m → (∀ x, only_prints (f x)) → only_prints (m ≫= f).
Proof.
  intros Hm Hf s. destruct (Hm s) as [out1 H1]. unfold mbind, M_bind.
  destruct (m s) as [s1 [x|e]]; simpl in H1; subst s1.
  - destruct (Hf x (after_print out1 s)) as [out2 H2]. exists (out1 ++ out2).
    by rewrite H2, after_print_app.
  - by exists out1.
Qed.

Lemma only_prints_mapM {A B} (f : A → M B) (l : list A) :
  (∀ x, only_prints (f x)) → only_prints (mapM f l).
Proof.
  intros Hf. induction l as [|x l IH]; [apply only_prints_ret|].
  rewrite mapM_M_cons. apply only_prints_bind; [done|]. intros y.
  apply only_prints_bind; [done|]. intros k. apply only_prints_ret.
Qed.

Lemma only_prints_legend_item (E : Collaborators) labels opacity i color :
  only_prints (Map.legend_item E labels opacity i color).
Proof.
  apply only_prints_bind.
  - intros s. by exists (check_color E color).1.
  - intros background. destruct (labels !! i); [apply only_prints_ret|apply only_prints_raise].
Qed.

Lemma only_prints_legend_line (E : Collaborators) title labels colors opacity index line :
  only_prints (Map.legend_line E title labels colors opacity index line).
Proof.
  unfold Map.legend_line.
  repeat case_match; try apply only_prints_ret.
  apply only_prints_mapM. intros ic. apply only_prints_legend_item.
Qed.

(** A computation that prints and then, when it returns, has attached one
    macro element to the figure. *)
Lemma prints_then_attaches_bind {A} (m : M A) (f : A → M unit) :
  only_prints m →
  (∀ x s, ∃ out, match (f x s).2 with
                 | Ok _ => ∃ template,
                     (f x s).1 = attach_root (MacroElement template) (after_print out s)
                 | Err _ => (f x s).1 = after_print out s
                 end) →
  ∀ s, ∃ out, match ((m ≫= f) s).2 with
              | Ok _ => ∃ template,
                  ((m ≫= f) s).1 = attach_root (MacroElement template) (after_print out s)
              | Err _ => ((m ≫= f) s).1 = after_print out s
              end.
Proof.
  intros Hm Hf s. destruct (Hm s) as [out1 H1]. unfold mbind, M_bind.
  destruct (m s) as [s1 [x|e]]; simpl in H1; subst s1.
  - destruct (Hf x (after_print out1 s)) as [out2 H2]. exists (out1 ++ out2).
    destruct (f x (after_print out1 s)).2.
    + destruct H2 as [template H2]. exists template. by rewrite H2, after_print_app.
    + by rewrite H2, after_print_app.
  - by exists out1.
Qed.

(** X9. A legend is no layer.  Whatever its arguments, [add_legend] does
    nothing to the state but print, through [check_color], and, when it
    returns, append exactly one macro element to the children of the
    figure: the children of the map, its options, the files, the network
    and the random draws are as they were, and when it raises nothing is
    added.  Without the packaged template it raises a [FileNotFoundError]
    before it looks at any argument, and an error in the arguments is raised
    before anything is printed. *)
Theorem add_legend_effect (E : Collaborators) (title : string)
    (colors labels legend_dict : pyval) (builtin_legend : option string) (opacity : pyval)
    (s : State) :
  let r := Map.add_legend E title colors labels legend_dict builtin_legend opacity s in
  (∃ out,
     match r.2 with
     | Ok _ => ∃ template, r.1 = attach_root (MacroElement template) (after_print out s)
     | Err _ => r.1 = after_print out s
     end)
  ∧ children r.1 = children s
  ∧ layersControl r.1 = layersControl s
  ∧ dirs r.1 = dirs s
  ∧ files r.1 = files s
  ∧ http_log r.1 = http_log s
  ∧ draws r.1 = draws s
  ∧ (is_dir s (legend_template E) || is_file s (legend_template E) = false →
     r = (s, Err (FileNotFoundError "The legend template does not exist.")))
  ∧ (∀ e, is_dir s (legend_template E) || is_file s (legend_template E) = true →
          Map.resolve_legend E colors labels legend_dict builtin_legend = Err e →
          r = (s, Err e)).
Proof.
  intros r.
  assert (∃ out,
            match r.2 with
            | Ok _ => ∃ template, r.1 = attach_root (MacroElement template) (after_print out s)
            | Err _ => r.1 = after_print out s
            end) as Hshape.
  { subst r. unfold Map.add_legend.
    apply prints_then_attaches_bind.
    { intros s0. exists []. by rewrite after_print_nil. }
    intros found. apply prints_then_attaches_bind.
    { destruct (negb found); [apply only_prints_raise|apply only_prints_ret]. }
    intros _. apply prints_then_attaches_bind; [apply only_prints_lift|].
    intros [ls cs]. apply prints_then_attaches_bind.
    { intros s0. exists []. rewrite after_print_nil. unfold read_file.
      destruct (is_dir s0 _); [done|]. by destruct (files s0 !! _). }
    intros text. apply prints_then_attaches_bind.
    { apply only_prints_mapM. intros il. apply only_prints_legend_line. }
    intros content s0. exists []. rewrite after_print_nil. simpl. eauto. }
  split; [exact Hshape|].
  destruct Hshape as [out Hshape].
  assert (children r.1 = children s ∧ layersControl r.1 = layersControl s
          ∧ dirs r.1 = dirs s ∧ files r.1 = files s ∧ http_log r.1 = http_log s
          ∧ draws r.1 = draws s) as (? & ? & ? & ? & ? & ?).
  { destruct r.2; [destruct Hshape as [template ->]|rewrite Hshape]; done. }
  do 6 (split; [done|]). subst r.
  unfold Map.add_legend, mbind, M_bind, path_exists, lift, raise.
  split.
  - by intros ->.
  - intros e -> He. simpl. by rewrite He.
Qed.

Lemma add_legend_effect_witness :
  let s := set_files (λ _, ∅) sample_state in
  Map.add_legend (sample fixed_center) "Legend" VNone VNone VNone None (VFloat 1) s
  = (s, Err (FileNotFoundError "The legend template does not exist.")).
Proof.
  intros s.
  destruct (add_legend_effect (sample fixed_center) "Legend" VNone VNone VNone None
              (VFloat 1) s) as (_ & _ & _ & _ & _ & _ & _ & H & _).
  apply H. reflexivity.
Defined.

(** *** Legends: the markup *)



(** *** Tile layers of a COG and of a STAC item *)


(** *** A mosaic from a file of links *)

Lemma read_links_local (E : Collaborators) (V : Services) (filepath : string) (skip_rows : Z)
    (s : State) :
  startswith filepath "http" = false →
  Map.read_links E V filepath skip_rows s
  = (s, if is_dir s (abspath E filepath) then Err (IsADirectoryError "Is a directory")
        else match files s !! abspath E filepath with
             | Some text =>
                 Ok (VStr <$> py_slice_from skip_rows
                                (str_strip V <$> readlines (universal_newlines text)))
             | None => Err (FileNotFoundError "No such file or directory")
             end).
Proof.
  intros Hlocal. unfold Map.read_links. rewrite Hlocal.
  unfold mbind, M_bind, read_file. destruct (is_dir s (abspath E filepath)); [done|].
  by destruct (files s !! abspath E filepath).
Qed.

Lemma read_links_url (E : Collaborators) (V : Services) (filepath : string) (skip_rows : Z)
    (s : State) :
  startswith filepath "http" = true →
  Map.read_links E V filepath skip_rows s
  = (set_http_log (λ log, log ++ [filepath]) s,
     match urlopen_lines V filepath with
     | Ok lines => Ok (VStr <$> py_slice_from skip_rows (str_strip V <$> lines))
     | Err e => Err e
     end).
Proof.
  intros Hurl. unfold Map.read_links. rewrite Hurl.
  unfold mbind, M_bind, Map.urlopen. by destruct (urlopen_lines V filepath).
Qed.

(** X12. [add_cog_mosaic_from_file] is [add_cog_mosaic] on the links of
    the file: the lines of the URL, or the lines of the local file read as
    text (a carriage return, alone or before a line feed, ends a line as a
    line feed does), stripped, from row [skip_rows] on.  A URL is fetched
    once; a local file that cannot be opened, because it is missing or is a
    directory, or a URL that cannot be fetched, ends the call before
    anything is asked of the tile server. *)
Theorem add_cog_mosaic_from_file_links (E : Collaborators) (V : Services)
    (filepath : string) (skip_rows : Z) (name : string) (attribution opacity shown : pyval)
    (endpoint username : string) (overwrite show_footprints verbose : bool) (s : State) :
  let from_file :=
    Map.add_cog_mosaic_from_file E V filepath skip_rows name attribution opacity shown
      endpoint username overwrite show_footprints verbose in
  let from_links := λ lines,
    Map.add_cog_mosaic E (VStr <$> py_slice_from skip_rows (str_strip V <$> lines))
      name attribution opacity shown endpoint username overwrite show_footprints verbose in
  (startswith filepath "http" = false →
   from_file s
   = if is_dir s (abspath E filepath) then (s, Err (IsADirectoryError "Is a directory"))
     else match files s !! abspath E filepath with
          | Some text => from_links (readlines (universal_newlines text)) s
          | None => (s, Err (FileNotFoundError "No such file or directory"))
          end)
  ∧ (startswith filepath "http" = true →
     from_file s
     = match urlopen_lines V filepath with
       | Ok lines => from_links lines (set_http_log (λ log, log ++ [filepath]) s)
       | Err e => (set_http_log (λ log, log ++ [filepath]) s, Err e)
       end).
Proof.
  intros from_file from_links.
  assert (∀ s1 links,
            Map.read_links E V filepath skip_rows s = (s1, Ok links) →
            from_file s
            = Map.add_cog_mosaic E links name attribution opacity shown endpoint username
                overwrite show_footprints verbose s1) as Hok.
  { intros s1 links H. unfold from_file, Map.add_cog_mosaic_from_file.
    by rewrite (bind_ok _ _ _ _ _ H). }
  assert (∀ s1 e,
            Map.read_links E V filepath skip_rows s = (s1, Err e) →
            from_file s = (s1, Err e)) as Herr.
  { intros s1 e H. unfold from_file, Map.add_cog_mosaic_from_file.
    by rewrite (bind_err _ _ _ _ _ H). }
  split; intros Hpath.
  - pose proof (read_links_local E V filepath skip_rows s Hpath) as H.
    destruct (is_dir s (abspath E filepath)); [by apply Herr|].
    destruct (files s !! abspath E filepath) as [text|]; [by apply Hok|by apply Herr].
  - pose proof (read_links_url E V filepath skip_rows s Hpath) as H.
    destruct (urlopen_lines V filepath) as [lines|e]; [by apply Hok|by apply Herr].
Qed.

Lemma add_cog_mosaic_from_file_links_witness :
  Map.add_cog_mosaic_from_file (sample fixed_center) sample_services
    "https://example.org/cogs.csv" 1 "Mosaic" (VStr ".") (VFloat 1) (VBool true)
    "https://api.cogeo.xyz/" "anonymous" false false true sample_state
  = Map.add_cog_mosaic (sample fixed_center)
      [VStr "https://example.org/a.tif"; VStr "https://example.org/b.tif"]
      "Mosaic" (VStr ".") (VFloat 1) (VBool true) "https://api.cogeo.xyz/" "anonymous"
      false false true
      (set_http_log (λ log, log ++ ["https://example.org/cogs.csv"]) sample_state).
Proof.
  refine (proj2 (add_cog_mosaic_from_file_links (sample fixed_center) sample_services
            "https://example.org/cogs.csv" 1 "Mosaic" (VStr ".") (VFloat 1) (VBool true)
            "https://api.cogeo.xyz/" "anonymous" false false true sample_state) _).
  reflexivity.
Defined.

(** *** Shapefiles and KML files on disk *)

(** X13. For a path that is no URL of a zip archive, [add_shp] looks for
    the file on disk: a missing file raises a [FileNotFoundError] as it is
    (where [add_geojson] wraps its own in a generic exception) and leaves
    the state as it was; a file that exists is converted, an error of the
    conversion is raised as it is, and the result goes to [add_geojson].
    [add_kml] does the same for a path that is no URL of a KML file. *)
Theorem shapefile_and_kml_on_disk (E : Collaborators) (V : Services) (path layer_name : string)
    (kwargs : gmap string kwval) (s : State) :
  let on_disk := is_dir s (abspath E (abspath_str V path))
                 || is_file s (abspath E (abspath_str V path)) in
  (startswith path "http" && endswith path ".zip" = false →
   Map.add_shp E V path layer_name kwargs s
   = if on_disk then
       match shp_to_geojson V (abspath_str V path) with
       | Ok data => Map.add_geojson E data layer_name kwargs s
       | Err e => (s, Err e)
       end
     else (s, Err (FileNotFoundError "The provided shapefile could not be found.")))
  ∧ (startswith path "http" && endswith path ".kml" = false →
     Map.add_kml E V path layer_name kwargs s
     = if on_disk then
         match kml_to_geojson V (abspath_str V path) with
         | Ok data => Map.add_geojson E data layer_name kwargs s
         | Err e => (s, Err e)
         end
       else (s, Err (FileNotFoundError "The provided KML could not be found."))).
Proof.
  intros on_disk. split; intros Hlocal.
  - unfold Map.add_shp. rewrite Hlocal.
    unfold mbind, M_bind, path_exists, raise, lift. subst on_disk.
    destruct (is_dir s _ || is_file s _); simpl; [|done].
    by destruct (shp_to_geojson V (abspath_str V path)).
  - unfold Map.add_kml. rewrite Hlocal.
    unfold mbind, M_bind, path_exists, raise, lift. subst on_disk.
    destruct (is_dir s _ || is_file s _); simpl; [|done].
    by destruct (kml_to_geojson V (abspath_str V path)).
Qed.

Lemma shapefile_and_kml_on_disk_witness :
  Map.add_shp (sample fixed_center) sample_services "countries.shp" "Countries" ∅ sample_state
  = (sample_state, Err (FileNotFoundError "The provided shapefile could not be found."))
  ∧ Map.add_kml (sample fixed_center) sample_services "countries.kml" "Countries" ∅
      sample_state
    = (sample_state, Err (FileNotFoundError "The provided KML could not be found.")).
Proof.
  split.
  - refine (proj1 (shapefile_and_kml_on_disk (sample fixed_center) sample_services
              "countries.shp" "Countries" ∅ sample_state) _). reflexivity.
  - refine (proj2 (shapefile_and_kml_on_disk (sample fixed_center) sample_services
              "countries.kml" "Countries" ∅ sample_state) _). reflexivity.
Defined.

(** *** Vector files by their extension *)

Lemma substring_all (s : string) : String.substring 0 (String.length s) s = s.
Proof. induction s as [|c s IH]; [done|]. simpl. by rewrite IH. Qed.

Lemma substring_suffix (k : nat) (s p : string) :
  String.substring k (String.length p) s = p →
  (k + String.length p = String.length s)%nat →
  ∃ pre, s = pre +:+ p.
Proof.
  revert s. induction k as [|k IH]; intros s Hsub Hlen.
  - exists "". simpl in Hlen. rewrite Hlen, substring_all in Hsub. by subst.
  - destruct s as [|c s]; [simpl in Hlen; lia|]. simpl in Hsub, Hlen.
    destruct (IH s Hsub) as [pre ->]; [lia|]. by exists (String c pre).
Qed.

Lemma endswith_suffix (s p : string) : endswith s p = true → ∃ pre, s = pre +:+ p.
Proof.
  unfold endswith. intros H. apply andb_true_iff in H as [Hlen Heq].
  apply Nat.leb_le in Hlen. apply String.eqb_eq in Heq.
  apply (substring_suffix (String.length s - String.length p)); [done|lia].
Qed.

(** The extension of a name that ends in ".zip" is ".zip", or nothing when
    the dot opens the last component. *)
Lemma splitext_scan_zip (pre : string) (seen : bool) (ext : string) :
  splitext_scan seen ext (pre +:+ ".zip") = "" ∨ splitext_scan seen ext (pre +:+ ".zip") = ".zip".
Proof.
  revert seen ext. induction pre as [|c pre IH]; intros seen ext.
  - destruct seen; [right|left]; reflexivity.
  - rewrite string_app_cons. simpl splitext_scan. repeat case_match; apply IH.
Qed.

Lemma zip_extension (filename : string) :
  endswith filename ".zip" = true →
  str_lower (splitext_ext filename) = "" ∨ str_lower (splitext_ext filename) = ".zip".
Proof.
  intros H. destruct (endswith_suffix _ _ H) as [pre ->]. unfold splitext_ext.
  destruct (splitext_scan_zip pre false "") as [-> | ->]; [by left|by right].
Qed.

(** X14. How [add_vector] routes a file.  The extension decides, and the
    test for a remote file is not made again: the URL of a zip archive goes
    to [vector_to_geojson], never to the download of [add_shp]; the URL of
    a ".shp" file goes to [add_shp], where it is looked for on disk, so that
    it raises a [FileNotFoundError] when no such file is there; and a local
    ".json" or ".geojson" file that does not exist raises the generic
    exception of [add_geojson]. *)
Theorem add_vector_routes (E : Collaborators) (V : Services) (filename layer_name : string)
    (bbox mask rows : pyval) (kwargs : gmap string kwval) (s : State) :
  let run := Map.add_vector E V filename layer_name bbox mask rows kwargs s in
  (startswith filename "http" = true → endswith filename ".zip" = true →
   run = match vector_to_geojson V filename bbox mask rows "4326" kwargs with
         | Ok geojson => Map.add_geojson E geojson layer_name kwargs s
         | Err e => (s, Err e)
         end)
  ∧ (startswith filename "http" = true →
     str_lower (splitext_ext filename) = ".shp" →
     is_dir s (abspath E (abspath_str V filename)) = false →
     is_file s (abspath E (abspath_str V filename)) = false →
     run = (s, Err (FileNotFoundError "The provided shapefile could not be found.")))
  ∧ (startswith filename "http" = false →
     str_lower (splitext_ext (abspath_str V filename)) = ".json"
     ∨ str_lower (splitext_ext (abspath_str V filename)) = ".geojson" →
     startswith (abspath_str V filename) "http" = false →
     is_dir s (abspath E (abspath_str V filename)) = false →
     is_file s (abspath E (abspath_str V filename)) = false →
     run = (s, Err (Exception
                      (FileNotFoundError "The provided GeoJSON file could not be found.")))).
Proof.
  intros run. subst run. unfold Map.add_vector. split; [|split].
  - intros Hurl Hzip. rewrite Hurl. cbn [negb].
    destruct (zip_extension filename Hzip) as [-> | ->]; simpl;
      by destruct (vector_to_geojson V filename bbox mask rows "4326" kwargs).
  - intros Hurl Hext Hd Hf. rewrite Hurl. cbn [negb]. rewrite Hext. simpl.
    assert (endswith filename ".zip" = false) as Hzip.
    { destruct (endswith filename ".zip") eqn:Hz; [|done].
      destruct (zip_extension filename Hz) as [H | H]; rewrite H in Hext; discriminate. }
    unfold Map.add_shp. rewrite Hzip, andb_false_r.
    unfold mbind, M_bind, path_exists, raise. by rewrite Hd, Hf.
  - intros Hlocal Hext Hnot Hd Hf. rewrite Hlocal. cbn [negb].
    assert (Map.add_geojson E (VStr (abspath_str V filename)) layer_name kwargs s
            = (s, Err (Exception
                         (FileNotFoundError "The provided GeoJSON file could not be found."))))
      as Hgeo by (apply add_geojson_load_error; by apply load_geojson_missing).
    destruct Hext as [-> | ->]; simpl; exact Hgeo.
Qed.

Lemma add_vector_routes_witness :
  Map.add_vector (sample fixed_center) sample_services "https://example.org/roads.shp"
    "Roads" VNone VNone VNone ∅ sample_state
  = (sample_state, Err (FileNotFoundError "The provided shapefile could not be found.")).
Proof.
  refine (proj1 (proj2 (add_vector_routes (sample fixed_center) sample_services
            "https://example.org/roads.shp" "Roads" VNone VNone VNone ∅ sample_state))
            _ _ _ _); reflexivity.
Defined.

(** *** The OpenStreetMap layers *)

Lemma zoom_to_bounds_ok (bounds : pyval) (s s' : State) :
  Map.zoom_to_bounds bounds s = (s', Ok tt) →
  ∃ fitted, s' = attach (FitBounds fitted None) s.
Proof.
  unfold Map.zoom_to_bounds, mbind, M_bind, lift.
  destruct (py_index bounds 1); [|done]. destruct (py_index bounds 0); [|done].
  destruct (py_index bounds 3); [|done]. destruct (py_index bounds 2); [|done].
  rewrite fit_bounds_attach. intros H. injection H as <-. eauto.
Qed.

Lemma osm_layer_ok (E : Collaborators) (gdf : GeoDataFrame) (layer_name : string)
    (style hover_style style_callback fill_colors info_mode : kwval) (s s' : State) :
  Map.osm_layer E gdf layer_name style hover_style style_callback fill_colors info_mode s
  = (s', Ok tt) →
  ∃ data kwargs' fitted,
    children s'
    = children s ++ [mkElement (next_id s) (GeoJson data layer_name kwargs');
                     mkElement (S (next_id s)) (FitBounds fitted None)]
    ∧ kwargs' !! "style_function" = Some (KFun (RandomColor fill_colors style)).
Proof.
  unfold Map.osm_layer, Map.zoom_to_gdf. unfold mbind at 1, M_bind.
  rewrite add_geojson_run.
  pose proof (load_geojson_state E (geo_interface gdf) s) as Hs.
  destruct (Map.load_geojson E (geo_interface gdf) s) as [s1 [data|]]; [|done].
  destruct (Map.geojson_kwargs _) as [kwargs'|] eqn:Hk; [|done].
  destruct (geojson_init E data layer_name kwargs' (draws s1)) as [k [[]|]]; [|done].
  intros Hz. apply zoom_to_bounds_ok in Hz as [fitted ->].
  exists data, kwargs', fitted. split.
  - simpl in *. subst s1. simpl.
    destruct (geo_interface gdf) as [| | | |path| | |kv]; try by rewrite <- app_assoc.
    destruct (startswith path "http"); by rewrite <- app_assoc.
  - rewrite (geojson_kwargs_style_function _ _ Hk).
    rewrite lookup_insert_ne, lookup_insert_ne, lookup_insert_ne by done.
    by rewrite lookup_insert_eq, lookup_insert_eq.
Qed.

(** X15. The five OpenStreetMap methods that are implemented, whatever the
    query: when one returns, it has appended a GeoJSON layer of the given
    name and, after it, a fit-bounds call; and the style function of the
    layer is [random_color] over [fill_colors] and the given style, whatever
    the style callback.  [add_osm_from_view] returns at once and attaches
    nothing. *)
Theorem osm_layers_use_random_color (E : Collaborators) (V : Services)
    (address tags dist query which_result buffer_dist center_point polygon
     north south east west : pyval)
    (method : string → kwval → kwval → kwval → kwval → kwval → M unit) :
  method ∈ [Map.add_osm_from_address E V address tags dist;
            Map.add_osm_from_place E V query tags which_result buffer_dist;
            Map.add_osm_from_point E V center_point tags dist;
            Map.add_osm_from_polygon E V polygon tags;
            Map.add_osm_from_bbox E V north south east west tags] →
  ∀ layer_name style hover_style style_callback fill_colors info_mode s,
    let r := method layer_name style hover_style style_callback fill_colors info_mode s in
    (r.2 = Ok tt →
     ∃ data kwargs' fitted,
       children r.1
       = children s ++ [mkElement (next_id s) (GeoJson data layer_name kwargs');
                        mkElement (S (next_id s)) (FitBounds fitted None)]
       ∧ kwargs' !! "style_function" = Some (KFun (RandomColor fill_colors style)))
    ∧ Map.add_osm_from_view tags layer_name style hover_style style_callback fill_colors
        info_mode s = (s, Ok tt).
Proof.
  intros Hin layer_name style hover_style style_callback fill_colors info_mode s r.
  split; [|done]. intros Hok. destruct r as [s' res] eqn:Hr. simpl in *. subst res.
  assert (∀ query_result : result GeoDataFrame,
            (gdf ← lift query_result;
             Map.osm_layer E gdf layer_name style hover_style style_callback fill_colors
               info_mode) s = (s', Ok tt) →
            ∃ gdf, Map.osm_layer E gdf layer_name style hover_style style_callback
                     fill_colors info_mode s = (s', Ok tt)) as Hquery.
  { intros [gdf|e] H; [by exists gdf|done]. }
  assert (∃ gdf, Map.osm_layer E gdf layer_name style hover_style style_callback
                   fill_colors info_mode s = (s', Ok tt)) as [gdf Hgdf].
  { repeat (apply elem_of_cons in Hin as [-> | Hin]; [by apply Hquery in Hr|]).
    by apply elem_of_nil in Hin. }
  by apply osm_layer_ok in Hgdf.
Qed.

Lemma osm_layers_use_random_color_witness :
  let r := Map.add_osm_from_address (sample fixed_center) sample_services
             (VStr "New York City") (VDict [(VStr "amenity", VStr "bar")]) (VInt 1000)
             "Bars" Map.osm_default_style Map.osm_default_hover_style
             (KFun (Callback (λ feature, VDict [(VStr "color", VStr "red")])))
             Map.osm_default_fill_colors Map.osm_default_info_mode sample_state in
  ∃ data kwargs' fitted,
    children r.1
    = children sample_state ++ [mkElement 0 (GeoJson data "Bars" kwargs');
                                mkElement 1 (FitBounds fitted None)]
    ∧ kwargs' !! "style_function"
      = Some (KFun (RandomColor Map.osm_default_fill_colors Map.osm_default_style)).
Proof.
  intros r.
  refine (proj1 (osm_layers_use_random_color (sample fixed_center) sample_services
            (VStr "New York City") (VDict [(VStr "amenity", VStr "bar")]) (VInt 1000)
            VNone VNone VNone VNone VNone VNone VNone VNone VNone
            (Map.add_osm_from_address (sample fixed_center) sample_services
               (VStr "New York City") (VDict [(VStr "amenity", VStr "bar")]) (VInt 1000))
            _ "Bars" Map.osm_default_style Map.osm_default_hover_style
            (KFun (Callback (λ feature, VDict [(VStr "color", VStr "red")])))
            Map.osm_default_fill_colors Map.osm_default_info_mode sample_state) _).
  - apply list_elem_of_here.
  - reflexivity.
Defined.

(** *** GeoDataFrames: the layer first, the view after *)

Lemma add_gdf_run (E : Collaborators) (gdf : GeoDataFrame) (layer_name : string)
    (zoom_to_layer : bool) (kwargs : gmap string kwval) (s : State) :
  Map.add_gdf E gdf layer_name zoom_to_layer kwargs s
  = match gdf_to_geojson E gdf "4326" with
    | Ok data =>
        match Map.add_geojson E data layer_name kwargs s with
        | (s1, Ok _) => if zoom_to_layer then Map.zoom_to_layer_block gdf s1 else (s1, Ok tt)
        | (s1, Err e) => (s1, Err e)
        end
    | Err e => (s, Err e)
    end.
Proof.
  unfold Map.add_gdf. destruct (gdf_to_geojson E gdf "4326") as [data|]; [|done].
  rewrite bind_lift_ok. unfold mbind, M_bind.
  destruct (Map.add_geojson E data layer_name kwargs s) as [s1 [[]|]]; [|done].
  by destruct zoom_to_layer.
Qed.

(** X16. [add_gdf] converts the frame before it touches the map, attaches
    the layer, and only then fits the view: a frame that cannot be
    reprojected for the bounds makes the call raise with the layer already
    attached.  [add_gdf_from_postgis] is [add_gdf] on the frame read from
    the database with "fill_colors" taken out of the keyword arguments, for
    the query and for the layer alike; so a style callback given together
    with [fill_colors] is the style function of the layer. *)
Theorem add_gdf_layer_then_view (E : Collaborators) (layer_name : string)
    (kwargs : gmap string kwval) (s : State) :
  (∀ gdf e zoom_to_layer,
     gdf_to_geojson E gdf "4326" = Err e →
     Map.add_gdf E gdf layer_name zoom_to_layer kwargs s = (s, Err e))
  ∧ (∀ gdf data s1 e,
       gdf_to_geojson E gdf "4326" = Ok data →
       Map.add_geojson E data layer_name kwargs s = (s1, Ok tt) →
       bounds_4326 gdf = Err e →
       Map.add_gdf E gdf layer_name true kwargs s = (s1, Err e)
       ∧ Map.add_gdf E gdf layer_name false kwargs s = (s1, Ok tt))
  ∧ (∀ sql con zoom_to_layer,
       Map.add_gdf_from_postgis E sql con layer_name zoom_to_layer kwargs s
       = match read_postgis E sql con (delete "fill_colors" kwargs) with
         | Ok gdf => Map.add_gdf E gdf layer_name zoom_to_layer (delete "fill_colors" kwargs) s
         | Err e => (s, Err e)
         end)
  ∧ (∀ kwargs' callback,
       Map.geojson_kwargs (delete "fill_colors" kwargs) = Ok kwargs' →
       kwargs !! "style_callback" = Some callback → callback ≠ KVal VNone →
       kwargs' !! "style_function" = Some callback).
Proof.
  split; [|split; [|split]].
  - intros gdf e zoom_to_layer He. by rewrite add_gdf_run, He.
  - intros gdf data s1 e Hd Hg Hb. rewrite !add_gdf_run, Hd, Hg. split; [|done].
    unfold Map.zoom_to_layer_block. by rewrite Hb.
  - intros sql con zoom_to_layer. unfold Map.add_gdf_from_postgis, Map.add_gdf.
    by destruct (read_postgis E sql con (delete "fill_colors" kwargs)).
  - intros kwargs' callback Hk Hcb Hnone.
    rewrite (geojson_kwargs_style_function _ _ Hk).
    rewrite lookup_delete_eq, lookup_delete_ne, Hcb by done.
    by destruct callback as [[]|].
Qed.

Lemma add_gdf_layer_then_view_witness :
  let gdf := mkGdf (sample_collection [])
               (VList [VFloat 0; VFloat 2; VFloat 7; VFloat 9])
               (Err (CollaboratorError "the frame has no CRS")) in
  let layer :=
    GeoJson (sample_collection []) "Untitled"
      (<["style_function" := KFun (ConstStyle Map.default_style)]>
         (<["highlight_function" :=
              KFun (ConstStyle (VDict [(VStr "weight", VInt 2);
                                       (VStr "fillOpacity", VFloat (1 # 2)%Q)]))]> ∅)) in
  Map.add_gdf (sample fixed_center) gdf "Untitled" true ∅ sample_state
  = (attach layer sample_state, Err (CollaboratorError "the frame has no CRS")).
Proof.
  intros gdf layer.
  refine (proj1 (proj1 (proj2 (add_gdf_layer_then_view (sample fixed_center) "Untitled" ∅
            sample_state)) gdf (sample_collection [])
            (attach layer sample_state) (CollaboratorError "the frame has no CRS") _ _ _));
    reflexivity.
Defined.

(** *** The constructor: the arguments of folium *)

(** Case analysis on the key looked up. *)
Ltac solve_keys :=
  repeat case_decide; subst; try done;
  try (exfalso;
       match goal with
       | H : _ ∨ _ |- _ => by destruct H
       | H : ¬ (_ ∨ _) |- _ => apply H; ((by left) || (by right))
       end).

Lemma rename_key_lookup (alias key : string) (kwargs : gmap string kwval) (k : string) :
  alias ≠ key →
  Map.rename_key alias key kwargs !! k
  = if decide (k = alias) then None
    else if decide (k = key)
         then match kwargs !! alias with Some x => Some x | None => kwargs !! key end
         else kwargs !! k.
Proof.
  intros Hne. unfold Map.rename_key. destruct (kwargs !! alias) as [x|] eqn:Ha.
  - case_decide as Hk; [subst; apply lookup_delete_eq|].
    rewrite lookup_delete_ne by done.
    case_decide as Hk'; [subst; by rewrite lookup_insert_eq|by rewrite lookup_insert_ne].
  - case_decide as Hk; [by subst|]. case_decide as Hk'; [by subst|done].
Qed.

Lemma setdefault_get_fst (key : string) (v : kwval) (kwargs : gmap string kwval) :
  (Map.setdefault_get key v kwargs).1 = default v (kwargs !! key).
Proof. unfold Map.setdefault_get. by destruct (kwargs !! key). Qed.

Lemma setdefault_get_lookup (key : string) (v : kwval) (kwargs : gmap string kwval)
    (k : string) :
  (Map.setdefault_get key v kwargs).2 !! k
  = if decide (k = key) then Some (default v (kwargs !! key)) else kwargs !! k.
Proof.
  unfold Map.setdefault_get. destruct (kwargs !! key) as [x|] eqn:Hx; simpl.
  - case_decide; [by subst|done].
  - case_decide; [subst; by rewrite lookup_insert_eq|by rewrite lookup_insert_ne].
Qed.

Lemma px_to_float_lookup (V : Services) (key : string) (kwargs kwargs' : gmap string kwval)
    (k : string) :
  Map.px_to_float V key kwargs = Ok kwargs' →
  kwargs' !! k
  = if decide (k = key)
    then match kwargs !! key with
         | Some (KVal (VStr text)) =>
             match py_float V (str_replace text "px" "") with
             | Ok x => Some (KVal x)
             | Err _ => None
             end
         | other => other
         end
    else kwargs !! k.
Proof.
  unfold Map.px_to_float. intros H.
  destruct (kwargs !! key) as [[[]|]|] eqn:Hkey;
    try (injection H as <-; case_decide; [by subst|done]).
  unfold mbind, result_bind in H. destruct (py_float V _) as [x|]; [|done].
  injection H as <-. case_decide; [subst; by rewrite lookup_insert_eq|].
  by rewrite lookup_insert_ne.
Qed.

(** [init_arguments] without its local names. *)
Lemma init_arguments_run (V : Services) (kwargs : gmap string kwval) :
  Map.init_arguments V kwargs
  = let p1 := Map.setdefault_get "location" (KVal (VList [VInt 40; VInt (-100)]))
                (Map.rename_key "center" "location" kwargs) in
    let p2 := Map.setdefault_get "zoom_start" (KVal (VInt 4))
                (Map.rename_key "zoom" "zoom_start" p1.2) in
    let kw5 := (Map.setdefault_get "draw_export" (KVal (VBool false))
                  (Map.setdefault_get "control_scale" (KVal (VBool true)) p2.2).2).2 in
    match Map.px_to_float V "height" kw5 with
    | Err e => Err e
    | Ok kw6 =>
        match Map.px_to_float V "width" kw6 with
        | Err e => Err e
        | Ok kw7 =>
            Ok (p1.1, p2.1, default (KVal VNone) (kw7 !! "height"),
                default (KVal VNone) (kw7 !! "width"), delete "width" (delete "height" kw7))
        end
    end.
Proof.
  unfold Map.init_arguments.
  destruct (Map.setdefault_get "location" _ _) as [latlon kw1].
  destruct (Map.setdefault_get "zoom_start" _ _) as [zoom kw3].
  cbv zeta. simpl fst. simpl snd. unfold mbind, result_bind.
  destruct (Map.px_to_float V "height" _) as [kw6|]; [|done].
  destruct (Map.px_to_float V "width" kw6) as [kw7|]; [|done].
  unfold Map.pop_or_none. by rewrite lookup_delete_ne.
Qed.

(** The keyword arguments before the sizes are converted. *)
Lemma init_aliases_lookup (kwargs : gmap string kwval) (k : string) :
  let p1 := Map.setdefault_get "location" (KVal (VList [VInt 40; VInt (-100)]))
              (Map.rename_key "center" "location" kwargs) in
  let p2 := Map.setdefault_get "zoom_start" (KVal (VInt 4))
              (Map.rename_key "zoom" "zoom_start" p1.2) in
  let kw5 := (Map.setdefault_get "draw_export" (KVal (VBool false))
                (Map.setdefault_get "control_scale" (KVal (VBool true)) p2.2).2).2 in
  p1.1 = default (default (KVal (VList [VInt 40; VInt (-100)])) (kwargs !! "location"))
           (kwargs !! "center")
  ∧ p2.1 = default (default (KVal (VInt 4)) (kwargs !! "zoom_start")) (kwargs !! "zoom")
  ∧ kw5 !! k
    = if decide (k = "center" ∨ k = "zoom") then None
      else if decide (k = "location") then Some p1.1
      else if decide (k = "zoom_start") then Some p2.1
      else if decide (k = "control_scale")
           then Some (default (KVal (VBool true)) (kwargs !! "control_scale"))
      else if decide (k = "draw_export")
           then Some (default (KVal (VBool false)) (kwargs !! "draw_export"))
      else kwargs !! k.
Proof.
  intros p1 p2 kw5.
  assert (∀ k, p1.2 !! k
               = if decide (k = "center") then None
                 else if decide (k = "location") then Some p1.1 else kwargs !! k) as H1.
  { intros k'. unfold p1. rewrite setdefault_get_lookup, setdefault_get_fst.
    rewrite !rename_key_lookup by done. simpl.
    repeat case_decide; subst; try done. }
  assert (p1.1 = default (default (KVal (VList [VInt 40; VInt (-100)]))
                            (kwargs !! "location")) (kwargs !! "center")) as Hp1.
  { unfold p1. rewrite setdefault_get_fst, rename_key_lookup by done. simpl.
    by destruct (kwargs !! "center"), (kwargs !! "location"). }
  assert (p2.1 = default (default (KVal (VInt 4)) (kwargs !! "zoom_start"))
                   (kwargs !! "zoom")) as Hp2.
  { unfold p2. rewrite setdefault_get_fst, rename_key_lookup by done. simpl.
    rewrite !H1. simpl. by destruct (kwargs !! "zoom"), (kwargs !! "zoom_start"). }
  split; [done|]. split; [done|].
  unfold kw5. rewrite !setdefault_get_lookup.
  assert (∀ k, p2.2 !! k
               = if decide (k = "center" ∨ k = "zoom") then None
                 else if decide (k = "location") then Some p1.1
                 else if decide (k = "zoom_start") then Some p2.1 else kwargs !! k) as H2.
  { intros k'. unfold p2 at 1. rewrite setdefault_get_lookup. fold p2.
    rewrite !rename_key_lookup by done. rewrite !H1. simpl.
    solve_keys. rewrite Hp2. by destruct (kwargs !! "zoom"), (kwargs !! "zoom_start"). }
  rewrite !H2. simpl. solve_keys.
Qed.

Lemma init_arguments_passed (V : Services) (kwargs : gmap string kwval)
    (latlon zoom height width : kwval) (passed : gmap string kwval) (k : string) :
  Map.init_arguments V kwargs = Ok (latlon, zoom, height, width, passed) →
  latlon = default (default (KVal (VList [VInt 40; VInt (-100)])) (kwargs !! "location"))
             (kwargs !! "center")
  ∧ zoom = default (default (KVal (VInt 4)) (kwargs !! "zoom_start")) (kwargs !! "zoom")
  ∧ height = size_of V kwargs "height"
  ∧ width = size_of V kwargs "width"
  ∧ passed !! k
    = if decide (k = "center" ∨ k = "zoom" ∨ k = "height" ∨ k = "width") then None
      else if decide (k = "location") then Some latlon
      else if decide (k = "zoom_start") then Some zoom
      else if decide (k = "control_scale")
           then Some (default (KVal (VBool true)) (kwargs !! "control_scale"))
      else if decide (k = "draw_export")
           then Some (default (KVal (VBool false)) (kwargs !! "draw_export"))
      else kwargs !! k.
Proof.
  rewrite init_arguments_run. cbv zeta.
  destruct (init_aliases_lookup kwargs k) as (Hp1 & Hp2 & Hk).
  destruct (init_aliases_lookup kwargs "height") as (_ & _ & Hh).
  destruct (init_aliases_lookup kwargs "width") as (_ & _ & Hw).
  cbv zeta in Hp1, Hp2, Hk, Hh, Hw. rewrite <- Hp1, <- Hp2.
  destruct (Map.px_to_float V "height" _) as [kw6|] eqn:H6; [|done].
  destruct (Map.px_to_float V "width" kw6) as [kw7|] eqn:H7; [|done].
  intros H. injection H as <- <- <- <- <-.
  pose proof (px_to_float_lookup V "height" _ kw6 "height" H6) as H6h.
  pose proof (px_to_float_lookup V "height" _ kw6 "width" H6) as H6w.
  pose proof (px_to_float_lookup V "height" _ kw6 k H6) as H6k.
  pose proof (px_to_float_lookup V "width" _ kw7 "height" H7) as H7h.
  pose proof (px_to_float_lookup V "width" _ kw7 "width" H7) as H7w.
  pose proof (px_to_float_lookup V "width" _ kw7 k H7) as H7k.
  rewrite Hh in H6h. rewrite Hw in H6w. rewrite Hk in H6k.
  simpl in H6h, H6w, H7h, H7w. rewrite H6h in H7h. rewrite H6w in H7w.
  split; [done|]. split; [done|]. split; [|split].
  - rewrite H7h. unfold size_of.
    destruct (kwargs !! "height") as [[[]|]|]; try done.
    unfold Map.px_to_float in H6. rewrite Hh in H6. simpl in H6.
    by destruct (py_float V _).
  - rewrite H7w. unfold size_of.
    destruct (kwargs !! "width") as [[[]|]|]; try done.
    unfold Map.px_to_float in H7. rewrite H6w in H7. simpl in H7.
    by destruct (py_float V _).
  - destruct (decide (k = "width")) as [->|Hkw].
    { rewrite lookup_delete_eq. by rewrite decide_True by auto. }
    rewrite lookup_delete_ne by done.
    destruct (decide (k = "height")) as [->|Hkh].
    { rewrite lookup_delete_eq. by rewrite decide_True by auto. }
    rewrite lookup_delete_ne by done.
    rewrite H7k, H6k. clear -Hkw Hkh.
    destruct (decide (k = "center" ∨ k = "zoom")) as [Hd|Hd].
    + by rewrite decide_True by tauto.
    + by rewrite (decide_False (P := k = "center" ∨ k = "zoom" ∨ k = "height" ∨ k = "width"))
        by tauto.
Qed.

(** X17. What [folium.Map.__init__] is called with.  The centre is the
    caller's "center", else the caller's "location", else [40, -100]; the
    zoom is the caller's "zoom", else "zoom_start", else 4: the ipyleaflet
    name wins when both are given.  folium gets them as "location" and
    "zoom_start", gets "control_scale" (true unless given) and
    "draw_export" (false unless given), never gets "center", "zoom",
    "height" or "width", and gets every other keyword argument of the
    caller as it is. *)
Theorem init_arguments_for_folium (V : Services) (kwargs : gmap string kwval)
    (latlon zoom height width : kwval) (passed : gmap string kwval) :
  Map.init_arguments V kwargs = Ok (latlon, zoom, height, width, passed) →
  latlon = default (default (KVal (VList [VInt 40; VInt (-100)])) (kwargs !! "location"))
             (kwargs !! "center")
  ∧ zoom = default (default (KVal (VInt 4)) (kwargs !! "zoom_start")) (kwargs !! "zoom")
  ∧ passed !! "location" = Some latlon
  ∧ passed !! "zoom_start" = Some zoom
  ∧ passed !! "control_scale" = Some (default (KVal (VBool true)) (kwargs !! "control_scale"))
  ∧ passed !! "draw_export" = Some (default (KVal (VBool false)) (kwargs !! "draw_export"))
  ∧ (∀ k, k ∈ ["center"; "zoom"; "height"; "width"] → passed !! k = None)
  ∧ (∀ k, k ∉ init_keys → passed !! k = kwargs !! k).
Proof.
  intros H.
  destruct (init_arguments_passed V kwargs _ _ _ _ _ "" H) as (Hl & Hz & _).
  do 2 (split; [done|]).
  assert (∀ k, k ∈ ["center"; "zoom"; "height"; "width"]
               ↔ k = "center" ∨ k = "zoom" ∨ k = "height" ∨ k = "width") as Hdrop.
  { intros k. rewrite !elem_of_cons, elem_of_nil. tauto. }
  assert (∀ k, k ∈ init_keys
               ↔ (k = "center" ∨ k = "zoom" ∨ k = "height" ∨ k = "width")
                 ∨ k = "location" ∨ k = "zoom_start" ∨ k = "control_scale"
                 ∨ k = "draw_export") as Hkeys.
  { intros k. unfold init_keys. rewrite !elem_of_cons, elem_of_nil. tauto. }
  split; [|split; [|split; [|split; [|split]]]].
  - destruct (init_arguments_passed V kwargs _ _ _ _ _ "location" H) as (_ & _ & _ & _ & ->).
    repeat case_decide; try done. exfalso. by destruct_or!.
  - destruct (init_arguments_passed V kwargs _ _ _ _ _ "zoom_start" H)
      as (_ & _ & _ & _ & ->).
    repeat case_decide; try done. exfalso. by destruct_or!.
  - destruct (init_arguments_passed V kwargs _ _ _ _ _ "control_scale" H)
      as (_ & _ & _ & _ & ->).
    repeat case_decide; try done. exfalso. by destruct_or!.
  - destruct (init_arguments_passed V kwargs _ _ _ _ _ "draw_export" H)
      as (_ & _ & _ & _ & ->).
    repeat case_decide; try done. exfalso. by destruct_or!.
  - intros k Hk. apply Hdrop in Hk.
    destruct (init_arguments_passed V kwargs _ _ _ _ _ k H) as (_ & _ & _ & _ & ->).
    by rewrite decide_True.
  - intros k Hk. rewrite Hkeys in Hk.
    destruct (init_arguments_passed V kwargs _ _ _ _ _ k H) as (_ & _ & _ & _ & ->).
    repeat case_decide; try done; exfalso; tauto.
Qed.

Lemma init_arguments_for_folium_witness :
  let given := KVal (VList [VInt 10; VInt 20]) in
  let kwargs : gmap string kwval :=
    <["center" := given]> (<["location" := KVal (VList [VInt 1; VInt 2])]>
      (<["zoom" := KVal (VInt 7)]> (<["height" := KVal (VStr "600px")]> ∅))) in
  let passed : gmap string kwval :=
    <["location" := given]> (<["zoom_start" := KVal (VInt 7)]>
      (<["control_scale" := KVal (VBool true)]> (<["draw_export" := KVal (VBool false)]> ∅))) in
  given = default (default (KVal (VList [VInt 40; VInt (-100)])) (kwargs !! "location"))
            (kwargs !! "center")
  ∧ passed !! "location" = Some given.
Proof.
  intros given kwargs passed.
  pose proof (init_arguments_for_folium sample_services kwargs given (KVal (VInt 7))
                (KVal (VFloat 600)) (KVal VNone) passed) as H.
  destruct H as (H1 & _ & H2 & _); [reflexivity|]. by split.
Defined.

(** *** The constructor: the figure, the controls and the base layer *)

Lemma control_fst (key : string) (on : bool) (element : init_child)
    (kwargs : gmap string kwval) :
  (Map.control key on element kwargs).1 = if flag_of kwargs key on then [element] else [].
Proof.
  unfold Map.control, flag_of. rewrite <- setdefault_get_fst.
  by destruct (Map.setdefault_get key _ kwargs).
Qed.

Lemma control_lookup (key : string) (on : bool) (element : init_child)
    (kwargs : gmap string kwval) (k : string) :
  k ≠ key → (Map.control key on element kwargs).2 !! k = kwargs !! k.
Proof.
  intros Hk. unfold Map.control.
  pose proof (setdefault_get_lookup key (KVal (VBool on)) kwargs k) as H.
  destruct (Map.setdefault_get key _ kwargs) as [flag kwargs']. simpl in *.
  by rewrite H, decide_False.
Qed.

Lemma google_layer_ext (kwargs kwargs' : gmap string kwval) :
  kwargs !! "google_map" = kwargs' !! "google_map" →
  Map.google_layer kwargs = Map.google_layer kwargs'.
Proof. unfold Map.google_layer. by intros ->. Qed.

(** [init] without its local names. *)
Lemma init_run (V : Services) (kwargs : gmap string kwval) :
  Map.init V kwargs
  = match Map.init_arguments V kwargs with
    | Err e => Err e
    | Ok (latlon, zoom, height, width, passed) =>
        match folium_map_init V passed with
        | Err e => Err e
        | Ok _ =>
            let c1 := Map.control "fullscreen_control" true Fullscreen passed in
            let c2 := Map.control "draw_control" true
                        (Draw (default (KVal VNone) (c1.2 !! "draw_export"))) c1.2 in
            let c3 := Map.control "measure_control" true (MeasureControl "bottomleft") c2.2 in
            let c4 := Map.control "latlon_control" true LatLngPopup c3.2 in
            let c5 := Map.control "minimap_control" false MiniMap c4.2 in
            match Map.google_layer c5.2 with
            | Err e => Err e
            | Ok (layers, lines) =>
                Ok {| folium_kwargs := passed;
                      baseclass := "folium";
                      figure := if negb (kw_is_none height) || negb (kw_is_none width)
                                then Some (width, height) else None;
                      added := c1.1 ++ c2.1 ++ c3.1 ++ c4.1 ++ c5.1 ++ layers
                               ++ [ViewFit [latlon; latlon] zoom];
                      layers_control_option :=
                        default (KVal (VBool true)) (c5.2 !! "layers_control");
                      printed := lines |}
            end
        end
    end.
Proof.
  unfold Map.init, mbind, result_bind.
  destruct (Map.init_arguments V kwargs) as [[[[[latlon zoom] height] width] passed]|];
    [|done].
  destruct (folium_map_init V passed); [|done].
  destruct (Map.control "fullscreen_control" _ _ _) as [l1 kw1]. simpl fst. simpl snd.
  destruct (Map.control "draw_control" _ _ _) as [l2 kw2]. simpl fst. simpl snd.
  destruct (Map.control "measure_control" _ _ _) as [l3 kw3]. simpl fst. simpl snd.
  destruct (Map.control "latlon_control" _ _ _) as [l4 kw4]. simpl fst. simpl snd.
  destruct (Map.control "minimap_control" _ _ _) as [l5 kw5]. simpl fst. simpl snd.
  by destruct (Map.google_layer kw5) as [[layers lines]|].
Qed.

(** A closed key is none of the keys of a list. *)
Ltac key_not_in :=
  let H := fresh in
  unfold init_keys; intros H;
  repeat (apply elem_of_cons in H as [H|H]; [discriminate H|]);
  by apply elem_of_nil in H.

(** X18. What the constructor adds to a new map, read off the caller's
    keyword arguments: the full-screen, draw, measure and position controls
    unless their flag is given and counts as false, the minimap when its
    flag is given and counts as true, in this order; then the base layer
    that "google_map" stands for, if any; then a fit of the view on the
    centre, twice, with the zoom as the upper bound.  The draw control gets
    the caller's "draw_export" (false when there is none), and the
    [layersControl] option is the caller's "layers_control" (true when
    there is none). *)
Theorem init_children (V : Services) (kwargs : gmap string kwval) (c : Constructed) :
  Map.init V kwargs = Ok c →
  ∃ latlon zoom layers,
    Map.google_layer kwargs = Ok (layers, printed c)
    ∧ folium_kwargs c !! "location" = Some latlon
    ∧ folium_kwargs c !! "zoom_start" = Some zoom
    ∧ added c
      = (if flag_of kwargs "fullscreen_control" true then [Fullscreen] else [])
        ++ (if flag_of kwargs "draw_control" true
            then [Draw (default (KVal (VBool false)) (kwargs !! "draw_export"))] else [])
        ++ (if flag_of kwargs "measure_control" true then [MeasureControl "bottomleft"] else [])
        ++ (if flag_of kwargs "latlon_control" true then [LatLngPopup] else [])
        ++ (if flag_of kwargs "minimap_control" false then [MiniMap] else [])
        ++ layers ++ [ViewFit [latlon; latlon] zoom]
    ∧ layers_control_option c = default (KVal (VBool true)) (kwargs !! "layers_control")
    ∧ baseclass c = "folium".
Proof.
  rewrite init_run.
  destruct (Map.init_arguments V kwargs) as [[[[[latlon zoom] height] width] passed]|] eqn:Ha;
    [|done].
  destruct (folium_map_init V passed); [|done]. cbv zeta.
  assert (∀ k, k ∉ init_keys → passed !! k = kwargs !! k) as Hother.
  { intros k Hk. destruct (init_arguments_passed V kwargs _ _ _ _ _ k Ha) as (_&_&_&_& ->).
    unfold init_keys in Hk. rewrite !elem_of_cons, elem_of_nil in Hk.
    repeat case_decide; try done; exfalso; tauto. }
  assert (passed !! "draw_export"
          = Some (default (KVal (VBool false)) (kwargs !! "draw_export"))) as Hexport.
  { destruct (init_arguments_passed V kwargs _ _ _ _ _ "draw_export" Ha) as (_&_&_&_& ->).
    repeat case_decide; try done. exfalso. by destruct_or!. }
  assert (passed !! "location" = Some latlon) as Hlocation.
  { destruct (init_arguments_passed V kwargs _ _ _ _ _ "location" Ha) as (_&_&_&_& ->).
    repeat case_decide; try done. exfalso. by destruct_or!. }
  assert (passed !! "zoom_start" = Some zoom) as Hzoom.
  { destruct (init_arguments_passed V kwargs _ _ _ _ _ "zoom_start" Ha) as (_&_&_&_& ->).
    repeat case_decide; try done. exfalso. by destruct_or!. }
  rewrite (google_layer_ext _ kwargs)
    by (rewrite !control_lookup by done; apply Hother; key_not_in).
  destruct (Map.google_layer kwargs) as [[layers lines]|]; [|done].
  intros H. injection H as <-. simpl. exists latlon, zoom, layers.
  split; [done|]. split; [done|]. split; [done|]. split; [|split; [|done]].
  - rewrite !control_fst. unfold flag_of. rewrite !control_lookup by done.
    rewrite Hexport. simpl. by rewrite !Hother by key_not_in.
  - rewrite !control_lookup by done. by rewrite Hother by key_not_in.
Qed.

Lemma init_children_witness :
  match Map.init sample_services {[ "minimap_control" := KVal (VBool true) ]} with
  | Ok c =>
      ∃ latlon zoom layers,
        added c = [Fullscreen; Draw (KVal (VBool false)); MeasureControl "bottomleft";
                   LatLngPopup; MiniMap] ++ layers ++ [ViewFit [latlon; latlon] zoom]
  | Err _ => False
  end.
Proof.
  destruct (Map.init sample_services {[ "minimap_control" := KVal (VBool true) ]})
    as [c|e] eqn:H; [|vm_compute in H; discriminate H].
  destruct (init_children sample_services _ c H) as (latlon & zoom & layers & _ & _ & _ & Ha & _).
  exists latlon, zoom, layers. exact Ha.
Defined.

(** X19. The figure of a new map.  A height or a width given as a string is
    converted with [float] after every "px" is taken out, and a string that
    [float] refuses makes the constructor raise.  The map is put in a figure
    of the sizes given when one of them is given and is not [None]. *)
Theorem init_figure (V : Services) (kwargs : gmap string kwval) :
  (∀ c, Map.init V kwargs = Ok c →
        figure c
        = if kw_is_none (size_of V kwargs "height") && kw_is_none (size_of V kwargs "width")
          then None
          else Some (size_of V kwargs "width", size_of V kwargs "height"))
  ∧ (∀ text e,
       kwargs !! "height" = Some (KVal (VStr text)) →
       py_float V (str_replace text "px" "") = Err e →
       Map.init V kwargs = Err e)
  ∧ (∀ text e,
       kwargs !! "width" = Some (KVal (VStr text)) →
       py_float V (str_replace text "px" "") = Err e →
       ∃ e', Map.init V kwargs = Err e').
Proof.
  split; [|split].
  - intros c. rewrite init_run.
    destruct (Map.init_arguments V kwargs) as [[[[[latlon zoom] height] width] passed]|] eqn:Ha;
      [|done].
    destruct (init_arguments_passed V kwargs _ _ _ _ _ "" Ha) as (_ & _ & -> & -> & _).
    destruct (folium_map_init V passed); [|done]. cbv zeta.
    destruct (Map.google_layer _) as [[layers lines]|]; [|done].
    intros H. injection H as <-. simpl.
    by destruct (kw_is_none (size_of V kwargs "height")),
                (kw_is_none (size_of V kwargs "width")).
  - intros text e Hh He. rewrite init_run, init_arguments_run. cbv zeta.
    destruct (init_aliases_lookup kwargs "height") as (_ & _ & Hk). cbv zeta in Hk.
    assert (∀ kw5 : gmap string kwval,
              kw5 !! "height" = Some (KVal (VStr text)) →
              Map.px_to_float V "height" kw5 = Err e) as Hpx.
    { intros kw5 H5. unfold Map.px_to_float. by rewrite H5, He. }
    rewrite Hpx; [done|]. rewrite Hk, <- Hh.
    repeat case_decide; try done; exfalso; by destruct_or!.
  - intros text e Hw He. rewrite init_run, init_arguments_run. cbv zeta.
    destruct (init_aliases_lookup kwargs "width") as (_ & _ & Hk). cbv zeta in Hk.
    destruct (Map.px_to_float V "height" _) as [kw6|e6] eqn:H6; [|by exists e6].
    pose proof (px_to_float_lookup V "height" _ kw6 "width" H6) as H6w.
    rewrite decide_False in H6w by done.
    assert (Map.px_to_float V "width" kw6 = Err e) as ->; [|by exists e].
    unfold Map.px_to_float. rewrite H6w, Hk.
    assert (kwargs !! "width" = Some (KVal (VStr text)) →
            (if decide ("width" = "center" ∨ "width" = "zoom") then None
             else if decide ("width" = "location") then Some (Map.setdefault_get "location"
                    (KVal (VList [VInt 40; VInt (-100)]))
                    (Map.rename_key "center" "location" kwargs)).1
             else if decide ("width" = "zoom_start") then Some (Map.setdefault_get "zoom_start"
                    (KVal (VInt 4)) (Map.rename_key "zoom" "zoom_start"
                       (Map.setdefault_get "location" (KVal (VList [VInt 40; VInt (-100)]))
                          (Map.rename_key "center" "location" kwargs)).2)).1
             else if decide ("width" = "control_scale")
                  then Some (default (KVal (VBool true)) (kwargs !! "control_scale"))
             else if decide ("width" = "draw_export")
                  then Some (default (KVal (VBool false)) (kwargs !! "draw_export"))
             else kwargs !! "width") = Some (KVal (VStr text))) as Hsame.
    { intros ->. repeat case_decide; try done; exfalso; by destruct_or!. }
    by rewrite (Hsame Hw), He.
Qed.

Lemma init_figure_witness :
  Map.init sample_services {[ "height" := KVal (VStr "tall") ]}
  = Err (ValueError "could not convert string to float").
Proof.
  refine (proj1 (proj2 (init_figure sample_services {[ "height" := KVal (VStr "tall") ]}))
            "tall" (ValueError "could not convert string to float") _ _); reflexivity.
Defined.

(** *** The constructor: the base layer *)

(** X20. The base layer that "google_map" stands for.  Without the argument
    the road map is added; with [None] nothing is added, and [None] is the
    only value for which nothing is added; a value that is neither [None]
    nor a string makes the constructor raise an [AttributeError].  The name
    is read without regard to case.  At most one layer is added, always a
    Google layer that the layer control lists; a line is printed only for a
    name that is none of the four, and then the road map is added. *)
Theorem google_map_choice (kwargs : gmap string kwval) :
  (kwargs !! "google_map" = None →
   Map.google_layer kwargs = Ok ([Map.google_roadmap], []))
  ∧ (∀ layers lines,
       Map.google_layer kwargs = Ok (layers, lines) →
       (layers = [] ↔ kwargs !! "google_map" = Some (KVal VNone))
       ∧ (layers = []
          ∨ ∃ tiles name, layers = [GoogleTileLayer tiles "Google" name true true])
       ∧ (lines = []
          ∨ ∃ name, kwargs !! "google_map" = Some (KVal (VStr name))
                    ∧ (str_upper name ∉ ["ROADMAP"; "HYBRID"; "TERRAIN"; "SATELLITE"])
                    ∧ lines = [Map.invalid_google_map name]
                    ∧ layers = [Map.google_roadmap]))
  ∧ (∀ g, kwargs !! "google_map" = Some g →
          kw_is_none g = false → (∀ name, g ≠ KVal (VStr name)) →
          Map.google_layer kwargs = Err (AttributeError "object has no attribute 'upper'"))
  ∧ (∀ kwargs' name name',
       kwargs !! "google_map" = Some (KVal (VStr name)) →
       kwargs' !! "google_map" = Some (KVal (VStr name')) →
       str_upper name = str_upper name' →
       ∃ layers lines lines',
         Map.google_layer kwargs = Ok (layers, lines)
         ∧ Map.google_layer kwargs' = Ok (layers, lines')).
Proof.
  split; [|split; [|split]].
  - unfold Map.google_layer. by intros ->.
  - intros layers lines. unfold Map.google_layer.
    destruct (kwargs !! "google_map") as [g|] eqn:Hg.
    + destruct g as [[| | | |name| | |]|]; simpl; try done.
      * intros H. injection H as <- <-. split; [done|]. split; by left.
      * unfold mbind, result_bind. simpl.
        destruct (String.eqb (str_upper name) "ROADMAP") eqn:H1;
          [|destruct (String.eqb (str_upper name) "HYBRID") eqn:H2;
            [|destruct (String.eqb (str_upper name) "TERRAIN") eqn:H3;
              [|destruct (String.eqb (str_upper name) "SATELLITE") eqn:H4]]];
          intros H; injection H as <- <-;
          (split; [split; intros; done|]);
          (split; [right; by do 2 eexists|]); try by left.
        right. exists name. split; [done|]. split; [|done].
        apply String.eqb_neq in H1, H2, H3, H4. intros Hin.
        repeat (apply elem_of_cons in Hin as [Hin|Hin]; [done|]). by apply elem_of_nil in Hin.
    + intros H. injection H as <- <-. split; [done|]. split; [|by left].
      right. by do 2 eexists.
  - intros g Hg Hnone Hstr. unfold Map.google_layer. rewrite Hg, Hnone.
    destruct g as [[| | | |name| | |]|]; try done. by destruct (Hstr name).
  - intros kwargs' name name' Hg Hg' Hupper. unfold Map.google_layer.
    rewrite Hg, Hg'. simpl. unfold mbind, result_bind. simpl. rewrite <- Hupper.
    repeat case_match; by do 3 eexists.
Qed.

Lemma google_map_choice_witness :
  ∃ layers lines lines',
    Map.google_layer {[ "google_map" := KVal (VStr "Terrain") ]} = Ok (layers, lines)
    ∧ Map.google_layer {[ "google_map" := KVal (VStr "TERRAIN") ]} = Ok (layers, lines').
Proof.
  refine (proj2 (proj2 (proj2 (google_map_choice {[ "google_map" := KVal (VStr "Terrain") ]})))
            {[ "google_map" := KVal (VStr "TERRAIN") ]} "Terrain" "TERRAIN" _ _ _);
    reflexivity.
Defined.

(** *** Basemaps *)

Lemma existsb_same_name (e : Element) (l : list Element) :
  existsb (λ c, String.eqb (get_name c) (get_name e)) l = true
  ↔ get_name e ∈ get_name <$> l.
Proof.
  induction l as [|c l IH]; simpl.
  - split; [done|]. intros H. by apply elem_of_nil in H.
  - rewrite orb_true_iff, IH, elem_of_cons, String.eqb_eq. split; intros [H|H]; auto.
Qed.

Lemma replace_same_name_absent (e : Element) (l : list Element) :
  existsb (λ c, String.eqb (get_name c) (get_name e)) l = false →
  (λ c, if String.eqb (get_name c) (get_name e) then e else c) <$> l = l.
Proof.
  induction l as [|c l IH]; [done|]. intros H. simpl in H.
  apply orb_false_iff in H as [Hc Hl]. rewrite fmap_cons, Hc. by rewrite IH.
Qed.

Lemma replace_same_name_twice (e : Element) (l : list Element) :
  let replace := λ c, if String.eqb (get_name c) (get_name e) then e else c in
  replace <$> (replace <$> l) = replace <$> l.
Proof.
  intros replace. rewrite <- list_fmap_compose. apply list_fmap_ext. intros i c _.
  unfold replace, compose. destruct (String.eqb (get_name c) (get_name e)) eqn:Hc.
  - by rewrite String.eqb_refl.
  - by rewrite Hc.
Qed.

Lemma add_existing_child_twice (e : Element) (s : State) :
  Map.add_existing_child e (Map.add_existing_child e s).1
  = ((Map.add_existing_child e s).1, Ok tt).
Proof.
  unfold Map.add_existing_child, modify. simpl. f_equal.
  destruct s as [children0 ? ? ? ? ? ? ? ?]. unfold set_children. simpl. f_equal.
  destruct (existsb _ children0) eqn:Hin.
  - assert (existsb (λ c, String.eqb (get_name c) (get_name e))
              ((λ c, if String.eqb (get_name c) (get_name e) then e else c) <$> children0)
            = true) as ->.
    { apply existsb_same_name. apply existsb_same_name in Hin.
      apply list_elem_of_fmap in Hin as (c & Hname & Hc).
      apply list_elem_of_fmap. exists e. split; [done|].
      apply list_elem_of_fmap. exists c. split; [|done].
      by rewrite <- Hname, String.eqb_refl. }
    apply replace_same_name_twice.
  - assert (existsb (λ c, String.eqb (get_name c) (get_name e)) (children0 ++ [e]) = true)
      as ->.
    { rewrite existsb_app. simpl. by rewrite String.eqb_refl, orb_true_r. }
    rewrite fmap_app. simpl. rewrite String.eqb_refl.
    by rewrite replace_same_name_absent.
Qed.

(** X21. [add_basemap].  A name that is no basemap raises nothing: the list
    of the names is printed and the map is left as it is.  A basemap is one
    shared layer: it is appended when it is no child of the map yet, and
    adding it once more changes nothing. *)
Theorem add_basemap_cases (V : Services) (basemap : string) (s : State) :
  (filter (λ e, String.eqb e.1 basemap = true) (folium_basemaps V) = [] →
   Map.add_basemap V basemap s
   = (set_stdout (λ out, out ++ [Map.basemap_message V]) s, Ok tt))
  ∧ (∀ key layer rest,
       filter (λ e, String.eqb e.1 basemap = true) (folium_basemaps V)
       = (key, layer) :: rest →
       let s1 := (Map.add_basemap V basemap s).1 in
       (Map.add_basemap V basemap s).2 = Ok tt
       ∧ (get_name layer ∉ to_dict_children s → children s1 = children s ++ [layer])
       ∧ (get_name layer ∈ to_dict_children s → to_dict_children s1 = to_dict_children s)
       ∧ stdout s1 = stdout s
       ∧ Map.add_basemap V basemap s1 = (s1, Ok tt)).
Proof.
  split.
  - intros Hf. unfold Map.add_basemap. by rewrite Hf.
  - intros key layer rest Hf s1. unfold s1, Map.add_basemap. rewrite Hf.
    split; [done|]. split; [|split; [|split; [done|]]].
    + intros Hnew. unfold Map.add_existing_child, modify. simpl.
      destruct (existsb _ (children s)) eqn:Hin; [|done].
      apply existsb_same_name in Hin. done.
    + intros Hold. unfold Map.add_existing_child, modify, to_dict_children. simpl.
      apply existsb_same_name in Hold. rewrite Hold.
      rewrite <- list_fmap_compose. apply list_fmap_ext. intros i c _. simpl.
      destruct (String.eqb (get_name c) (get_name layer)) eqn:Hc; [|done].
      by apply String.eqb_eq in Hc.
    + apply add_existing_child_twice.
Qed.

Lemma add_basemap_cases_witness :
  Map.add_basemap sample_services "Esri" sample_state
  = (set_stdout (λ out, out ++ ["Basemap can only be one of the following: OpenStreetMap, HYBRID"])
       sample_state, Ok tt).
Proof.
  refine (proj1 (add_basemap_cases sample_services "Esri" sample_state) _). reflexivity.
Defined.

(** *** Static maps *)

Lemma string_length_app (a b : string) :
  String.length (a +:+ b) = (String.length a + String.length b)%nat.
Proof. induction a as [|c a IH]; [done|]. rewrite string_app_cons. simpl. by rewrite IH. Qed.

Lemma substring_app_suffix (pre p : string) :
  String.substring (String.length pre) (String.length p) (pre +:+ p) = p.
Proof.
  induction pre as [|c pre IH]; [apply substring_all|]. by rewrite string_app_cons.
Qed.

Lemma endswith_app (pre p : string) : endswith (pre +:+ p) p = true.
Proof.
  unfold endswith. rewrite string_length_app.
  replace (String.length pre + String.length p - String.length p)%nat
    with (String.length pre) by lia.
  rewrite substring_app_suffix, String.eqb_refl, andb_true_r. apply Nat.leb_le. lia.
Qed.

(** The layer control is added by what the map holds, not by the files or
    the draws. *)
Lemma ensure_layer_control_same_map (s s1 : State) :
  children s1 = children s → root_children s1 = root_children s →
  layersControl s1 = layersControl s → next_id s1 = next_id s →
  children (ensure_layer_control s1) = children (ensure_layer_control s)
  ∧ root_children (ensure_layer_control s1) = root_children s
  ∧ files (ensure_layer_control s1) = files s1
  ∧ draws (ensure_layer_control s1) = draws s1.
Proof.
  intros Hc Hr Ho Hn. unfold ensure_layer_control. rewrite Ho.
  destruct (layersControl s); [|done]. rewrite !add_layer_control_cases. simpl.
  rewrite (count_layer_controls_children s s1 Hc).
  destruct (count_layer_controls s =? 0)%nat; [|done]. simpl. by rewrite Hc, Hn.
Qed.

(** The directory step of [static_map], followed by the rest. *)
Lemma ensure_directory {A} (d : list string) (rest : M A) (s : State) :
  existsb (is_file s) (ancestors d) = false →
  (found ← path_exists d; when (negb found) (makedirs d);; rest) s
  = rest (if is_dir s d then s else set_dirs (λ ds, ds ∪ list_to_set (ancestors d)) s).
Proof.
  intros Hanc.
  pose proof (existsb_false_elem _ _ d Hanc (elem_of_ancestors_self d)) as Hnofile.
  unfold mbind, M_bind, path_exists, when, makedirs. rewrite Hnofile, orb_false_r.
  destruct (is_dir s d) eqn:Hd; [done|]. simpl. by rewrite Hd, Hanc.
Qed.

Lemma nil_in_ancestors (p : list string) : [] ∈ ancestors p.
Proof. destruct p; apply list_elem_of_here. Qed.

(** X22. [static_map].  The directory of the file is made before the file
    name is looked at: for a name that does not end in ".html" the call
    raises a [ValueError] with the directory made and the layer control
    asked for, and nothing is displayed.  Without a name, the file is
    "./cache/folium_" followed by a random string and ".html", so the
    extension is never refused: when that name is no directory, neither
    before the call nor among the directories the call makes, the document
    of the map is written there, rendered without the caller's keyword
    arguments, and the file is handed to [display_html]. *)
Theorem static_map_steps (E : Collaborators) (V : Services) (width height : pyval)
    (kwargs : gmap string kwval) (s : State) :
  (∀ out_file,
     let d := abspath E (abspath_str V (dirname_str V out_file)) in
     endswith out_file ".html" = false →
     existsb (is_file s) (ancestors d) = false →
     Map.static_map E V width height (Some out_file) kwargs s
     = (ensure_layer_control
          (if is_dir s d then s else set_dirs (λ ds, ds ∪ list_to_set (ancestors d)) s),
        Err (ValueError "The output file extension must be html.")))
  ∧ (let out_file := "./cache/" +:+ "folium_" +:+ random_string_of V 3 (draws s) +:+ ".html" in
     let d := abspath E (abspath_str V (dirname_str V out_file)) in
     existsb (is_file s) (ancestors d) = false →
     existsb (is_file s) (ancestors (dirname (abspath E out_file))) = false →
     is_dir s (abspath E out_file) = false →
     abspath E out_file ∉ ancestors d →
     ∃ s',
       Map.static_map E V width height None kwargs s = display_html V out_file width height s'
       ∧ files s'
         = <[abspath E out_file
               := render E (children (ensure_layer_control s)) (root_children s) ∅]> (files s)
       ∧ children s' = children (ensure_layer_control s)).
Proof.
  split.
  - intros out_file d Hext Hanc. unfold Map.static_map.
    rewrite bind_ok with (s' := s) (x := out_file) by done. fold d.
    rewrite (ensure_directory d _ s Hanc).
    unfold mbind at 1, M_bind at 1. rewrite to_html_path_steps. by rewrite Hext.
  - intros out_file d Hanc Hanc' Htarget Hfresh. unfold Map.static_map.
    rewrite bind_ok with (s' := set_draws S s) (x := out_file) by done. fold d.
    rewrite (ensure_directory d _ (set_draws S s)) by exact Hanc.
    set (s1 := if is_dir (set_draws S s) d then set_draws S s
               else set_dirs (λ ds, ds ∪ list_to_set (ancestors d)) (set_draws S s)).
    assert (children s1 = children s ∧ root_children s1 = root_children s
            ∧ layersControl s1 = layersControl s ∧ next_id s1 = next_id s
            ∧ files s1 = files s) as (Hc & Hr & Ho & Hn & Hf).
    { unfold s1. by destruct (is_dir (set_draws S s) d). }
    assert (is_dir s1 (abspath E out_file) = false) as Htarget1.
    { unfold s1. destruct (is_dir (set_draws S s) d); [exact Htarget|].
      unfold is_dir in *. apply bool_decide_eq_false. apply bool_decide_eq_false in Htarget.
      simpl. rewrite elem_of_union, elem_of_list_to_set. by intros [?|?]. }
    destruct (ensure_layer_control_same_map s s1 Hc Hr Ho Hn) as (Hc' & Hr' & Hf' & _).
    assert (endswith out_file ".html" = true) as Hext.
    { unfold out_file. rewrite <- !string_app_assoc. apply endswith_app. }
    destruct (export_to_path E out_file ∅ (ensure_layer_control s1) Hext)
      as (s' & Hrun & Hfiles & _ & _ & Hchildren & _).
    { rewrite <- Hanc'. apply existsb_pointwise. intros p. unfold is_file.
      by rewrite Hf', Hf. }
    { intros Hnil. apply Hfresh. rewrite Hnil. apply nil_in_ancestors. }
    { rewrite <- Htarget1. unfold is_dir.
      by rewrite (proj1 (ensure_layer_control_world s1)). }
    exists s'. split; [|split].
    + unfold mbind at 1, M_bind at 1. rewrite to_html_path_steps, Hrun. done.
    + by rewrite Hfiles, Hc', Hr', Hf', Hf.
    + by rewrite Hchildren, Hc'.
Qed.

Lemma static_map_steps_witness :
  Map.static_map (sample fixed_center) sample_services (VInt 950) (VInt 600)
    (Some "maps/world.htm") ∅ sample_state
  = (ensure_layer_control
       (set_dirs (λ ds, ds ∪ list_to_set (ancestors ["home"; "user"; "maps"])) sample_state),
     Err (ValueError "The output file extension must be html."))
  ∧ ∃ s',
      Map.static_map (sample fixed_center) sample_services (VInt 950) (VInt 600) None ∅
        sample_state
      = display_html sample_services "./cache/folium_s0.html" (VInt 950) (VInt 600) s'
      ∧ files s' !! ["home"; "user"; "."; "cache"; "folium_s0.html"]
        = Some "<html>layer_control_0</html>".
Proof.
  pose proof (static_map_steps (sample fixed_center) sample_services (VInt 950) (VInt 600)
                ∅ sample_state) as [Hbad Hnone].
  split.
  - refine (Hbad "maps/world.htm" _ _); reflexivity.
  - destruct Hnone as (s' & Hrun & Hfiles & _); [reflexivity|reflexivity|reflexivity| |].
    + vm_compute. intros Hin.
      repeat (apply elem_of_cons in Hin as [Hin|Hin]; [discriminate Hin|]).
      by apply elem_of_nil in Hin.
    + exists s'. split; [exact Hrun|]. rewrite Hfiles. reflexivity.
Defined.

(** *** Colour bars *)

(** X23. The colour map of [add_colorbar] for a list of colour strings.
    What goes to branca's [LinearColormap] is this: when every string is
    six characters long, each with a "#" put in front, whether it is six
    hexadecimal digits or a colour name of six letters; otherwise the list
    as it is.  When branca refuses these colours the call raises branca's
    error.  When it accepts them, the colour map is cut in steps only when
    [categorical] is true: in [step] steps when [step] is given, else in
    one step less than [index] has values when [index] is given, else in
    three steps; and [to_step] may raise in turn.  In all these cases the
    state is as it was.  A [Box] of colours without a "default" entry
    prints a line and raises a generic exception. *)
Theorem colorbar_colors_and_steps (V : Services) (strs : list string)
    (vmin vmax index caption : pyval) (categorical step : pyval) (s : State) :
  let colors :=
    VList (if forallb (λ c, (String.length c =? 6)%nat) strs
           then (λ c, VStr ("#" +:+ c)) <$> strs else VStr <$> strs) in
  let plain := mkColormap colors index vmin vmax caption None in
  let run := Map.add_colorbar_colormap V (PlainColors (VList (VStr <$> strs)))
               vmin vmax index caption categorical step s in
  (∀ e, linear_colormap V colors index vmin vmax caption = Err e → run = (s, Err e))
  ∧ (linear_colormap V colors index vmin vmax caption = Ok tt →
     (py_truthy (KVal categorical) = false → run = (s, Ok plain))
     ∧ (py_truthy (KVal categorical) = true →
        (is_none step = false → run = (s, Map.cut_in_steps V plain step))
        ∧ (is_none step = true → is_none index = true →
           run = (s, Map.cut_in_steps V plain (VInt 3)))
        ∧ (∀ n, is_none step = true → is_none index = false → py_len index = Ok n →
                run = (s, Map.cut_in_steps V plain (VInt (Z.of_nat n - 1))))
        ∧ (∀ n, colormap_to_step V plain n = Ok tt →
                Map.cut_in_steps V plain n
                = Ok (mkColormap colors index vmin vmax caption (Some n)))
        ∧ (∀ n e, colormap_to_step V plain n = Err e →
                  Map.cut_in_steps V plain n = Err e)))
  ∧ (∀ kv, filter (λ e, str_key "default" e = true) kv = [] →
           Map.add_colorbar_colormap V (BoxColors kv) vmin vmax index caption categorical
             step s
           = (set_stdout (λ out, out ++ ["The provided color list is invalid."]) s,
              Err (Exception (KeyError "default")))).
Proof.
  intros colors plain run.
  assert (∀ rest : pyval → M Colormap,
            (colors0 ← (mret (VList (VStr <$> strs)) : M pyval);
             items ← lift (py_list colors0);
             six ← lift (py_all (λ color, n ← py_len color; Ok (n =? 6)%nat) items);
             colors1 ← lift (if (six : bool)
                             then l ← mapM Map.hash_plus items; Ok (VList l)
                             else Ok colors0);
             rest colors1) s = rest colors s) as Hcolors.
  { intros rest. unfold mbind at 1, M_bind at 1, mret, M_ret. simpl py_list.
    rewrite bind_lift_ok, py_all_six_strs, bind_lift_ok. unfold colors.
    destruct (forallb _ strs); [|done]. by rewrite mapM_hash_plus. }
  split; [|split].
  - intros e He. unfold run, Map.add_colorbar_colormap. rewrite Hcolors.
    by rewrite He, bind_lift_err.
  - intros Hok.
    split.
    + intros Hcat. unfold run, Map.add_colorbar_colormap. rewrite Hcolors.
      rewrite Hok, bind_lift_ok. by rewrite Hcat.
    + intros Hcat. unfold run, Map.add_colorbar_colormap. rewrite Hcolors.
      rewrite Hok, bind_lift_ok, Hcat. fold plain.
      split; [|split; [|split; [|split]]].
      * by intros ->.
      * by intros -> ->.
      * intros n -> -> Hn. simpl. by rewrite Hn, bind_lift_ok.
      * intros n Hn. unfold Map.cut_in_steps. by rewrite Hn.
      * intros n e Hn. unfold Map.cut_in_steps. by rewrite Hn.
  - intros kv Hkv. unfold Map.add_colorbar_colormap, dict_get. rewrite Hkv.
    done.
Qed.

Lemma colorbar_colors_and_steps_witness :
  Map.add_colorbar_colormap sample_services (PlainColors (VList [VStr "yellow"; VStr "purple"]))
    (VInt 0) (VInt 1) VNone (VStr "") (VBool true) VNone sample_state
  = (sample_state, Err (ValueError "Unrecognized color code"))
  ∧ Map.add_colorbar_colormap sample_services
      (PlainColors (VList [VStr "ff0000"; VStr "0000ff"]))
      (VInt 0) (VInt 1) VNone (VStr "") (VBool true) VNone sample_state
    = (sample_state,
       Ok (mkColormap (VList [VStr "#ff0000"; VStr "#0000ff"]) VNone (VInt 0) (VInt 1)
             (VStr "") (Some (VInt 3)))).
Proof.
  split.
  - exact (proj1 (colorbar_colors_and_steps sample_services ["yellow"; "purple"] (VInt 0)
                    (VInt 1) VNone (VStr "") (VBool true) VNone sample_state)
             (ValueError "Unrecognized color code") eq_refl).
  - destruct (colorbar_colors_and_steps sample_services ["ff0000"; "0000ff"] (VInt 0)
                (VInt 1) VNone (VStr "") (VBool true) VNone sample_state)
      as (_ & Haccepted & _).
    destruct (Haccepted eq_refl) as (_ & Hcategorical).
    destruct (Hcategorical eq_refl) as (_ & Hthree & _).
    exact (Hthree eq_refl eq_refl).
Defined.
